(** * devlog-cli: a shallow embedding of [devlog.js] and its properties

    The program is a linear Node.js script: it reads a JSON configuration
    file, asks git for the last commit, formats one log entry, sends one
    HTTP POST, and can install a git post-commit hook.  Everything it does is
    an effect on the file system, the console, child processes, the clock or
    the network, so the embedding is a reader/state/error monad over an
    explicit world, and each method of the [DevLog] class is one monadic
    definition that follows the JavaScript statement by statement. *)

From Stdlib Require Import ZArith Lia Bool List String Ascii DecimalString.
From Stdlib Require PrimFloat.
From stdpp Require Import base option strings gmap list.

Set Warnings "-register-all,-implicit-create-rewrite-hint-db".

Local Open Scope string_scope.
Local Open Scope Z_scope.

(** ** JavaScript string primitives

    Strings are Rocq [string]s (byte sequences).  They agree with
    JavaScript's UTF-16 strings on every ASCII text; indices of non-ASCII
    text count bytes instead of code units. *)

Module JsString.

Definition nl : string := String "010"%char EmptyString.
Definition dq : string := String "034"%char EmptyString.

(** ASCII part of the ECMAScript WhiteSpace and LineTerminator classes:
    TAB, LF, VT, FF, CR and SPACE. *)
Definition is_space (c : ascii) : bool :=
  let n := nat_of_ascii c in
  ((9 <=? n)%nat && (n <=? 13)%nat) || (n =? 32)%nat.

Fixpoint trimStart (s : string) : string :=
  match s with
  | EmptyString => EmptyString
  | String c r => if is_space c then trimStart r else s
  end.

Fixpoint trimEnd (s : string) : string :=
  match s with
  | EmptyString => EmptyString
  | String c r =>
      match trimEnd r with
      | EmptyString => if is_space c then EmptyString else String c EmptyString
      | r' => String c r'
      end
  end.

(** [s.trim()] *)
Definition trim (s : string) : string := trimEnd (trimStart s).

(** [s.substring(a, b)] on natural indices: both are clamped to the
    length and swapped when [a > b]. *)
Definition substring (a b : nat) (s : string) : string :=
  String.substring (Nat.min a b) (Nat.max a b - Nat.min a b) s.

(** [hay.includes(needle)] *)
Fixpoint includes (needle hay : string) : bool :=
  String.prefix needle hay ||
  match hay with
  | EmptyString => false
  | String _ r => includes needle r
  end.

(** [s.split(c)] for a one-character separator. *)
Fixpoint split (c : ascii) (s : string) : list string :=
  match s with
  | EmptyString => [EmptyString]
  | String x r =>
      if Ascii.eqb x c then EmptyString :: split c r
      else match split c r with
           | [] => [String x EmptyString]
           | h :: t => String x h :: t
           end
  end.

(** Decimal rendering of an integer, as [String(n)] gives for an integer
    valued number. *)
Definition of_Z (n : Z) : string := NilZero.string_of_int (Z.to_int n).

Definition digit (n : Z) : ascii := ascii_of_nat (48 + Z.to_nat (n mod 10)).

(** The last [w] decimal digits of [n], zero padded on the left. *)
Fixpoint padded (w : nat) (n : Z) : string :=
  match w with
  | O => EmptyString
  | S w' => padded w' (n / 10) +:+ String (digit n) EmptyString
  end.

Definition lines (l : list string) : string := String.concat nl l.

End JsString.

(** ** JavaScript values

    The configuration object and the API answer are whatever [JSON.parse]
    returns, so they are modelled as untyped JSON values extended with
    [undefined].  Objects keep their properties in enumeration order. *)

Module Js.

Inductive value : Type :=
| VUndef
| VNull
| VBool (b : bool)
| VNum (x : PrimFloat.float)
| VStr (s : string)
| VArr (xs : list value)
| VObj (props : list (string * value)).

(** The library functions the program calls whose results depend on
    floating-point printing or on the JSON grammar are taken from the
    platform. [JSON_parse] answers [inl msg] when [JSON.parse] throws a
    [SyntaxError] with message [msg]; it never yields [undefined]. *)
Class Runtime := {
  JSON_parse : string -> string + value;
  Number_toString : PrimFloat.float -> string;
}.

(** ToBoolean *)
Definition truthy (v : value) : bool :=
  match v with
  | VUndef | VNull => false
  | VBool b => b
  | VNum x => negb (PrimFloat.is_zero x || PrimFloat.is_nan x)
  | VStr s => negb (String.eqb s "")
  | VArr _ | VObj _ => true
  end.

(** [a || b] *)
Definition or_else (a b : value) : value := if truthy a then a else b.

Fixpoint lookup_prop (k : string) (props : list (string * value)) : value :=
  match props with
  | [] => VUndef
  | (k', v) :: rest => if String.eqb k' k then v else lookup_prop k rest
  end.

(** Assignment [o.k = v] on the property list: an existing key keeps its
    place, a new key goes last (the enumeration order of non-index keys). *)
Fixpoint assign_prop (k : string) (v : value) (props : list (string * value))
  : list (string * value) :=
  match props with
  | [] => [(k, v)]
  | (k', v') :: rest =>
      if String.eqb k' k then (k, v) :: rest else (k', v') :: assign_prop k v rest
  end.

Definition typeof (v : value) : string :=
  match v with
  | VUndef => "undefined"
  | VNull | VArr _ | VObj _ => "object"
  | VBool _ => "boolean"
  | VNum _ => "number"
  | VStr _ => "string"
  end.

Section WithRuntime.
Context `{Runtime}.

(** ToString, as a template literal applies it. *)
Fixpoint ToString (v : value) : string :=
  match v with
  | VUndef => "undefined"
  | VNull => "null"
  | VBool true => "true"
  | VBool false => "false"
  | VNum x => Number_toString x
  | VStr s => s
  | VArr xs =>
      String.concat ","
        ((fix each (l : list value) : list string :=
            match l with
            | [] => []
            | (VUndef | VNull) :: r => "" :: each r
            | x :: r => ToString x :: each r
            end) xs)
  | VObj _ => "[object Object]"
  end.

(** QuoteJSONString *)
Definition hex_digit (n : nat) : ascii :=
  if (n <? 10)%nat then ascii_of_nat (48 + n) else ascii_of_nat (87 + n).

Definition quote_char (c : ascii) : string :=
  let n := nat_of_ascii c in
  if (n =? 34)%nat then "\" +:+ JsString.dq
  else if (n =? 92)%nat then "\\"
  else if (n =? 8)%nat then "\b"
  else if (n =? 9)%nat then "\t"
  else if (n =? 10)%nat then "\n"
  else if (n =? 12)%nat then "\f"
  else if (n =? 13)%nat then "\r"
  else if (n <? 32)%nat then
    "\u00" +:+ String (hex_digit (n / 16)) (String (hex_digit (n mod 16)) "")
  else String c "".

Fixpoint quote_body (s : string) : string :=
  match s with
  | EmptyString => EmptyString
  | String c r => quote_char c +:+ quote_body r
  end.

Definition quote (s : string) : string :=
  JsString.dq +:+ quote_body s +:+ JsString.dq.

Definition number_json (x : PrimFloat.float) : string :=
  if PrimFloat.is_finite x then Number_toString x else "null".

(** SerializeJSONProperty with indentation unit [gap] and current
    indentation [ind]; [None] stands for [undefined]. *)
Fixpoint serialize (gap ind : string) (v : value) : option string :=
  let ind' := ind +:+ gap in
  let wrap (l r : string) (items : list string) : string :=
    match items with
    | [] => l +:+ r
    | _ =>
        if String.eqb gap "" then l +:+ String.concat "," items +:+ r
        else l +:+ JsString.nl +:+ ind'
             +:+ String.concat ("," +:+ JsString.nl +:+ ind') items
             +:+ JsString.nl +:+ ind +:+ r
    end in
  match v with
  | VUndef => None
  | VNull => Some "null"
  | VBool true => Some "true"
  | VBool false => Some "false"
  | VNum x => Some (number_json x)
  | VStr s => Some (quote s)
  | VArr xs =>
      Some (wrap "[" "]"
        ((fix each (l : list value) : list string :=
            match l with
            | [] => []
            | x :: r => default "null" (serialize gap ind' x) :: each r
            end) xs))
  | VObj props =>
      Some (wrap "{" "}"
        ((fix each (l : list (string * value)) : list string :=
            match l with
            | [] => []
            | (k, x) :: r =>
                match serialize gap ind' x with
                | None => each r
                | Some sx =>
                    (quote k +:+ (if String.eqb gap "" then ":" else ": ") +:+ sx)
                      :: each r
                end
            end) props))
  end.

(** [JSON.stringify(v)] for a value that is not [undefined]. *)
Definition JSON_stringify (v : value) : string :=
  default "undefined" (serialize "" "" v).

(** [JSON.stringify(v, null, 2)] *)
Definition JSON_stringify_2 (v : value) : string :=
  default "undefined" (serialize "  " "" v).

End WithRuntime.

End Js.

(** ** The clock: [new Date().toISOString()]

    A time value is the number of milliseconds since the epoch, UTC.  The
    calendar fields are those of ECMAScript's proleptic Gregorian calendar. *)

Module JsDate.

Definition msPerDay : Z := 86400000.

Definition Day (t : Z) : Z := t / msPerDay.
Definition TimeWithinDay (t : Z) : Z := t mod msPerDay.

(** Year, month (1..12) and day of month (1..31) of a day number counted
    from 1970-01-01. *)
Definition civil (days : Z) : Z * Z * Z :=
  let z := days + 719468 in
  let era := z / 146097 in
  let doe := z mod 146097 in
  let yoe := (doe - doe / 1460 + doe / 36524 - doe / 146096) / 365 in
  let doy := doe - (365 * yoe + yoe / 4 - yoe / 100) in
  let mp := (5 * doy + 2) / 153 in
  let d := doy - (153 * mp + 2) / 5 + 1 in
  let m := if mp <? 10 then mp + 3 else mp - 9 in
  let y := yoe + era * 400 + (if m <=? 2 then 1 else 0) in
  (y, m, d).

Definition YearFromTime (t : Z) : Z := fst (fst (civil (Day t))).

(** The calendar as the ECMAScript specification defines it, from tables:
    [civil] is checked against these definitions below. *)
Definition DayFromYear (y : Z) : Z :=
  365 * (y - 1970) + (y - 1969) / 4 - (y - 1901) / 100 + (y - 1601) / 400.

Definition DaysInYear (y : Z) : Z := DayFromYear (y + 1) - DayFromYear y.

Definition InLeapYear (t : Z) : Z :=
  if DaysInYear (YearFromTime t) =? 366 then 1 else 0.

Definition DayWithinYear (t : Z) : Z := Day t - DayFromYear (YearFromTime t).

Definition month_of (dwy leap : Z) : Z :=
  if dwy <? 31 then 0
  else if dwy <? 59 + leap then 1
  else if dwy <? 90 + leap then 2
  else if dwy <? 120 + leap then 3
  else if dwy <? 151 + leap then 4
  else if dwy <? 181 + leap then 5
  else if dwy <? 212 + leap then 6
  else if dwy <? 243 + leap then 7
  else if dwy <? 273 + leap then 8
  else if dwy <? 304 + leap then 9
  else if dwy <? 334 + leap then 10
  else 11.

Definition date_of (dwy leap : Z) : Z :=
  match month_of dwy leap with
  | 0 => dwy + 1
  | 1 => dwy - 30
  | 2 => dwy - 58 - leap
  | 3 => dwy - 89 - leap
  | 4 => dwy - 119 - leap
  | 5 => dwy - 150 - leap
  | 6 => dwy - 180 - leap
  | 7 => dwy - 211 - leap
  | 8 => dwy - 242 - leap
  | 9 => dwy - 272 - leap
  | 10 => dwy - 303 - leap
  | _ => dwy - 333 - leap
  end.

(** Month 0..11 and day of month 1..31. *)
Definition MonthFromTime (t : Z) : Z := month_of (DayWithinYear t) (InLeapYear t).
Definition DateFromTime (t : Z) : Z := date_of (DayWithinYear t) (InLeapYear t).

Definition year_string (y : Z) : string :=
  if (0 <=? y) && (y <=? 9999) then JsString.padded 4 y
  else (if y <? 0 then "-" else "+") +:+ JsString.padded 6 (Z.abs y).

(** The part of the ISO rendering before the [T]. *)
Definition date_string (t : Z) : string :=
  let '(y, m, d) := civil (Day t) in
  year_string y +:+ "-" +:+ JsString.padded 2 m +:+ "-" +:+ JsString.padded 2 d.

Definition time_string (t : Z) : string :=
  let ms := TimeWithinDay t in
  JsString.padded 2 (ms / 3600000) +:+ ":" +:+
  JsString.padded 2 (ms / 60000 mod 60) +:+ ":" +:+
  JsString.padded 2 (ms / 1000 mod 60) +:+ "." +:+
  JsString.padded 3 (ms mod 1000).

Definition toISOString (t : Z) : string :=
  date_string t +:+ "T" +:+ time_string t +:+ "Z".

(** LocalTime of the ECMAScript specification, for a zone whose offset
    from UTC is [offset_minutes]. *)
Definition LocalTime (offset_minutes t : Z) : Z := t + offset_minutes * 60000.

(** A ten-character text of digits with dashes at positions 4 and 7. *)
Definition is_digit (c : ascii) : bool :=
  let n := nat_of_ascii c in (48 <=? n)%nat && (n <=? 57)%nat.

Definition is_YYYY_MM_DD (s : string) : bool :=
  match list_ascii_of_string s with
  | [y1; y2; y3; y4; s1; m1; m2; s2; d1; d2] =>
      forallb is_digit [y1; y2; y3; y4; m1; m2; d1; d2]
      && Ascii.eqb s1 "-" && Ascii.eqb s2 "-"
  | _ => false
  end.

End JsDate.

(** ** [path.join] and [path.dirname] (POSIX flavour) *)

Module Path.

Definition segments (p : string) : list string := JsString.split "/" p.

(** normalizeString: drop empty and [.] segments, resolve [..]. The
    accumulator holds the kept segments in reverse. *)
Fixpoint resolve (absolute : bool) (acc : list string) (segs : list string)
  : list string :=
  match segs with
  | [] => rev acc
  | seg :: rest =>
      if String.eqb seg "" || String.eqb seg "." then resolve absolute acc rest
      else if String.eqb seg ".." then
        match acc with
        | top :: acc' =>
            if String.eqb top ".." then resolve absolute (seg :: acc) rest
            else resolve absolute acc' rest
        | [] =>
            if absolute then resolve absolute acc rest
            else resolve absolute (seg :: acc) rest
        end
      else resolve absolute (seg :: acc) rest
  end.

Definition ends_with_slash (p : string) : bool :=
  match rev (list_ascii_of_string p) with
  | c :: _ => Ascii.eqb c "/"
  | [] => false
  end.

Definition normalize (p : string) : string :=
  if String.eqb p "" then "."
  else
    let absolute := String.prefix "/" p in
    let trailing := ends_with_slash p in
    let body := String.concat "/" (resolve absolute [] (segments p)) in
    let body :=
      if String.eqb body "" then
        (if absolute then "" else if trailing then "./" else ".")
      else if trailing then body +:+ "/" else body in
    if absolute then "/" +:+ body else body.

(** [path.join(...parts)] *)
Definition join (parts : list string) : string :=
  match filter (fun s => s <> "") parts with
  | [] => "."
  | ps => normalize (String.concat "/" ps)
  end.

(** [path.dirname(p)]: the library scans from the end, down to index 1,
    skips trailing slashes and cuts at the first slash it meets after a
    non-slash character, that is at the last slash of index at least 1
    that has a non-slash character somewhere after it. *)
Definition dirname (p : string) : string :=
  if String.eqb p "" then "."
  else
    let hasRoot := String.prefix "/" p in
    let chars := list_ascii_of_string p in
    let fix scan (l : list ascii) (i : nat) : option nat :=
      match l with
      | [] => None
      | c :: r =>
          match scan r (S i) with
          | Some e => Some e
          | None =>
              if Ascii.eqb c "/" && (0 <? i)%nat
                 && existsb (fun x => negb (Ascii.eqb x "/")) r
              then Some i else None
          end
      end in
    match scan chars 0%nat with
    | None => if hasRoot then "/" else "."
    | Some e => if hasRoot && (e =? 1)%nat then "//" else String.substring 0 e p
    end.

End Path.

(** ** The world the process runs in *)

Module Sys.

Inductive node : Type :=
| File (content : string) (mode : Z)
| Dir.

(** What the terminal shows: lines on standard output, lines on standard
    error, and the questions [readline] writes before it reads. *)
Inductive event : Type :=
| Out (line : string)
| Err (line : string)
| Ask (question : string).

Record Response := {
  status : Z;
  statusText : string;
  body : string;
}.

Record Request := {
  url : string;
  method : string;
  headers : list (string * Js.value);
  payload : string;
}.

Inductive fetched : Type :=
| Answer (r : Response)
| NetworkError (msg : string).

(** What the process can only observe. [exec cmd] is [inl out] when the
    child process exits with status 0 and standard output [out], and
    [inr msg] when [execSync] throws an error with message [msg].
    [denied] lists the paths on which the operating system refuses
    access. [import_error] is [Some msg] when the dynamic import of
    [node-fetch] rejects. [zone] is the offset of local time from UTC in
    minutes; the program never reads it. *)
Record Env := {
  homedir : string;
  umask : Z;
  denied : gset string;
  exec : string -> string + string;
  clock : Z;
  zone : Z;
  import_error : option string;
  fetch : Request -> fetched;
}.

(** What the process changes. Paths are keys as the program spells
    them: absolute ones, and ones relative to the working directory. *)
Record State := {
  fs : gmap string node;
  console : list event;
  spawned : list string;
  stdin : list string;
  sent : list Request;
}.

Definition set_fs (f : gmap string node) (s : State) : State :=
  {| fs := f; console := console s; spawned := spawned s;
     stdin := stdin s; sent := sent s |}.
Definition emit (ev : event) (s : State) : State :=
  {| fs := fs s; console := console s ++ [ev]; spawned := spawned s;
     stdin := stdin s; sent := sent s |}.
Definition emits (evs : list event) (s : State) : State :=
  fold_left (fun st ev => emit ev st) evs s.
Definition spawn (cmd : string) (s : State) : State :=
  {| fs := fs s; console := console s; spawned := spawned s ++ [cmd];
     stdin := stdin s; sent := sent s |}.
Definition set_stdin (l : list string) (s : State) : State :=
  {| fs := fs s; console := console s; spawned := spawned s;
     stdin := l; sent := sent s |}.
Definition send (r : Request) (s : State) : State :=
  {| fs := fs s; console := console s; spawned := spawned s;
     stdin := stdin s; sent := sent s ++ [r] |}.

(** How a computation ends: with a value, with a thrown [Error] (of which
    only the message is ever inspected), with [process.exit(code)], or
    waiting for ever on a promise that never settles (end of input at a
    prompt). *)
Inductive outcome (A : Type) : Type :=
| Ret (a : A)
| Throw (msg : string)
| Exit (code : Z)
| Hang.
Arguments Ret {A} a.
Arguments Throw {A} msg.
Arguments Exit {A} code.
Arguments Hang {A}.

Definition M (A : Type) : Type := Env -> State -> outcome A * State.

Definition ret {A} (a : A) : M A := fun _ s => (Ret a, s).

Definition bind {A B} (m : M A) (k : A -> M B) : M B :=
  fun e s =>
    match m e s with
    | (Ret a, s') => k a e s'
    | (Throw msg, s') => (Throw msg, s')
    | (Exit c, s') => (Exit c, s')
    | (Hang, s') => (Hang, s')
    end.

Definition throw {A} (msg : string) : M A := fun _ s => (Throw msg, s).

(** [try { m } catch (error) { h error.message }] *)
Definition try_catch {A} (m : M A) (h : string -> M A) : M A :=
  fun e s =>
    match m e s with
    | (Throw msg, s') => h msg e s'
    | r => r
    end.

Definition process_exit {A} (code : Z) : M A := fun _ s => (Exit code, s).

Definition console_log (line : string) : M unit :=
  fun _ s => (Ret tt, emit (Out line) s).
Definition console_error (line : string) : M unit :=
  fun _ s => (Ret tt, emit (Err line) s).

Definition quoted (p : string) : string := "'" +:+ p +:+ "'".

(** [fs.existsSync] *)
Definition existsSync (p : string) : M bool :=
  fun _ s => (Ret (match fs s !! p with Some _ => true | None => false end), s).

(** [fs.readFileSync(p, 'utf8')] *)
Definition readFileSync (p : string) : M string :=
  fun e s =>
    match fs s !! p with
    | None => (Throw ("ENOENT: no such file or directory, open " +:+ quoted p), s)
    | Some Dir => (Throw "EISDIR: illegal operation on a directory, read", s)
    | Some (File c _) =>
        if decide (p ∈ denied e)
        then (Throw ("EACCES: permission denied, open " +:+ quoted p), s)
        else (Ret c, s)
    end.

Definition is_dir (f : gmap string node) (p : string) : bool :=
  match f !! p with Some Dir => true | _ => false end.

Definition creation_mode (e : Env) : Z := Z.land 438 (Z.lnot (umask e)).

(** Opening [p] for writing: what it stores when it succeeds. A new file
    needs its directory; an existing file keeps its mode unless the
    caller imposes one. *)
Definition store (p content : string) (impose : option Z) : M unit :=
  fun e s =>
    if decide (p ∈ denied e)
    then (Throw ("EACCES: permission denied, open " +:+ quoted p), s)
    else
      match fs s !! p with
      | Some Dir => (Throw ("EISDIR: illegal operation on a directory, open "
                            +:+ quoted p), s)
      | Some (File _ m) =>
          (Ret tt, set_fs (<[p := File content (default m impose)]> (fs s)) s)
      | None =>
          if is_dir (fs s) (Path.dirname p)
          then (Ret tt, set_fs (<[p := File content
                                        (default (creation_mode e) impose)]> (fs s)) s)
          else (Throw ("ENOENT: no such file or directory, open " +:+ quoted p), s)
      end.

(** [fs.writeFileSync(p, content)] *)
Definition writeFileSync (p content : string) : M unit := store p content None.

(** [fs.copyFileSync(src, dst)]: the copy takes the mode of the source. *)
Definition copyFileSync (src dst : string) : M unit :=
  fun e s =>
    match fs s !! src with
    | None => (Throw ("ENOENT: no such file or directory, copyfile "
                      +:+ quoted src +:+ " -> " +:+ quoted dst), s)
    | Some Dir => (Throw ("EISDIR: illegal operation on a directory, copyfile "
                          +:+ quoted src +:+ " -> " +:+ quoted dst), s)
    | Some (File c m) =>
        if decide (src ∈ denied e)
        then (Throw ("EACCES: permission denied, copyfile "
                     +:+ quoted src +:+ " -> " +:+ quoted dst), s)
        else store dst c (Some m) e s
    end.

(** [fs.chmodSync(p, mode)] *)
Definition chmodSync (p : string) (mode : Z) : M unit :=
  fun e s =>
    match fs s !! p with
    | None => (Throw ("ENOENT: no such file or directory, chmod " +:+ quoted p), s)
    | Some Dir =>
        if decide (p ∈ denied e)
        then (Throw ("EPERM: operation not permitted, chmod " +:+ quoted p), s)
        else (Ret tt, s)
    | Some (File c _) =>
        if decide (p ∈ denied e)
        then (Throw ("EPERM: operation not permitted, chmod " +:+ quoted p), s)
        else (Ret tt, set_fs (<[p := File c mode]> (fs s)) s)
    end.

(** [fs.unlinkSync(p)] *)
Definition unlinkSync (p : string) : M unit :=
  fun e s =>
    match fs s !! p with
    | None => (Throw ("ENOENT: no such file or directory, unlink " +:+ quoted p), s)
    | Some Dir => (Throw ("EISDIR: illegal operation on a directory, unlink "
                          +:+ quoted p), s)
    | Some (File _ _) =>
        if decide (p ∈ denied e)
        then (Throw ("EACCES: permission denied, unlink " +:+ quoted p), s)
        else (Ret tt, set_fs (delete p (fs s)) s)
    end.

(** The directory [p] and the directories above it, outermost first. *)
Fixpoint chain (acc rest : string) : list string :=
  match rest with
  | EmptyString => if String.eqb acc "" then [] else [acc]
  | String c r =>
      if Ascii.eqb c "/" then
        (if String.eqb acc "" then [] else [acc]) ++ chain (acc +:+ "/") r
      else chain (acc +:+ String c "") r
  end.

(** [fs.mkdirSync(p, { recursive: true })] *)
Definition mkdirSync_recursive (p : string) : M unit :=
  fun e s =>
    let dirs := chain "" p in
    if decide (p ∈ denied e)
    then (Throw ("EACCES: permission denied, mkdir " +:+ quoted p), s)
    else if forallb (fun d => match fs s !! d with
                              | Some (File _ _) => false
                              | _ => true
                              end) dirs
    then (Ret tt, set_fs (foldr (fun d f => <[d := Dir]> f) (fs s) dirs) s)
    else (Throw ("ENOTDIR: not a directory, mkdir " +:+ quoted p), s).

(** [execSync(cmd, ...)]: the command is recorded, its result is the
    environment's. *)
Definition execSync (cmd : string) : M string :=
  fun e s =>
    match exec e cmd with
    | inl out => (Ret out, spawn cmd s)
    | inr msg => (Throw msg, spawn cmd s)
    end.

(** One question and one line of answer through [readline]. *)
Definition question (q : string) : M string :=
  fun _ s =>
    match stdin s with
    | [] => (Hang, emit (Ask q) s)
    | answer :: rest => (Ret answer, set_stdin rest (emit (Ask q) s))
    end.

(** [await import('node-fetch')] *)
Definition import_node_fetch : M unit :=
  fun e s =>
    match import_error e with
    | Some msg => (Throw msg, s)
    | None => (Ret tt, s)
    end.

(** [await fetch(url, options)] *)
Definition do_fetch (r : Request) : M Response :=
  fun e s =>
    match fetch e r with
    | Answer resp => (Ret resp, send r s)
    | NetworkError msg => (Throw msg, send r s)
    end.

(** [response.ok] *)
Definition ok (r : Response) : bool := (200 <=? status r) && (status r <=? 299).

Definition now : M Z := fun e s => (Ret (clock e), s).

(** The status the operating system sees when the process ends. *)
Definition exit_status {A} (o : outcome A) : Z :=
  match o with
  | Exit c => c
  | Throw _ => 1
  | Ret _ | Hang => 0
  end.

End Sys.

Notation "'let*' x ':=' m 'in' k" := (Sys.bind m (fun x => k))
  (at level 10, x name, m at level 100, k at level 200).
Notation "m ;; k" := (Sys.bind m (fun _ => k))
  (at level 100, k at level 200, right associativity).

(** ** The [DevLog] class *)

Module DevLog.
Import Js Sys.
Import JsString (nl, dq, trim, includes).

Record DevLog := {
  configPath : string;
  apiBaseUrl : string;
}.

(** [constructor()] *)
Definition new (e : Env) : DevLog :=
  {| configPath := Path.join [homedir e; ".config"; "devlog.json"];
     apiBaseUrl := "http://localhost:3001" |}.

Definition nonempty (s : string) : bool := negb (String.eqb s "").

(** [o.k] for the keys the program reads ([apiKey], [apiBaseUrl],
    [includeCommitHash], [includeDate], [message]): none of them is
    inherited, so only an object's own properties can answer. *)
Definition get `{Runtime} (o : value) (k : string) : M value :=
  match o with
  | VUndef | VNull =>
      throw ("Cannot read properties of " +:+ ToString o
             +:+ " (reading '" +:+ k +:+ "')")
  | VObj props => ret (lookup_prop k props)
  | _ => ret VUndef
  end.

(** [o.k = v] in strict mode (class bodies are strict). The result is
    the object as later reads and [JSON.stringify] see it: a named
    property put on an array is not serialised, and the program never
    reads back a property it has assigned. *)
Definition set `{Runtime} (o : value) (k : string) (v : value) : M value :=
  match o with
  | VObj props => ret (VObj (assign_prop k v props))
  | VArr xs => ret (VArr xs)
  | VUndef | VNull =>
      throw ("Cannot set properties of " +:+ ToString o
             +:+ " (setting '" +:+ k +:+ "')")
  | _ =>
      throw ("Cannot create property '" +:+ k +:+ "' on " +:+ typeof o
             +:+ " '" +:+ ToString o +:+ "'")
  end.

Section Methods.
Context `{Runtime}.
Variable this : DevLog.

Definition ensureConfigDir : M unit :=
  let configDir := Path.dirname (configPath this) in
  let* present := existsSync configDir in
  if negb present then mkdirSync_recursive configDir else ret tt.

(** The [try] block either returns the parsed configuration or falls
    through to [return {}]. *)
Definition loadConfig : M value :=
  let* returned :=
    try_catch
      (let* present := existsSync (configPath this) in
       if present then
         let* text := readFileSync (configPath this) in
         match JSON_parse text with
         | inr config => ret (Some config)
         | inl msg => throw msg
         end
       else ret None)
      (fun msg =>
         console_error ("Error reading config: " +:+ msg) ;; ret None) in
  match returned with
  | Some config => ret config
  | None => ret (VObj [])
  end.

Definition saveConfig (config : value) : M unit :=
  try_catch
    (ensureConfigDir ;;
     writeFileSync (configPath this) (JSON_stringify_2 config) ;;
     console_log "Configuration saved successfully.")
    (fun msg =>
       console_error ("Error saving config: " +:+ msg) ;; process_exit 1).

Definition prompt (q : string) : M string :=
  let* answer := question q in ret (trim answer).

(** [config.apiKey.substring(0, 8)] on a truthy [config.apiKey]. *)
Definition apiKey_substring (k : value) : M string :=
  match k with
  | VStr s => ret (JsString.substring 0 8 s)
  | _ => throw "config.apiKey.substring is not a function"
  end.

Definition configure : M unit :=
  console_log ("Configuring devlog..." +:+ nl) ;;
  let* config := loadConfig in
  let* k := get config "apiKey" in
  let* currentApiKey :=
    (if truthy k then
       let* short := apiKey_substring k in
       ret ("(current: " +:+ short +:+ "...)")
     else ret "") in
  let* apiKey := prompt ("Enter your API key " +:+ currentApiKey +:+ ": ") in
  let* config :=
    (if nonempty apiKey then set config "apiKey" (VStr apiKey)
     else
       let* k := get config "apiKey" in
       if negb (truthy k) then
         console_error "API key is required." ;; process_exit 1
       else ret config) in
  let* b := get config "apiBaseUrl" in
  let currentBaseUrl := or_else b (VStr (apiBaseUrl this)) in
  let* baseUrl :=
    prompt ("Enter API base URL (default: " +:+ ToString currentBaseUrl +:+ "): ") in
  let* config := set config "apiBaseUrl" (or_else (VStr baseUrl) currentBaseUrl) in
  let* includeHash := prompt "Include commit hash in logs? (y/n, default: y): " in
  let* config :=
    set config "includeCommitHash" (VBool (negb (String.eqb includeHash "n"))) in
  let* includeDate := prompt "Include date in log entries? (y/n, default: y): " in
  let* config :=
    set config "includeDate" (VBool (negb (String.eqb includeDate "n"))) in
  saveConfig config.

Definition getLastCommitMessage : M string :=
  try_catch
    (let* out := execSync "git log -1 --pretty=%B" in
     ret (trim out))
    (fun msg =>
       console_error ("Error getting last commit message: " +:+ msg) ;;
       console_error
         "Make sure you are in a git repository and have at least one commit." ;;
       process_exit 1).

(** [null] is [None]. *)
Definition getLastCommitHash : M (option string) :=
  try_catch
    (let* out := execSync "git log -1 --pretty=%H" in
     ret (Some (JsString.substring 0 8 (trim out))))
    (fun _ => ret None).

Definition getCurrentDate : M string :=
  let* t := now in
  ret (hd "" (JsString.split "T" (JsDate.toISOString t))).

Definition formatLogEntry (commitMessage : string) (config : value) : M string :=
  let logEntry := commitMessage in
  let* flag := get config "includeCommitHash" in
  if truthy flag then
    let* commitHash := getLastCommitHash in
    match commitHash with
    | Some h =>
        if nonempty h then ret ("[" +:+ h +:+ "] " +:+ logEntry)
        else ret logEntry
    | None => ret logEntry
    end
  else ret logEntry.

(** The [date] argument is [undefined] when [None]. *)
Definition date_value (date : option string) : value :=
  match date with
  | Some d => VStr d
  | None => VUndef
  end.

Definition postToApi (text : string) (date : option string) (config : value)
  : M value :=
  import_node_fetch ;;
  try_catch
    (let* base := get config "apiBaseUrl" in
     let* key := get config "apiKey" in
     let* response :=
       do_fetch
         {| url := ToString base +:+ "/api/logs/append";
            method := "POST";
            headers := [("Content-Type", VStr "application/json");
                        ("x-api-key", key)];
            payload := JSON_stringify
                         (VObj [("text", VStr text);
                                ("date", date_value date)]) |} in
     if negb (ok response) then
       let errorData := body response in
       throw ("API request failed: " +:+ JsString.of_Z (status response)
              +:+ " " +:+ statusText response +:+ nl +:+ errorData)
     else
       match JSON_parse (body response) with
       | inr data => ret data
       | inl msg => throw msg
       end)
    (fun msg =>
       console_error ("Error posting to API: " +:+ msg) ;; process_exit 1).

(** [customMessage] and [customDate] default to [null], here [None]. *)
Definition log (customMessage customDate : option string) : M unit :=
  let* config := loadConfig in
  let* k := get config "apiKey" in
  (if negb (truthy k) then
     console_error ("No API key found. Please run " +:+ dq +:+ "devlog config"
                    +:+ dq +:+ " first.") ;;
     process_exit 1
   else ret tt) ;;
  let* commitMessage :=
    (match customMessage with
     | Some m => if nonempty m then ret m else getLastCommitMessage
     | None => getLastCommitMessage
     end) in
  let* logEntry := formatLogEntry commitMessage config in
  let* date :=
    (let fallback :=
       let* flag := get config "includeDate" in
       if truthy flag then
         let* today := getCurrentDate in ret (Some today)
       else ret None in
     match customDate with
     | Some d => if nonempty d then ret (Some d) else fallback
     | None => fallback
     end) in
  console_log ("Logging: " +:+ logEntry) ;;
  (match date with
   | Some d => if nonempty d then console_log ("Date: " +:+ d) else ret tt
   | None => ret tt
   end) ;;
  try_catch
    (let* result := postToApi logEntry date config in
     console_log "✅ Successfully logged to devlog" ;;
     let* message :=
       (if truthy result then get result "message" else ret result) in
     if truthy message then
       console_log ("Response: " +:+ ToString message)
     else ret tt)
    (fun msg =>
       console_error "❌ Failed to log to devlog" ;; throw msg).

Definition isGitRepository : M bool :=
  try_catch
    (execSync "git rev-parse --is-inside-work-tree" ;; ret true)
    (fun _ => ret false).

Definition hooksDir : string := ".git/hooks".
Definition hookPath : string := Path.join [hooksDir; "post-commit"].
Definition backupPath : string := Path.join [hooksDir; "post-commit.backup"].

Definition hookContent : string :=
  JsString.lines [
    "#!/bin/bash";
    "";
    "# post-commit hook for devlog";
    "# This script runs after each git commit and automatically logs the commit message";
    "";
    "# Check if devlog is available";
    "if ! command -v devlog &> /dev/null; then";
    "    echo " +:+ dq +:+ "devlog command not found. Please install devlog-cli first." +:+ dq;
    "    exit 0";
    "fi";
    "";
    "# Check if devlog is configured";
    "if [ ! -f " +:+ dq +:+ "$HOME/.config/devlog.json" +:+ dq +:+ " ]; then";
    "    echo " +:+ dq +:+ "devlog not configured. Run 'devlog config' first." +:+ dq;
    "    exit 0";
    "fi";
    "";
    "# Log the commit";
    "echo " +:+ dq +:+ "📝 Logging commit to devlog..." +:+ dq;
    "devlog";
    "";
    "# Exit with status 0 to not interfere with git operations";
    "exit 0"
  ].

(** The branch for an existing hook returns from the function; [true]
    records that it did. *)
Definition installHook : M unit :=
  let* repo := isGitRepository in
  (if negb repo then
     console_error "❌ Current directory is not a git repository." ;;
     console_error "Please run this command from within a git repository." ;;
     process_exit 1
   else ret tt) ;;
  let* hooks := existsSync hooksDir in
  (if negb hooks then
     console_error "❌ .git/hooks directory not found." ;;
     console_error "This might not be a valid git repository." ;;
     process_exit 1
   else ret tt) ;;
  let* present := existsSync hookPath in
  let* returned :=
    (if present then
       console_log "⚠️  post-commit hook already exists." ;;
       try_catch
         (let* existingHook := readFileSync hookPath in
          if includes "devlog" existingHook then
            console_log "✅ devlog is already integrated in the existing hook." ;;
            ret true
          else
            console_log "The existing hook does not contain devlog integration." ;;
            console_log ("You can manually add " +:+ dq +:+ "devlog" +:+ dq
                         +:+ " to your existing post-commit hook,") ;;
            console_log
              "or backup and replace it by running this command with --force flag." ;;
            console_log (nl +:+ "To backup and replace: devlog install --force") ;;
            ret true)
         (fun msg =>
            console_error ("Error reading existing hook: " +:+ msg) ;;
            process_exit 1)
     else ret false) in
  if returned then ret tt
  else
    try_catch
      (writeFileSync hookPath hookContent ;;
       chmodSync hookPath 493 ;;
       console_log "✅ Successfully installed devlog post-commit hook!" ;;
       console_log ("📁 Hook installed at: " +:+ hookPath) ;;
       console_log "" ;;
       console_log "🎉 devlog will now automatically log your commit messages." ;;
       console_log ("💡 Make sure to run " +:+ dq +:+ "devlog config" +:+ dq
                    +:+ " if you haven't already."))
      (fun msg =>
         console_error ("❌ Error installing hook: " +:+ msg) ;; process_exit 1).

Definition installHookForce : M unit :=
  let* repo := isGitRepository in
  (if negb repo then
     console_error "❌ Current directory is not a git repository." ;;
     process_exit 1
   else ret tt) ;;
  let* present := existsSync hookPath in
  (if present then
     try_catch
       (copyFileSync hookPath backupPath ;;
        console_log ("📋 Backed up existing hook to: " +:+ backupPath))
       (fun msg =>
          console_error ("Error backing up existing hook: " +:+ msg) ;;
          process_exit 1)
   else ret tt) ;;
  let* present := existsSync hookPath in
  (if present then unlinkSync hookPath else ret tt) ;;
  installHook.

Definition helpText : string :=
  JsString.lines [
    "";
    "devlog - Developer Log CLI Tool";
    "";
    "USAGE:";
    "  devlog                    Log the last git commit message";
    "  devlog config             Configure API key and settings";
    "  devlog install            Install post-commit hook in current git repo";
    "  devlog install --force    Install hook, backing up any existing post-commit hook";
    "  devlog log " +:+ dq +:+ "message" +:+ dq +:+ "      Log a custom message";
    "  devlog log " +:+ dq +:+ "message" +:+ dq
      +:+ " date Log a custom message with specific date (YYYY-MM-DD)";
    "  devlog help               Show this help message";
    "";
    "EXAMPLES:";
    "  devlog config";
    "  devlog install";
    "  devlog";
    "  devlog log " +:+ dq +:+ "Fixed critical bug in payment processing" +:+ dq;
    "  devlog log " +:+ dq +:+ "Started new feature" +:+ dq +:+ " 2025-06-24";
    "";
    "CONFIGURATION:";
    "  Configuration is stored in ~/.config/devlog.json";
    "  ";
    "GIT HOOK SETUP:";
    "  Use " +:+ dq +:+ "devlog install" +:+ dq
      +:+ " to automatically set up the post-commit hook.";
    "  This will create .git/hooks/post-commit that runs devlog after each commit.";
    ""
  ].

Definition showHelp : M unit := console_log helpText.

(** [args] is [process.argv.slice(2)]. *)
Definition run (args : list string) : M unit :=
  match args with
  | [] => log None None
  | command :: _ =>
      if String.eqb command "config" then configure
      else if String.eqb command "install" then
        (if existsb (String.eqb "--force") args then installHookForce
         else installHook)
      else if String.eqb command "log" then
        match args with
        | [_; message] => log (Some message) None
        | [_; message; date] => log (Some message) (Some date)
        | _ =>
            console_error ("Usage: devlog log " +:+ dq +:+ "message" +:+ dq
                           +:+ " [date]") ;;
            process_exit 1
        end
      else if String.eqb command "help" || String.eqb command "--help"
              || String.eqb command "-h" then showHelp
      else
        console_error ("Unknown command. Use " +:+ dq +:+ "devlog help" +:+ dq
                       +:+ " for usage information.") ;;
        process_exit 1
  end.

End Methods.

(** The module's entry point: [new DevLog().run().catch(...)]. *)
Definition main `{Runtime} (args : list string) : M unit :=
  fun e s =>
    try_catch (run (new e) args)
      (fun msg => console_error ("Error: " +:+ msg) ;; process_exit 1) e s.

End DevLog.

(** ** The installed hook as a program

    [installHook] writes a fixed bash script.  Its behaviour is stated on a
    small abstract syntax whose rendering is, character for character, the
    text the installer writes. *)

Module Hook.
Import JsString (dq).

Inductive test : Type :=
| CommandMissing (name : string)      (* ! command -v name &> /dev/null *)
| NoFileAtHome (suffix : string).     (* [ ! -f "$HOME<suffix>" ] *)

Inductive simple : Type :=
| Echo (text : string)
| ExitWith (code : Z)
| Call (name : string).               (* the command alone, no arguments *)

Inductive stmt : Type :=
| Interpreter (path : string)
| Blank
| Comment (text : string)
| If (t : test) (body : list simple)
| Do (c : simple).

Definition render_test (t : test) : string :=
  match t with
  | CommandMissing name => "! command -v " +:+ name +:+ " &> /dev/null"
  | NoFileAtHome suffix => "[ ! -f " +:+ dq +:+ "$HOME" +:+ suffix +:+ dq +:+ " ]"
  end.

Definition render_simple (c : simple) : string :=
  match c with
  | Echo text => "echo " +:+ dq +:+ text +:+ dq
  | ExitWith code => "exit " +:+ JsString.of_Z code
  | Call name => name
  end.

Definition render_stmt (st : stmt) : list string :=
  match st with
  | Interpreter path => ["#!" +:+ path]
  | Blank => [""]
  | Comment text => ["# " +:+ text]
  | If t body =>
      ("if " +:+ render_test t +:+ "; then")
        :: map (fun c => "    " +:+ render_simple c) body ++ ["fi"]
  | Do c => [render_simple c]
  end.

Definition render (script : list stmt) : string :=
  JsString.lines (concat (map render_stmt script)).

(** The machine the hook runs on, as far as the script looks at it. *)
Record Machine := {
  on_path : string -> bool;           (* command -v succeeds *)
  home_file : string -> bool;         (* a regular file at $HOME<suffix> *)
}.

(** What a run of the script does by itself: the lines it prints, the
    commands it starts (with their arguments) and its exit status. *)
Record Run := {
  printed : list string;
  started : list (string * list string);
  exited : option Z;
}.

Definition holds (mc : Machine) (t : test) : bool :=
  match t with
  | CommandMissing name => negb (on_path mc name)
  | NoFileAtHome suffix => negb (home_file mc suffix)
  end.

Definition step (c : simple) (r : Run) : Run :=
  match c with
  | Echo text =>
      {| printed := printed r ++ [text]; started := started r; exited := None |}
  | ExitWith code =>
      {| printed := printed r; started := started r; exited := Some code |}
  | Call name =>
      {| printed := printed r; started := started r ++ [(name, [])]; exited := None |}
  end.

Fixpoint steps (body : list simple) (r : Run) : Run :=
  match body with
  | [] => r
  | c :: rest =>
      match exited r with
      | Some _ => r
      | None => steps rest (step c r)
      end
  end.

Fixpoint exec (mc : Machine) (script : list stmt) (r : Run) : Run :=
  match script with
  | [] => r
  | st :: rest =>
      match exited r with
      | Some _ => r
      | None =>
          match st with
          | Interpreter _ | Blank | Comment _ => exec mc rest r
          | If t body => exec mc rest (if holds mc t then steps body r else r)
          | Do c => exec mc rest (step c r)
          end
      end
  end.

Definition run (mc : Machine) (script : list stmt) : Run :=
  exec mc script {| printed := []; started := []; exited := None |}.

(** The script of [hookContent]. *)
Definition post_commit : list stmt := [
  Interpreter "/bin/bash";
  Blank;
  Comment "post-commit hook for devlog";
  Comment "This script runs after each git commit and automatically logs the commit message";
  Blank;
  Comment "Check if devlog is available";
  If (CommandMissing "devlog")
     [Echo "devlog command not found. Please install devlog-cli first.";
      ExitWith 0];
  Blank;
  Comment "Check if devlog is configured";
  If (NoFileAtHome "/.config/devlog.json")
     [Echo "devlog not configured. Run 'devlog config' first.";
      ExitWith 0];
  Blank;
  Comment "Log the commit";
  Do (Echo "📝 Logging commit to devlog...");
  Do (Call "devlog");
  Blank;
  Comment "Exit with status 0 to not interfere with git operations";
  Do (ExitWith 0)
].

End Hook.

(** ** What a run is expected to do, in the words of the specification *)

Module Spec.
Import Js Sys DevLog.

Definition message_command : string := "git log -1 --pretty=%B".
Definition hash_command : string := "git log -1 --pretty=%H".
Definition repository_command : string := "git rev-parse --is-inside-work-tree".

(** The short hash when git resolves one. *)
Definition short_hash (e : Env) : option string :=
  match exec e hash_command with
  | inl out =>
      let h := JsString.substring 0 8 (JsString.trim out) in
      if nonempty h then Some h else None
  | inr _ => None
  end.

(** The entry text for a configuration object with properties [props]. *)
Definition entry_text (e : Env) (props : list (string * value)) (message : string)
  : string :=
  if truthy (lookup_prop "includeCommitHash" props) then
    match short_hash e with
    | Some h => "[" +:+ h +:+ "] " +:+ message
    | None => message
    end
  else message.

(** The current calendar date in UTC. *)
Definition utc_date (e : Env) : string := JsDate.date_string (clock e).

(** The current calendar date in the local zone: the date the specification
    names ("the current local date"), to compare with the one the program
    computes. *)
Definition local_date (e : Env) : string :=
  JsDate.date_string (JsDate.LocalTime (zone e) (clock e)).

Definition is_hex (c : ascii) : bool :=
  let n := nat_of_ascii c in
  ((48 <=? n)%nat && (n <=? 57)%nat) || ((97 <=? n)%nat && (n <=? 102)%nat).

Definition all_hex (s : string) : bool := forallb is_hex (list_ascii_of_string s).

Definition no_space (s : string) : bool :=
  forallb (fun c => negb (JsString.is_space c)) (list_ascii_of_string s).

Definition documented_keys : list string :=
  ["apiKey"; "apiBaseUrl"; "includeCommitHash"; "includeDate"].

Definition documented (k : string) : bool :=
  existsb (String.eqb k) documented_keys.

(** The properties of a configuration beyond the documented four. *)
Definition extras (props : list (string * value)) : list (string * value) :=
  List.filter (fun kv => negb (documented (fst kv))) props.

Definition executable (mode : Z) : bool := Z.land mode 73 =? 73.

(** No character of [s] is [c]. *)
Fixpoint lacks (c : ascii) (s : string) : bool :=
  match s with
  | EmptyString => true
  | String x r => negb (Ascii.eqb x c) && lacks c r
  end.

(** The arguments [run] passes to [log], for the command lines that log. *)
Definition log_args (args : list string) : option (option string * option string) :=
  match args with
  | [] => Some (None, None)
  | [command; message] =>
      if String.eqb command "log" then Some (Some message, None) else None
  | [command; message; date] =>
      if String.eqb command "log" then Some (Some message, Some date) else None
  | _ => None
  end.

Definition success_line : string := "✅ Successfully logged to devlog".

(** What [installHook] says when it finds a hook with text [content]. *)
Definition already_there (content : string) : list event :=
  Out "⚠️  post-commit hook already exists."
  :: if JsString.includes "devlog" content then
       [Out "✅ devlog is already integrated in the existing hook."]
     else
       [Out "The existing hook does not contain devlog integration.";
        Out ("You can manually add " +:+ JsString.dq +:+ "devlog" +:+ JsString.dq
             +:+ " to your existing post-commit hook,");
        Out "or backup and replace it by running this command with --force flag.";
        Out (JsString.nl +:+ "To backup and replace: devlog install --force")].

(** What [installHook] says after it has written the hook. *)
Definition installed : list event :=
  [Out "✅ Successfully installed devlog post-commit hook!";
   Out ("📁 Hook installed at: " +:+ hookPath);
   Out "";
   Out "🎉 devlog will now automatically log your commit messages.";
   Out ("💡 Make sure to run " +:+ JsString.dq +:+ "devlog config" +:+ JsString.dq
        +:+ " if you haven't already.")].

(** [configure] can go on after its first question: the stored key is a
    non-empty text, or there is no usable stored key and a key is typed. *)
Definition key_available (props : list (string * value)) (typed : string) : Prop :=
  match lookup_prop "apiKey" props with
  | VStr key => key <> "" \/ JsString.trim typed <> ""
  | k => truthy k = false /\ JsString.trim typed <> ""
  end.

(** The object [configure] saves after the four answers. *)
Definition reconfigured (this : DevLog) (props : list (string * value))
    (a1 a2 a3 a4 : string) : list (string * value) :=
  let props1 :=
    if nonempty (JsString.trim a1)
    then assign_prop "apiKey" (VStr (JsString.trim a1)) props else props in
  let currentBaseUrl :=
    or_else (lookup_prop "apiBaseUrl" props1) (VStr (apiBaseUrl this)) in
  let props2 :=
    assign_prop "apiBaseUrl" (or_else (VStr (JsString.trim a2)) currentBaseUrl)
      props1 in
  let props3 :=
    assign_prop "includeCommitHash"
      (VBool (negb (String.eqb (JsString.trim a3) "n"))) props2 in
  assign_prop "includeDate" (VBool (negb (String.eqb (JsString.trim a4) "n"))) props3.

(** The same repository before any hook was put in it. *)
Definition without_hook (s : State) : State := set_fs (delete hookPath (fs s)) s.

Section Logging.
Context `{Runtime}.

(** The configuration file is readable and holds an object with
    properties [props]. *)
Definition configured (this : DevLog) (e : Env) (s : State)
    (props : list (string * value)) : Prop :=
  exists text mode,
    fs s !! configPath this = Some (File text mode)
    /\ (configPath this ∉ denied e)
    /\ JSON_parse text = inr (VObj props).

(** Whether [log] has to ask git for the message. *)
Definition asks_git (customMessage : option string) : bool :=
  match customMessage with
  | Some m => negb (nonempty m)
  | None => true
  end.

Definition message_for (e : Env) (customMessage : option string) : option string :=
  if asks_git customMessage then
    match exec e message_command with
    | inl out => Some (JsString.trim out)
    | inr _ => None
    end
  else customMessage.

Definition today (e : Env) : string :=
  hd "" (JsString.split "T" (JsDate.toISOString (clock e))).

Definition date_for (e : Env) (props : list (string * value))
    (customDate : option string) : option string :=
  let fallback :=
    if truthy (lookup_prop "includeDate" props) then Some (today e) else None in
  match customDate with
  | Some d => if nonempty d then Some d else fallback
  | None => fallback
  end.

(** The one request of a run. *)
Definition request (props : list (string * value)) (text : string)
    (date : option string) : Request :=
  {| url := ToString (lookup_prop "apiBaseUrl" props) +:+ "/api/logs/append";
     method := "POST";
     headers := [("Content-Type", VStr "application/json");
                 ("x-api-key", lookup_prop "apiKey" props)];
     payload := JSON_stringify
                  (VObj [("text", VStr text); ("date", date_value date)]) |}.

(** The state in which the request leaves. *)
Definition announced (e : Env) (props : list (string * value))
    (customMessage : option string) (text : string) (date : option string)
    (s : State) : State :=
  let s := if asks_git customMessage then spawn message_command s else s in
  let s := if truthy (lookup_prop "includeCommitHash" props)
           then spawn hash_command s else s in
  let s := emit (Out ("Logging: " +:+ text)) s in
  match date with
  | Some d => if nonempty d then emit (Out ("Date: " +:+ d)) s else s
  | None => s
  end.

Definition failure_message (r : Response) : string :=
  "API request failed: " +:+ JsString.of_Z (status r) +:+ " "
  +:+ statusText r +:+ JsString.nl +:+ body r.

(** What the answer to the request leads to. *)
Definition concluded (answer : fetched) (s : State) : outcome unit * State :=
  let failed msg := (Exit 1, emit (Err ("Error posting to API: " +:+ msg)) s) in
  match answer with
  | NetworkError msg => failed msg
  | Answer r =>
      if ok r then
        match JSON_parse (body r) with
        | inl msg => failed msg
        | inr data =>
            let s := emit (Out success_line) s in
            let message :=
              if truthy data then
                match data with
                | VObj fields => lookup_prop "message" fields
                | _ => VUndef
                end
              else data in
            (Ret tt,
             if truthy message
             then emit (Out ("Response: " +:+ ToString message)) s else s)
        end
      else failed (failure_message r)
  end.

End Logging.

End Spec.

(** ** Sample worlds

    Concrete runtimes, environments and states on which the definitions
    above are evaluated. *)

Module Sample.
Import Js Sys DevLog.

Definition no_parse : Runtime :=
  {| JSON_parse := fun _ => inl "Unexpected end of JSON input";
     Number_toString := fun _ => "NaN" |}.

Definition config_of (hash date : bool) (more : list (string * value)) : value :=
  VObj ([("apiKey", VStr "k"); ("apiBaseUrl", VStr "http://x");
         ("includeCommitHash", VBool hash); ("includeDate", VBool date)] ++ more).

(** The documents the sample runtime can read; no number occurs in them,
    so their texts do not depend on the printing of numbers. *)
Definition documents : list value := [
  config_of true true [];
  config_of false true [];
  config_of false false [];
  config_of true true [("team", VStr "core"); ("tags", VArr [VStr "a"; VNull])];
  VObj [];
  VObj [("message", VStr "Log entry appended")]
].

Definition text_of (v : value) : string := @JSON_stringify no_parse v.
Definition pretty_of (v : value) : string := @JSON_stringify_2 no_parse v.

Fixpoint read (docs : list value) (text : string) : string + value :=
  match docs with
  | [] => inl "Unexpected token in JSON"
  | v :: rest =>
      if String.eqb text (text_of v) || String.eqb text (pretty_of v) then inr v
      else read rest text
  end.

(** A runtime that agrees with [JSON.parse] on the texts of [documents]
    and on texts that are not JSON at all. *)
Definition runtime : Runtime :=
  {| JSON_parse := read documents; Number_toString := fun _ => "NaN" |}.

Definition full_hash : string := "abcdef1234567890abcdef1234567890abcdef12".

Definition git (cmd : string) : string + string :=
  if String.eqb cmd Spec.message_command then inl ("Fix bug" +:+ JsString.nl +:+ JsString.nl)
  else if String.eqb cmd Spec.hash_command then inl (full_hash +:+ JsString.nl)
  else if String.eqb cmd Spec.repository_command then inl ("true" +:+ JsString.nl)
  else inr ("Command failed: " +:+ cmd).

Definition created : Response :=
  {| status := 201; statusText := "Created";
     body := text_of (VObj [("message", VStr "Log entry appended")]) |}.

Definition not_found : Response :=
  {| status := 404; statusText := "Not Found"; body := "no such log" |}.

(** 2025-01-01T04:30:00Z, seen from a zone five hours behind UTC, where
    it is still 2024-12-31. *)
Definition env (resp : Response) : Env :=
  {| homedir := "/home/dev";
     umask := 18;
     denied := ∅;
     exec := git;
     clock := 1735705800000;
     zone := -300;
     import_error := None;
     fetch := fun _ => Answer resp |}.

Definition config_file : string := "/home/dev/.config/devlog.json".

Definition disk (config : option string) (hook : option string) : gmap string node :=
  let base : gmap string node :=
    <["/home/dev/.config" := Dir]> (<[".git/hooks" := Dir]> ∅) in
  let base :=
    match config with
    | Some text => <[config_file := File text 420]> base
    | None => base
    end in
  match hook with
  | Some text => <[".git/hooks/post-commit" := File text 493]> base
  | None => base
  end.

Definition state (config : option string) (hook : option string) (typed : list string)
  : State :=
  {| fs := disk config hook; console := []; spawned := []; stdin := typed;
     sent := [] |}.

Definition other_hook : string :=
  JsString.lines ["#!/bin/sh"; "make lint"].

End Sample.

(** ** What a computation leaves alone *)

Module Frame.
Import Sys.

(** Whatever the environment and the outcome, the part [p] of the state is
    after [m] what it was before. *)
Definition keeps {A B : Type} (p : State -> B) (m : M A) : Prop :=
  forall e s, p (snd (m e s)) = p s.

(** The one kind of request the program makes. *)
Definition append_call (r : Request) : Prop :=
  method r = "POST" /\ exists base, url r = base +:+ "/api/logs/append".

(** [m] sends at most one request, of that kind, and takes none back. *)
Definition sends_at_most_one {A : Type} (m : M A) : Prop :=
  forall e s,
    sent (snd (m e s)) = sent s \/
    exists r, sent (snd (m e s)) = (sent s ++ [r])%list /\ append_call r.

(** [m] starts no child process but those of [allowed]. *)
Definition spawns_within {A : Type} (allowed : list string) (m : M A) : Prop :=
  forall e s,
    exists started,
      spawned (snd (m e s)) = (spawned s ++ started)%list /\
      forall cmd, cmd ∈ started -> cmd ∈ allowed.

(** The commands a command line may start. *)
Definition allowed_commands (args : list string) : list string :=
  if bool_decide (hd_error args = Some "install") then [Spec.repository_command]
  else match Spec.log_args args with
       | Some _ => [Spec.message_command; Spec.hash_command]
       | None => []
       end.

End Frame.

(** ** Wording of the further properties *)

Module Extra.
Import Js Sys DevLog.

Definition no_key_line : string :=
  "No API key found. Please run " +:+ JsString.dq +:+ "devlog config"
  +:+ JsString.dq +:+ " first.".

Definition no_commit_line : string :=
  "Make sure you are in a git repository and have at least one commit.".

(** The [message] property a parsed answer offers for display. *)
Definition echoed (data : value) : value :=
  match data with
  | VObj fields => lookup_prop "message" fields
  | _ => VUndef
  end.

End Extra.

Module Cli.
Import Js Sys DevLog.

Definition unknown_line : string :=
  "Unknown command. Use " +:+ JsString.dq +:+ "devlog help" +:+ JsString.dq
  +:+ " for usage information.".

Definition usage_line : string :=
  "Usage: devlog log " +:+ JsString.dq +:+ "message" +:+ JsString.dq +:+ " [date]".

(** The first words [run] knows. *)
Definition known (command : string) : bool :=
  existsb (String.eqb command) ["config"; "install"; "log"; "help"; "--help"; "-h"].

Definition asks_help (command : string) : bool :=
  existsb (String.eqb command) ["help"; "--help"; "-h"].

End Cli.

Module FirstRun.
Import Js Sys DevLog.

(** The object [configure] saves when there was no configuration: the
    four documented keys, in the order of their assignment. *)
Definition first_config (this : DevLog) (a1 a2 a3 a4 : string) : value :=
  VObj [("apiKey", VStr (JsString.trim a1));
        ("apiBaseUrl",
         VStr (if nonempty (JsString.trim a2) then JsString.trim a2
               else apiBaseUrl this));
        ("includeCommitHash", VBool (negb (String.eqb (JsString.trim a3) "n")));
        ("includeDate", VBool (negb (String.eqb (JsString.trim a4) "n")))].

Definition questions (first : string) : list event :=
  [Ask first;
   Ask "Enter API base URL (default: http://localhost:3001): ";
   Ask "Include commit hash in logs? (y/n, default: y): ";
   Ask "Include date in log entries? (y/n, default: y): "].

(** A stored [apiKey] that is truthy without being a text. *)
Definition unusable_key (k : value) : Prop :=
  truthy k = true /\ forall text, k <> VStr text.

End FirstRun.

(** ** Configuration files that hold something else than a usable object *)

Module Unusual.
Import Js Sys DevLog.

Definition documents : list value :=
  [VNull; VStr "secret"; VObj [("apiKey", VBool true)]].

(** A runtime that reads the texts of [documents]. *)
Definition runtime : Runtime :=
  {| JSON_parse := Sample.read documents; Number_toString := fun _ => "NaN" |}.

Definition opening : event := Out ("Configuring devlog..." +:+ JsString.nl).

Definition key_required : string := "API key is required.".

Definition null_line : string :=
  "Error: Cannot read properties of null (reading 'apiKey')".

Definition substring_line : string :=
  "Error: config.apiKey.substring is not a function".

(** The JSON values that are neither an object nor [null]. *)
Definition plain (v : value) : Prop :=
  match v with
  | VBool _ | VNum _ | VStr _ | VArr _ => True
  | _ => False
  end.

(** The configuration file holds a text that parses to [v]. *)
Definition holds `{Runtime} (this : DevLog) (e : Env) (s : State) (v : value)
  : Prop :=
  exists text mode,
    fs s !! configPath this = Some (File text mode)
    /\ (configPath this ∉ denied e)
    /\ JSON_parse text = inr v.

(** The configuration file is there and cannot be read. *)
Definition unreadable (this : DevLog) (e : Env) (s : State) (why : string) : Prop :=
  (fs s !! configPath this = Some Dir
   /\ why = "EISDIR: illegal operation on a directory, read")
  \/ (exists text mode,
        fs s !! configPath this = Some (File text mode)
        /\ configPath this ∈ denied e
        /\ why = "EACCES: permission denied, open " +:+ quoted (configPath this)).

End Unusual.

(** ** Input before output to the disk *)

Module Order.
Import Sys.

(** [m] leaves the disk alone and returns only after taking at least [c]
    lines of standard input. *)
Definition takes {A : Type} (c : nat) (m : M A) : Prop :=
  forall e s,
    fs (snd (m e s)) = fs s /\
    forall a, fst (m e s) = Ret a ->
              (length (stdin (snd (m e s))) + c <= length (stdin s))%nat.

(** [m] leaves the disk alone when fewer than [n] lines of standard input
    are there to take. *)
Definition writes_after {A : Type} (n : nat) (m : M A) : Prop :=
  forall e s, (length (stdin s) < n)%nat -> fs (snd (m e s)) = fs s.

End Order.

(** ** Answers to [config] over a stored key *)

Module Reconfigure.
Import Js Sys DevLog.

(** What the first question shows of the stored key. *)
Definition hint (key : string) : string :=
  "(current: " +:+ JsString.substring 0 8 key +:+ "...)".

Section WithRuntime.
Context `{Runtime}.

(** The URL the second question offers. *)
Definition offered (this : DevLog) (props : list (string * value)) : value :=
  or_else (lookup_prop "apiBaseUrl" props) (VStr (apiBaseUrl this)).

Definition asked (this : DevLog) (props : list (string * value)) (key : string)
  : list event :=
  [Ask ("Enter your API key " +:+ hint key +:+ ": ");
   Ask ("Enter API base URL (default: " +:+ ToString (offered this props)
        +:+ "): ");
   Ask "Include commit hash in logs? (y/n, default: y): ";
   Ask "Include date in log entries? (y/n, default: y): "].

End WithRuntime.

End Reconfigure.

(** ** Properties *)

(** *** The library models on concrete inputs *)

Example toISOString_epoch : JsDate.toISOString 0 = "1970-01-01T00:00:00.000Z".
Proof. reflexivity. Qed.

Example toISOString_before_epoch :
  JsDate.toISOString (-1) = "1969-12-31T23:59:59.999Z".
Proof. reflexivity. Qed.

Example toISOString_leap_day :
  JsDate.toISOString 951827696789 = "2000-02-29T12:34:56.789Z".
Proof. reflexivity. Qed.

Example toISOString_expanded_years :
  map JsDate.toISOString [253402300800000; -62198755200000; 8640000000000000]
  = ["+010000-01-01T00:00:00.000Z"; "-000001-01-01T00:00:00.000Z";
     "+275760-09-13T00:00:00.000Z"].
Proof. reflexivity. Qed.

Example path_join_samples :
  map Path.join [["/home/dev"; ".config"; "devlog.json"]; [".git/hooks"; "post-commit"];
                 ["/"; ".config"; "devlog.json"]; ["a/../.."; "b/"]; [""; ""]]
  = ["/home/dev/.config/devlog.json"; ".git/hooks/post-commit";
     "/.config/devlog.json"; "../b/"; "."].
Proof. reflexivity. Qed.

Example path_dirname_samples :
  map Path.dirname ["/home/dev/.config/devlog.json"; "/a"; "a"; "a/b/"; "/"; "//a";
                    ".git/hooks/post-commit"; "/a/b///"]
  = ["/home/dev/.config"; "/"; "."; "a"; "/"; "//"; ".git/hooks"; "/a"].
Proof. reflexivity. Qed.

Example trim_samples :
  map JsString.trim ["  a b  "; JsString.nl +:+ "Fix bug" +:+ JsString.nl; "   "; ""]
  = ["a b"; "Fix bug"; ""; ""].
Proof. reflexivity. Qed.

Example stringify_sample :
  @Js.JSON_stringify Sample.runtime
    (Js.VObj [("text", Js.VStr ("say " +:+ JsString.dq +:+ "hi" +:+ JsString.dq));
              ("date", Js.VUndef);
              ("list", Js.VArr [Js.VNull; Js.VUndef; Js.VBool true])])
  = "{" +:+ JsString.dq +:+ "text" +:+ JsString.dq +:+ ":" +:+ JsString.dq
    +:+ "say \" +:+ JsString.dq +:+ "hi\" +:+ JsString.dq +:+ JsString.dq
    +:+ "," +:+ JsString.dq +:+ "list" +:+ JsString.dq +:+ ":[null,null,true]}".
Proof. reflexivity. Qed.

Example stringify_indented_sample :
  @Js.JSON_stringify_2 Sample.runtime
    (Js.VObj [("a", Js.VArr []); ("b", Js.VObj [("c", Js.VNull)])])
  = JsString.lines
      ["{";
       "  " +:+ JsString.dq +:+ "a" +:+ JsString.dq +:+ ": [],";
       "  " +:+ JsString.dq +:+ "b" +:+ JsString.dq +:+ ": {";
       "    " +:+ JsString.dq +:+ "c" +:+ JsString.dq +:+ ": null";
       "  }";
       "}"].
Proof. reflexivity. Qed.

(** The script of the hook, rendered, is the text [installHook] writes. *)
Lemma post_commit_rendered : Hook.render Hook.post_commit = DevLog.hookContent.
Proof. reflexivity. Qed.


(** Projections of the state after an update. *)
Section StateFacts.
Import Sys.
Implicit Types (s : State) (ev : event).

Lemma fs_emit ev s : fs (emit ev s) = fs s. Proof. reflexivity. Qed.
Lemma fs_spawn c s : fs (spawn c s) = fs s. Proof. reflexivity. Qed.
Lemma fs_send r s : fs (send r s) = fs s. Proof. reflexivity. Qed.
Lemma fs_set_stdin l s : fs (set_stdin l s) = fs s. Proof. reflexivity. Qed.
Lemma fs_set_fs f s : fs (set_fs f s) = f. Proof. reflexivity. Qed.
Lemma stdin_emit ev s : stdin (emit ev s) = stdin s. Proof. reflexivity. Qed.
Lemma stdin_set_stdin l s : stdin (set_stdin l s) = l. Proof. reflexivity. Qed.
Lemma console_emit ev s : console (emit ev s) = (console s ++ [ev])%list.
Proof. reflexivity. Qed.
Lemma console_spawn c s : console (spawn c s) = console s.
Proof. reflexivity. Qed.
Lemma console_set_fs f s : console (set_fs f s) = console s.
Proof. reflexivity. Qed.
Lemma console_set_stdin l s : console (set_stdin l s) = console s.
Proof. reflexivity. Qed.
Lemma console_send r s : console (send r s) = console s.
Proof. reflexivity. Qed.

Lemma console_emits evs s : console (emits evs s) = (console s ++ evs)%list.
Proof.
  revert s. induction evs as [|ev evs IH]; intros s; simpl.
  - by rewrite app_nil_r.
  - by rewrite IH, console_emit, <- app_assoc.
Qed.

Lemma fs_emits evs s : fs (emits evs s) = fs s.
Proof.
  revert s. induction evs as [|ev evs IH]; intros s; simpl; [done|].
  by rewrite IH.
Qed.

Lemma spawned_emits evs s : spawned (emits evs s) = spawned s.
Proof.
  revert s. induction evs as [|ev evs IH]; intros s; simpl; [done|].
  by rewrite IH.
Qed.

End StateFacts.

#[export] Hint Rewrite fs_emit fs_spawn fs_send fs_set_stdin fs_set_fs
  stdin_emit stdin_set_stdin console_emit console_spawn console_set_fs
  console_set_stdin console_send : world.

(** Symbolic execution: unfold the monad and the primitive operations, then
    reduce the administrative redexes. *)
Ltac unfold_ops :=
  unfold Sys.bind, Sys.try_catch, Sys.ret, Sys.throw, Sys.process_exit,
    Sys.console_log, Sys.console_error, Sys.existsSync, Sys.readFileSync,
    Sys.writeFileSync, Sys.execSync, Sys.question, Sys.import_node_fetch,
    Sys.do_fetch, Sys.now, DevLog.get, DevLog.set.

Ltac exec :=
  repeat (progress (unfold_ops; cbn beta iota zeta delta [negb];
                    autorewrite with world)).

Ltac exec_with H := repeat (progress (exec; rewrite ?H)).

Section Monad.
Import Sys.
Context {A B : Type}.

(** The first computation of a sequence returns: go on with the second. *)
Lemma bind_ret_eq (m : M A) (k : A -> M B) e s a s' :
  m e s = (Ret a, s') -> bind m k e s = k a e s'.
Proof. intros Hm. unfold bind. by rewrite Hm. Qed.

Lemma bind_exit_eq (m : M A) (k : A -> M B) e s c s' :
  m e s = (Exit c, s') -> bind m k e s = (Exit c, s').
Proof. intros Hm. unfold bind. by rewrite Hm. Qed.

Lemma bind_throw_eq (m : M A) (k : A -> M B) e s msg s' :
  m e s = (Throw msg, s') -> bind m k e s = (Throw msg, s').
Proof. intros Hm. unfold bind. by rewrite Hm. Qed.

Lemma try_catch_ret_eq (m : M A) (h : string -> M A) e s a s' :
  m e s = (Ret a, s') -> try_catch m h e s = (Ret a, s').
Proof. intros Hm. unfold try_catch. by rewrite Hm. Qed.

Lemma try_catch_exit_eq (m : M A) (h : string -> M A) e s c s' :
  m e s = (Exit c, s') -> try_catch m h e s = (Exit c, s').
Proof. intros Hm. unfold try_catch. by rewrite Hm. Qed.

Lemma try_catch_throw_eq (m : M A) (h : string -> M A) e s msg s' :
  m e s = (Throw msg, s') -> try_catch m h e s = h msg e s'.
Proof. intros Hm. unfold try_catch. by rewrite Hm. Qed.

End Monad.

(** One step of a sequence, justified by [tac]. *)
Ltac step_by tac := erewrite bind_ret_eq; [cbn beta|solve [tac]].

Section LoadConfig.
Import Js Sys DevLog.
Context `{Runtime}.
Variable this : DevLog.

Lemma loadConfig_absent e s :
  fs s !! configPath this = None ->
  loadConfig this e s = (Ret (VObj []), s).
Proof.
  intros Hnone. unfold loadConfig. exec_with Hnone. reflexivity.
Qed.

Lemma loadConfig_parsed e s c m v :
  fs s !! configPath this = Some (File c m) ->
  configPath this ∉ denied e ->
  JSON_parse c = inr v ->
  loadConfig this e s = (Ret v, s).
Proof.
  intros Hfile Hacc Hparse. unfold loadConfig. exec_with Hfile.
  rewrite decide_False by assumption. exec_with Hparse. reflexivity.
Qed.

Lemma loadConfig_corrupt e s c m msg :
  fs s !! configPath this = Some (File c m) ->
  configPath this ∉ denied e ->
  JSON_parse c = inl msg ->
  loadConfig this e s
  = (Ret (VObj []), emit (Err ("Error reading config: " +:+ msg)) s).
Proof.
  intros Hfile Hacc Hparse. unfold loadConfig. exec_with Hfile.
  rewrite decide_False by assumption. exec_with Hparse. reflexivity.
Qed.

(** Whatever the file system holds, [loadConfig] returns: every error of
    its [try] block is caught, reported on standard error, and replaced
    by the empty object; nothing but the console changes. *)
Lemma loadConfig_returns e s :
  exists config,
    loadConfig this e s = (Ret config, s) \/
    exists why,
      config = VObj [] /\
      loadConfig this e s
      = (Ret config, emit (Err ("Error reading config: " +:+ why)) s).
Proof.
  unfold loadConfig.
  destruct (fs s !! configPath this) as [[c m|]|] eqn:Hfile; exec_with Hfile.
  - destruct (decide _); exec; [eauto|].
    destruct (JSON_parse c) as [msg|v]; exec; eauto.
  - eauto.
  - eauto.
Qed.

End LoadConfig.

Section StringFacts.
Import JsString.

Lemma trimEnd_line s : Spec.no_space s = true -> trimEnd (s +:+ nl) = s.
Proof.
  induction s as [|c r IH]; [reflexivity|].
  unfold Spec.no_space. simpl. intros [Hc Hr]%andb_prop.
  apply negb_true_iff in Hc. rewrite (IH Hr).
  destruct r; [by rewrite Hc|reflexivity].
Qed.

Lemma trimStart_no_space s t :
  Spec.no_space s = true -> s <> "" -> trimStart (s +:+ t) = s +:+ t.
Proof.
  destruct s as [|c r]; [done|].
  unfold Spec.no_space. simpl. intros [Hc _]%andb_prop _.
  apply negb_true_iff in Hc. by rewrite Hc.
Qed.

(** One line of output without white space is what [trim] gives back. *)
Lemma trim_line s : Spec.no_space s = true -> trim (s +:+ nl) = s.
Proof.
  intros Hs. unfold trim. destruct s as [|c r] eqn:E; [reflexivity|].
  rewrite <- E in *. rewrite trimStart_no_space; [|done|by subst].
  by apply trimEnd_line.
Qed.

Lemma hex_no_space s : Spec.all_hex s = true -> Spec.no_space s = true.
Proof.
  unfold Spec.all_hex, Spec.no_space.
  induction (list_ascii_of_string s) as [|c l IH]; [done|].
  simpl. intros [Hc Hl]%andb_prop. rewrite (IH Hl), andb_true_r.
  clear -Hc. destruct c as [[] [] [] [] [] [] [] []]; done.
Qed.

Lemma substring_length n s :
  (n <= String.length s)%nat -> String.length (String.substring 0 n s) = n.
Proof.
  revert s. induction n as [|n IH]; intros [|c r] Hle; simpl in *;
    try lia; try reflexivity.
  rewrite IH; lia.
Qed.

Lemma substring_prefix n s : String.prefix (String.substring 0 n s) s = true.
Proof.
  revert s. induction n as [|n IH]; intros [|c r]; simpl; try done.
  rewrite IH. by destruct (ascii_dec c c).
Qed.

Lemma nonempty_length s : (0 < String.length s)%nat -> DevLog.nonempty s = true.
Proof. destruct s; simpl; [lia|done]. Qed.

End StringFacts.

Section Format.
Import Js Sys DevLog.
Context `{Runtime}.

Lemma getLastCommitHash_spec e s :
  getLastCommitHash e s
  = (Ret (match exec e Spec.hash_command with
          | inl out => Some (JsString.substring 0 8 (JsString.trim out))
          | inr _ => None
          end), spawn Spec.hash_command s).
Proof.
  unfold getLastCommitHash, Spec.hash_command. exec.
  destruct (exec e _); reflexivity.
Qed.

(** [formatLogEntry] on a configuration object, in one equation. *)
Lemma formatLogEntry_spec message props e s :
  formatLogEntry message (VObj props) e s
  = (Ret (Spec.entry_text e props message),
     if truthy (lookup_prop "includeCommitHash" props)
     then spawn Spec.hash_command s else s).
Proof.
  unfold formatLogEntry, Spec.entry_text, Spec.short_hash. exec.
  destruct (truthy _); [|reflexivity].
  exec. rewrite getLastCommitHash_spec.
  destruct (exec e _) as [out|err]; exec; [|reflexivity].
  destruct (nonempty _); reflexivity.
Qed.

End Format.

(** C5. Loading the configuration when the file is absent returns the empty
    object and changes nothing; when the file holds text that is not JSON
    it returns the empty object and only writes the parser's message on
    standard error; and in every state of the file system it returns a
    value to its caller, never an exception, an exit or a stall. *)
Theorem loadConfig_missing_or_corrupt `{Js.Runtime} (this : DevLog.DevLog)
    (e : Sys.Env) (s : Sys.State) :
  (s.(Sys.fs) !! DevLog.configPath this = None ->
     DevLog.loadConfig this e s = (Sys.Ret (Js.VObj []), s)) /\
  (forall text mode msg,
     s.(Sys.fs) !! DevLog.configPath this = Some (Sys.File text mode) ->
     DevLog.configPath this ∉ Sys.denied e ->
     Js.JSON_parse text = inl msg ->
     DevLog.loadConfig this e s
     = (Sys.Ret (Js.VObj []),
        Sys.emit (Sys.Err ("Error reading config: " +:+ msg)) s)) /\
  (exists config s', DevLog.loadConfig this e s = (Sys.Ret config, s')).
Proof.
  split; [apply loadConfig_absent|].
  split; [intros; by eapply loadConfig_corrupt|].
  destruct (loadConfig_returns this e s) as [config [Hret|(why & _ & Hret)]];
    eauto.
Qed.

Lemma loadConfig_missing_or_corrupt_witness :
  @DevLog.loadConfig Sample.runtime (DevLog.new (Sample.env Sample.created))
    (Sample.env Sample.created) (Sample.state None None [])
  = (Sys.Ret (Js.VObj []), Sample.state None None []) /\
  @DevLog.loadConfig Sample.runtime (DevLog.new (Sample.env Sample.created))
    (Sample.env Sample.created) (Sample.state (Some "{apiKey:") None [])
  = (Sys.Ret (Js.VObj []),
     Sys.emit (Sys.Err "Error reading config: Unexpected token in JSON")
       (Sample.state (Some "{apiKey:") None [])).
Proof.
  pose proof (@loadConfig_missing_or_corrupt Sample.runtime
                (DevLog.new (Sample.env Sample.created))
                (Sample.env Sample.created) (Sample.state None None [])) as [Ha _].
  pose proof (@loadConfig_missing_or_corrupt Sample.runtime
                (DevLog.new (Sample.env Sample.created))
                (Sample.env Sample.created)
                (Sample.state (Some "{apiKey:") None [])) as (_ & Hb & _).
  split.
  - apply Ha. reflexivity.
  - apply (Hb "{apiKey:" 420 "Unexpected token in JSON").
    + reflexivity.
    + vm_compute. set_solver.
    + reflexivity.
Defined.

Section Log.
Import Js Sys DevLog.
Context `{Runtime}.

Lemma getLastCommitMessage_spec e s :
  getLastCommitMessage e s
  = match exec e Spec.message_command with
    | inl out => (Ret (JsString.trim out), spawn Spec.message_command s)
    | inr msg =>
        (Exit 1,
         emit (Err "Make sure you are in a git repository and have at least one commit.")
           (emit (Err ("Error getting last commit message: " +:+ msg))
              (spawn Spec.message_command s)))
    end.
Proof.
  unfold getLastCommitMessage, Spec.message_command. exec.
  destruct (exec e _); reflexivity.
Qed.

Lemma postToApi_spec text date props e s :
  import_error e = None ->
  postToApi text date (VObj props) e s
  = match fetch e (Spec.request props text date) with
    | NetworkError msg =>
        (Exit 1, emit (Err ("Error posting to API: " +:+ msg))
                   (send (Spec.request props text date) s))
    | Answer r =>
        if ok r then
          match JSON_parse (body r) with
          | inl msg =>
              (Exit 1, emit (Err ("Error posting to API: " +:+ msg))
                         (send (Spec.request props text date) s))
          | inr data => (Ret data, send (Spec.request props text date) s)
          end
        else
          (Exit 1, emit (Err ("Error posting to API: " +:+ Spec.failure_message r))
                     (send (Spec.request props text date) s))
    end.
Proof.
  intros Himport. unfold postToApi. exec_with Himport.
  fold (Spec.request props text date).
  destruct (fetch e _) as [r|msg]; exec; [|reflexivity].
  destruct (ok r); exec; [|reflexivity].
  destruct (JSON_parse _); reflexivity.
Qed.

Lemma getCurrentDate_spec e s : getCurrentDate e s = (Ret (Spec.today e), s).
Proof. reflexivity. Qed.

Lemma message_step customMessage message e s :
  Spec.message_for e customMessage = Some message ->
  match customMessage with
  | Some m => if nonempty m then ret m else getLastCommitMessage
  | None => getLastCommitMessage
  end e s
  = (Ret message,
     if Spec.asks_git customMessage then spawn Spec.message_command s else s).
Proof.
  unfold Spec.message_for, Spec.asks_git.
  destruct customMessage as [m|]; [destruct (nonempty m)|]; simpl;
    rewrite ?getLastCommitMessage_spec;
    try destruct (exec e _); intros [= <-]; reflexivity.
Qed.

Lemma date_step customDate props e s :
  match customDate with
  | Some d =>
      if nonempty d then ret (Some d)
      else
        let* flag := get (VObj props) "includeDate" in
        if truthy flag then let* today := getCurrentDate in ret (Some today)
        else ret None
  | None =>
      let* flag := get (VObj props) "includeDate" in
      if truthy flag then let* today := getCurrentDate in ret (Some today)
      else ret None
  end e s
  = (Ret (Spec.date_for e props customDate), s).
Proof.
  unfold Spec.date_for.
  destruct customDate as [d|]; [destruct (nonempty d)|]; exec;
    try destruct (truthy _); reflexivity.
Qed.

Lemma date_line_step (date : option string) e s :
  match date with
  | Some d => if nonempty d then console_log ("Date: " +:+ d) else ret tt
  | None => ret tt
  end e s
  = (Ret tt,
     match date with
     | Some d => if nonempty d then emit (Out ("Date: " +:+ d)) s else s
     | None => s
     end).
Proof. destruct date as [d|]; [destruct (nonempty d)|]; reflexivity. Qed.

(** A run of [log] that gets as far as the network, in one equation. *)
Lemma log_spec this customMessage customDate props message e s :
  Spec.configured this e s props ->
  truthy (lookup_prop "apiKey" props) = true ->
  Spec.message_for e customMessage = Some message ->
  import_error e = None ->
  log this customMessage customDate e s
  = Spec.concluded
      (fetch e (Spec.request props (Spec.entry_text e props message)
                  (Spec.date_for e props customDate)))
      (send (Spec.request props (Spec.entry_text e props message)
               (Spec.date_for e props customDate))
         (Spec.announced e props customMessage
            (Spec.entry_text e props message)
            (Spec.date_for e props customDate) s)).
Proof.
  intros (c & m & Hfile & Hacc & Hparse) Hkey Hmsg Himport.
  unfold log.
  step_by ltac:(eapply loadConfig_parsed; eauto).
  step_by ltac:(reflexivity).
  rewrite Hkey. cbn [negb].
  step_by ltac:(reflexivity).
  step_by ltac:(apply message_step; eassumption).
  step_by ltac:(apply formatLogEntry_spec).
  step_by ltac:(apply date_step).
  step_by ltac:(reflexivity).
  step_by ltac:(apply date_line_step).
  unfold try_catch, bind at 1. rewrite (postToApi_spec _ _ _ _ _ Himport).
  unfold Spec.concluded, Spec.announced. cbn zeta.
  destruct (fetch e _) as [r|msg]; [|reflexivity].
  destruct (ok r); [|reflexivity].
  destruct (JSON_parse (body r)) as [msg|data]; [reflexivity|].
  exec. destruct (truthy data) eqn:Hdata.
  - destruct data; try discriminate Hdata; exec;
      first [reflexivity
            |destruct (truthy (lookup_prop "message" _)); reflexivity].
  - exec. rewrite Hdata. reflexivity.
Qed.

End Log.

Section LogFacts.
Import Js Sys DevLog.
Context `{Runtime}.

Lemma concluded_frame answer s :
  fs (snd (Spec.concluded answer s)) = fs s /\
  spawned (snd (Spec.concluded answer s)) = spawned s /\
  sent (snd (Spec.concluded answer s)) = sent s /\
  stdin (snd (Spec.concluded answer s)) = stdin s.
Proof.
  unfold Spec.concluded.
  destruct answer as [r|msg]; [|done].
  destruct (ok r); [|done].
  destruct (JSON_parse _) as [msg|data]; [done|].
  simpl. by destruct (truthy (if truthy data then _ else _)).
Qed.

Lemma concluded_not_thrown answer s msg :
  fst (Spec.concluded answer s) <> Throw msg.
Proof.
  unfold Spec.concluded.
  destruct answer as [r|?]; [|done].
  destruct (ok r); [|done]. by destruct (JSON_parse _).
Qed.

Lemma announced_frame e props customMessage text date s :
  fs (Spec.announced e props customMessage text date s) = fs s /\
  sent (Spec.announced e props customMessage text date s) = sent s /\
  stdin (Spec.announced e props customMessage text date s) = stdin s /\
  spawned (Spec.announced e props customMessage text date s)
  = (spawned s
     ++ (if Spec.asks_git customMessage then [Spec.message_command] else [])
     ++ (if truthy (lookup_prop "includeCommitHash" props)
         then [Spec.hash_command] else []))%list.
Proof.
  unfold Spec.announced.
  destruct (Spec.asks_git _), (truthy _), date as [d|];
    try destruct (nonempty d); simpl; by rewrite ?app_nil_r, <- ?app_assoc.
Qed.

Lemma announced_console e props customMessage text date s :
  console (Spec.announced e props customMessage text date s)
  = (console s ++ Out ("Logging: " +:+ text)
       :: match date with
          | Some d => if nonempty d then [Out ("Date: " +:+ d)] else []
          | None => []
          end)%list.
Proof.
  unfold Spec.announced.
  destruct (Spec.asks_git _), (truthy _), date as [d|];
    try destruct (nonempty d); simpl; by rewrite <- ?app_assoc.
Qed.

(** The command lines that log are a call of [log] under the handler of
    the entry point. *)
Lemma main_log args customMessage customDate e s :
  Spec.log_args args = Some (customMessage, customDate) ->
  main args e s
  = try_catch (log (new e) customMessage customDate)
      (fun msg => console_error ("Error: " +:+ msg) ;; process_exit 1) e s.
Proof.
  unfold Spec.log_args, main, run.
  destruct args as [|c [|m [|d [|]]]]; try done.
  - by intros [= <- <-].
  - destruct (String.eqb c "log") eqn:Hc; [|done].
    apply String.eqb_eq in Hc as ->. by intros [= <- <-].
  - destruct (String.eqb c "log") eqn:Hc; [|done].
    apply String.eqb_eq in Hc as ->. by intros [= <- <-].
Qed.

(** A whole run that logs, in one equation. *)
Lemma main_spec args customMessage customDate props message e s :
  Spec.log_args args = Some (customMessage, customDate) ->
  Spec.configured (new e) e s props ->
  truthy (lookup_prop "apiKey" props) = true ->
  Spec.message_for e customMessage = Some message ->
  import_error e = None ->
  main args e s
  = Spec.concluded
      (fetch e (Spec.request props (Spec.entry_text e props message)
                  (Spec.date_for e props customDate)))
      (send (Spec.request props (Spec.entry_text e props message)
               (Spec.date_for e props customDate))
         (Spec.announced e props customMessage
            (Spec.entry_text e props message)
            (Spec.date_for e props customDate) s)).
Proof.
  intros Hargs Hconf Hkey Hmsg Himport.
  rewrite (main_log _ _ _ _ _ Hargs). unfold try_catch.
  rewrite (log_spec _ _ _ _ _ _ _ Hconf Hkey Hmsg Himport).
  destruct (Spec.concluded _ _) as [[| msg | |] s'] eqn:Hc; try reflexivity.
  exfalso. eapply concluded_not_thrown. by erewrite Hc.
Qed.

End LogFacts.

Section Calendar.
Import JsDate.

(** The year of [civil] is the year of the specification: the one whose
    first day is the last first-of-year not after the day. *)
Lemma YearFromTime_spec t :
  DayFromYear (YearFromTime t) <= Day t < DayFromYear (YearFromTime t + 1).
Proof.
  unfold YearFromTime, civil, DayFromYear.
  generalize (Day t). intros days. cbn [fst].
  destruct (_ <? 10) eqn:Hmp; destruct (_ <=? 2) eqn:Hm;
    Z.div_mod_to_equations; lia.
Qed.

(** Where the day of the March-based year of [civil] falls in the
    calendar year. *)
Lemma march_based_year days :
  let z := days + 719468 in
  let era := z / 146097 in
  let doe := z mod 146097 in
  let yoe := (doe - doe / 1460 + doe / 36524 - doe / 146096) / 365 in
  let doy := doe - (365 * yoe + yoe / 4 - yoe / 100) in
  let y0 := yoe + era * 400 in
  0 <= doy <= 365 /\
  365 <= DaysInYear y0 <= 366 /\
  (doy < 306 -> days - DayFromYear y0 = doy + 59 + (DaysInYear y0 - 365)) /\
  (306 <= doy -> days - DayFromYear (y0 + 1) = doy - 306) /\
  365 <= DaysInYear (y0 + 1) <= 366 /\
  (doy = 365 -> DaysInYear (y0 + 1) = 366).
Proof.
  unfold DaysInYear, DayFromYear. cbv zeta.
  repeat split; intros; Z.div_mod_to_equations; lia.
Qed.

(** [civil] computes the year, month and day of the specification. *)
Lemma civil_spec t :
  civil (Day t) = (YearFromTime t, MonthFromTime t + 1, DateFromTime t).
Proof.
  unfold MonthFromTime, DateFromTime, DayWithinYear, InLeapYear, YearFromTime.
  generalize (Day t). intros days.
  pose proof (march_based_year days) as Hk. cbv zeta in Hk.
  unfold civil. cbv zeta. cbn [fst].
  set (z := days + 719468) in *.
  set (era := z / 146097) in *.
  set (doe := z mod 146097) in *.
  set (yoe := (doe - doe / 1460 + doe / 36524 - doe / 146096) / 365) in *.
  set (doy := doe - (365 * yoe + yoe / 4 - yoe / 100)) in *.
  set (y0 := yoe + era * 400) in *.
  destruct Hk as (Hdoy & Hlen & Hmar & Hjan & Hlen' & Hfeb).
  clearbody doy y0. clear z era doe yoe.
  set (mp := (5 * doy + 2) / 153).
  assert (Hmp : 153 * mp <= 5 * doy + 2 < 153 * mp + 153)
    by (subst mp; Z.div_mod_to_equations; lia).
  set (q := (153 * mp + 2) / 5).
  assert (Hq : 5 * q <= 153 * mp + 2 < 5 * q + 5)
    by (subst q; Z.div_mod_to_equations; lia).
  clearbody mp q.
  unfold date_of, month_of.
  destruct (mp <? 10) eqn:Hlt.
  - replace (mp + 3 <=? 2) with false by lia.
    rewrite Z.add_0_r. assert (Hd : doy < 306) by lia.
    specialize (Hmar Hd). rewrite Hmar. clear Hjan Hlen' Hfeb.
    generalize dependent (DaysInYear y0). intros len Hlen Hmar.
    destruct (len =? 366) eqn:Hleap;
      repeat match goal with
             | |- context [if ?b then _ else _] => destruct b eqn:?
             end; cbv beta iota; do 2 f_equal; lia.
  - replace (mp - 9 <=? 2) with true by lia.
    assert (Hd : 306 <= doy) by lia.
    specialize (Hjan Hd). rewrite Hjan. clear Hmar Hlen.
    generalize dependent (DaysInYear (y0 + 1)). intros len Hlen Hfeb.
    destruct (len =? 366) eqn:Hleap;
      repeat match goal with
             | |- context [if ?b then _ else _] => destruct b eqn:?
             end; cbv beta iota; do 2 f_equal; lia.
Qed.

End Calendar.

Section DateFacts.
Import JsString JsDate.

Lemma lacks_app c a b :
  Spec.lacks c (a +:+ b) = Spec.lacks c a && Spec.lacks c b.
Proof.
  induction a as [|x r IH]; [reflexivity|].
  simpl. by rewrite IH, andb_assoc.
Qed.

Lemma digit_cases n :
  exists k, (k < 10)%nat /\ digit n = ascii_of_nat (48 + k).
Proof.
  exists (Z.to_nat (n mod 10)). split; [|reflexivity].
  pose proof (Z.mod_pos_bound n 10). lia.
Qed.

Lemma digit_is_digit n : is_digit (digit n) = true.
Proof.
  destruct (digit_cases n) as (k & Hk & ->).
  do 10 (destruct k as [|k]; [reflexivity|]). lia.
Qed.

Lemma digit_lacks_T n : Ascii.eqb (digit n) "T" = false.
Proof.
  destruct (digit_cases n) as (k & Hk & ->).
  do 10 (destruct k as [|k]; [reflexivity|]). lia.
Qed.

Lemma lacks_padded w n : Spec.lacks "T" (padded w n) = true.
Proof.
  revert n. induction w as [|w IH]; intros n; [reflexivity|].
  cbn [padded]. rewrite lacks_app, IH. cbn [Spec.lacks andb].
  by rewrite digit_lacks_T.
Qed.

Lemma lacks_date t : Spec.lacks "T" (date_string t) = true.
Proof.
  unfold date_string. destruct (civil (Day t)) as [[y m] d].
  unfold year_string.
  destruct ((0 <=? y) && (y <=? 9999)); [|destruct (y <? 0)];
    rewrite ?lacks_app, ?lacks_padded; reflexivity.
Qed.

Lemma split_head c a b :
  Spec.lacks c a = true -> hd "" (split c (a +:+ String c b)) = a.
Proof.
  induction a as [|x r IH]; simpl.
  - by rewrite Ascii.eqb_refl.
  - intros [Hx Hr]%andb_prop. apply negb_true_iff in Hx. rewrite Hx.
    specialize (IH Hr). destruct (split c _); simpl in *; by subst.
Qed.

(** The date part of the ISO rendering is the UTC calendar date. *)
Lemma today_utc e : Spec.today e = Spec.utc_date e.
Proof.
  unfold Spec.today, Spec.utc_date, toISOString.
  apply split_head, lacks_date.
Qed.

Lemma date_string_format t :
  0 <= YearFromTime t <= 9999 -> is_YYYY_MM_DD (date_string t) = true.
Proof.
  unfold YearFromTime, date_string.
  destruct (civil (Day t)) as [[y m] d]. simpl fst. intros Hy.
  unfold year_string.
  replace ((0 <=? y) && (y <=? 9999)) with true by (symmetry; lia).
  unfold is_YYYY_MM_DD.
  cbn [padded].
  repeat match goal with
         | |- context [digit ?x] =>
             let Hd := fresh "Hd" in
             let c := fresh "c" in
             pose proof (digit_is_digit x) as Hd;
             set (c := digit x) in *; clearbody c
         end.
  simpl.
  repeat match goal with
         | Hd : is_digit _ = true |- _ => rewrite Hd; clear Hd
         end.
  reflexivity.
Qed.

Lemma includes_prefix needle rest : includes needle (needle +:+ rest) = true.
Proof.
  assert (Hp : String.prefix needle (needle +:+ rest) = true).
  { induction needle as [|c r IH]; simpl; [by destruct rest|].
    destruct (ascii_dec c c); [exact IH|contradiction]. }
  destruct needle as [|c r]; [by destruct rest|].
  change (String c r +:+ rest) with (String c (r +:+ rest)) in *.
  cbn [includes]. by rewrite Hp.
Qed.

Lemma includes_later needle before hay :
  includes needle hay = true -> includes needle (before +:+ hay) = true.
Proof.
  intros Hin. induction before as [|c r IH]; [done|].
  simpl. rewrite IH. apply orb_true_r.
Qed.

Lemma includes_middle needle before after :
  includes needle (before +:+ needle +:+ after) = true.
Proof. apply includes_later, includes_prefix. Qed.

Lemma includes_self needle : includes needle needle = true.
Proof.
  assert (Hnil : forall t : string, t +:+ "" = t).
  { intros t. induction t as [|c r IH]; [reflexivity|].
    change (String c (r +:+ "") = String c r). by rewrite IH. }
  rewrite <- (Hnil needle) at 2. apply includes_prefix.
Qed.

End DateFacts.

Section RunFacts.
Import Js Sys DevLog.
Context `{Runtime}.

(** What a run that logs leaves behind, whatever the server answers. *)
Lemma main_traces args customMessage customDate props message e s :
  Spec.log_args args = Some (customMessage, customDate) ->
  Spec.configured (new e) e s props ->
  truthy (lookup_prop "apiKey" props) = true ->
  Spec.message_for e customMessage = Some message ->
  import_error e = None ->
  let s' := snd (main args e s) in
  fs s' = fs s /\
  spawned s'
  = (spawned s
     ++ (if Spec.asks_git customMessage then [Spec.message_command] else [])
     ++ (if truthy (lookup_prop "includeCommitHash" props)
         then [Spec.hash_command] else []))%list /\
  sent s'
  = (sent s ++ [Spec.request props (Spec.entry_text e props message)
                  (Spec.date_for e props customDate)])%list.
Proof.
  intros Hargs Hconf Hkey Hmsg Himport.
  rewrite (main_spec _ _ _ _ _ _ _ Hargs Hconf Hkey Hmsg Himport).
  cbn zeta.
  destruct (concluded_frame
              (fetch e (Spec.request props (Spec.entry_text e props message)
                          (Spec.date_for e props customDate)))
              (send (Spec.request props (Spec.entry_text e props message)
                       (Spec.date_for e props customDate))
                 (Spec.announced e props customMessage
                    (Spec.entry_text e props message)
                    (Spec.date_for e props customDate) s)))
    as (-> & -> & -> & _).
  destruct (announced_frame e props customMessage
              (Spec.entry_text e props message)
              (Spec.date_for e props customDate) s) as (Hfs & Hsent & _ & Hsp).
  cbn [send fs spawned sent]. by rewrite Hfs, Hsent, Hsp.
Qed.

End RunFacts.

(** C6. For every message and configuration object: when
    [includeCommitHash] is set and git prints a full hexadecimal hash of
    at least eight characters, the entry is the message behind a bracketed
    prefix that is exactly the first eight characters of that hash; when
    the setting is not set the message is returned unchanged with no git
    call; and when git cannot resolve a hash the message is returned
    unchanged. *)
Theorem formatLogEntry_prefix `{Js.Runtime} (message : string)
    (props : list (string * Js.value)) (e : Sys.Env) (s : Sys.State) :
  (forall full,
     Js.truthy (Js.lookup_prop "includeCommitHash" props) = true ->
     Spec.all_hex full = true ->
     (8 <= String.length full)%nat ->
     Sys.exec e Spec.hash_command = inl (full +:+ JsString.nl) ->
     fst (DevLog.formatLogEntry message (Js.VObj props) e s)
     = Sys.Ret ("[" +:+ String.substring 0 8 full +:+ "] " +:+ message)
     /\ String.length (String.substring 0 8 full) = 8%nat
     /\ String.prefix (String.substring 0 8 full) full = true) /\
  (Js.truthy (Js.lookup_prop "includeCommitHash" props) = false ->
     DevLog.formatLogEntry message (Js.VObj props) e s = (Sys.Ret message, s)) /\
  (forall err,
     Sys.exec e Spec.hash_command = inr err ->
     fst (DevLog.formatLogEntry message (Js.VObj props) e s) = Sys.Ret message).
Proof.
  rewrite formatLogEntry_spec. unfold Spec.entry_text, Spec.short_hash.
  split; [|split].
  - intros full Hflag Hhex Hlen Hgit.
    rewrite Hflag, Hgit, (trim_line _ (hex_no_space _ Hhex)).
    change (JsString.substring 0 8 full) with (String.substring 0 8 full).
    pose proof (substring_length 8 full Hlen) as Hsub.
    rewrite nonempty_length by lia.
    split; [reflexivity|]. split; [exact Hsub|apply substring_prefix].
  - by intros ->.
  - intros err ->. by destruct (Js.truthy _).
Qed.

Lemma formatLogEntry_prefix_witness :
  fst (@DevLog.formatLogEntry Sample.runtime "Fix bug"
         (Js.VObj [("includeCommitHash", Js.VBool true)])
         (Sample.env Sample.created) (Sample.state None None []))
  = Sys.Ret "[abcdef12] Fix bug".
Proof.
  destruct (@formatLogEntry_prefix Sample.runtime "Fix bug"
              [("includeCommitHash", Js.VBool true)]
              (Sample.env Sample.created) (Sample.state None None []))
    as [Hset _].
  destruct (Hset Sample.full_hash) as [Hentry _].
  - reflexivity.
  - reflexivity.
  - vm_compute. lia.
  - reflexivity.
  - exact Hentry.
Defined.

(** C1, as amended. For [log "Manual note" 2025-01-01] under a readable
    configuration object with an API key: the commit message is never asked
    for; the only git call is the hash query, made exactly when
    [includeCommitHash] is set; one request is sent, whose body is the
    object with [date] "2025-01-01" and with [text] "Manual note", prefixed
    by the bracketed short hash when the setting is set and git resolves a
    hash. *)
Theorem manual_note_request `{Js.Runtime} (e : Sys.Env) (s : Sys.State)
    (props : list (string * Js.value)) :
  Spec.configured (DevLog.new e) e s props ->
  Js.truthy (Js.lookup_prop "apiKey" props) = true ->
  Sys.import_error e = None ->
  let s' := snd (DevLog.main ["log"; "Manual note"; "2025-01-01"] e s) in
  let hashed := Js.truthy (Js.lookup_prop "includeCommitHash" props) in
  let text :=
    if hashed then
      match Spec.short_hash e with
      | Some h => "[" +:+ h +:+ "] Manual note"
      | None => "Manual note"
      end
    else "Manual note" in
  Sys.spawned s'
  = (Sys.spawned s ++ (if hashed then [Spec.hash_command] else []))%list /\
  Sys.sent s'
  = (Sys.sent s ++ [Spec.request props text (Some "2025-01-01")])%list /\
  Sys.payload (Spec.request props text (Some "2025-01-01"))
  = Js.JSON_stringify
      (Js.VObj [("text", Js.VStr text); ("date", Js.VStr "2025-01-01")]).
Proof.
  intros Hconf Hkey Himport.
  destruct (main_traces ["log"; "Manual note"; "2025-01-01"]
              (Some "Manual note") (Some "2025-01-01") props "Manual note" e s
              eq_refl Hconf Hkey eq_refl Himport) as (_ & Hsp & Hsent).
  cbn zeta. rewrite Hsp, Hsent. repeat split.
Qed.

Lemma manual_note_request_witness :
  let s' :=
    snd (@DevLog.main Sample.runtime ["log"; "Manual note"; "2025-01-01"]
           (Sample.env Sample.created)
           (Sample.state (Some (Sample.text_of (Sample.config_of false true [])))
              None [])) in
  Sys.spawned s' = [] /\
  map Sys.payload (Sys.sent s')
  = [Sample.text_of (Js.VObj [("text", Js.VStr "Manual note");
                               ("date", Js.VStr "2025-01-01")])].
Proof.
  destruct (@manual_note_request Sample.runtime (Sample.env Sample.created)
              (Sample.state (Some (Sample.text_of (Sample.config_of false true [])))
                 None [])
              [("apiKey", Js.VStr "k"); ("apiBaseUrl", Js.VStr "http://x");
               ("includeCommitHash", Js.VBool false);
               ("includeDate", Js.VBool true)])
    as (Hsp & Hsent & _).
  - exists (Sample.text_of (Sample.config_of false true [])), 420.
    split; [reflexivity|]. split; [apply not_elem_of_empty|reflexivity].
  - reflexivity.
  - reflexivity.
  - cbn zeta. rewrite Hsp, Hsent. split; reflexivity.
Defined.

(** C1, as stated, fails: with [includeCommitHash] set, the same command
    line makes a git call and posts a text that is not the message. *)
Lemma manual_note_counterexample :
  let s' :=
    snd (@DevLog.main Sample.runtime ["log"; "Manual note"; "2025-01-01"]
           (Sample.env Sample.created)
           (Sample.state (Some (Sample.text_of (Sample.config_of true true [])))
              None [])) in
  Sys.spawned s' = ["git log -1 --pretty=%H"] /\
  map Sys.payload (Sys.sent s')
  = [Sample.text_of (Js.VObj [("text", Js.VStr "[abcdef12] Manual note");
                               ("date", Js.VStr "2025-01-01")])] /\
  ~ (Sys.spawned s' = [] /\
     map Sys.payload (Sys.sent s')
     = [Sample.text_of (Js.VObj [("text", Js.VStr "Manual note");
                                  ("date", Js.VStr "2025-01-01")])]).
Proof.
  vm_compute. split; [reflexivity|]. split; [reflexivity|].
  intros [Hcalls _]. discriminate Hcalls.
Qed.




(** C9, as amended. Every non-empty text given as the date argument of
    [log <message> <date>] is the [date] field of the body that is sent,
    unchanged and unchecked. *)
Theorem explicit_date_verbatim `{Js.Runtime} (argument date message : string)
    (props : list (string * Js.value)) (e : Sys.Env) (s : Sys.State) :
  date <> "" ->
  Spec.configured (DevLog.new e) e s props ->
  Js.truthy (Js.lookup_prop "apiKey" props) = true ->
  Spec.message_for e (Some argument) = Some message ->
  Sys.import_error e = None ->
  let s' := snd (DevLog.main ["log"; argument; date] e s) in
  let text := Spec.entry_text e props message in
  Sys.sent s' = (Sys.sent s ++ [Spec.request props text (Some date)])%list /\
  Sys.payload (Spec.request props text (Some date))
  = Js.JSON_stringify (Js.VObj [("text", Js.VStr text); ("date", Js.VStr date)]).
Proof.
  intros Hdate Hconf Hkey Hmsg Himport.
  destruct (main_traces ["log"; argument; date] (Some argument) (Some date)
              props message e s eq_refl Hconf Hkey Hmsg Himport)
    as (_ & _ & Hsent).
  cbn zeta. rewrite Hsent. unfold Spec.date_for.
  destruct date; [done|]. split; reflexivity.
Qed.

Lemma explicit_date_verbatim_witness :
  map Sys.payload
    (Sys.sent
       (snd (@DevLog.main Sample.runtime ["log"; "Manual note"; "next tuesday"]
               (Sample.env Sample.created)
               (Sample.state (Some (Sample.text_of (Sample.config_of false true [])))
                  None []))))
  = [Sample.text_of (Js.VObj [("text", Js.VStr "Manual note");
                               ("date", Js.VStr "next tuesday")])].
Proof.
  destruct (@explicit_date_verbatim Sample.runtime
              "Manual note" "next tuesday" "Manual note"
              [("apiKey", Js.VStr "k"); ("apiBaseUrl", Js.VStr "http://x");
               ("includeCommitHash", Js.VBool false);
               ("includeDate", Js.VBool true)]
              (Sample.env Sample.created)
              (Sample.state (Some (Sample.text_of (Sample.config_of false true [])))
                 None []))
    as (Hsent & _).
  - discriminate.
  - exists (Sample.text_of (Sample.config_of false true [])), 420.
    split; [reflexivity|]. split; [apply not_elem_of_empty|reflexivity].
  - reflexivity.
  - reflexivity.
  - reflexivity.
  - rewrite Hsent. reflexivity.
Defined.

(** C9, as stated, fails on the empty text: given as the date argument it
    is not forwarded; with [includeDate] set the current date is sent, and
    with [includeDate] unset no date is sent at all. *)
Lemma explicit_date_counterexample :
  let e := Sample.env Sample.created in
  let dated :=
    snd (@DevLog.main Sample.runtime ["log"; "Manual note"; ""] e
           (Sample.state (Some (Sample.text_of (Sample.config_of false true [])))
              None [])) in
  let undated :=
    snd (@DevLog.main Sample.runtime ["log"; "Manual note"; ""] e
           (Sample.state (Some (Sample.text_of (Sample.config_of false false [])))
              None [])) in
  map Sys.payload (Sys.sent dated)
  <> [Sample.text_of (Js.VObj [("text", Js.VStr "Manual note");
                                ("date", Js.VStr "")])] /\
  map Sys.payload (Sys.sent undated)
  = [Sample.text_of (Js.VObj [("text", Js.VStr "Manual note")])] /\
  map Sys.payload (Sys.sent undated)
  <> [Sample.text_of (Js.VObj [("text", Js.VStr "Manual note");
                                ("date", Js.VStr "")])].
Proof. vm_compute. repeat split; discriminate. Qed.



Section Install.
Import Js Sys DevLog.

Lemma isGitRepository_spec e s :
  isGitRepository e s
  = (Ret (match exec e Spec.repository_command with
          | inl _ => true
          | inr _ => false
          end), spawn Spec.repository_command s).
Proof.
  unfold isGitRepository, Spec.repository_command. exec.
  destruct (exec e _); reflexivity.
Qed.

Lemma hook_in_hooksDir : Path.dirname hookPath = hooksDir.
Proof. reflexivity. Qed.

Lemma backup_in_hooksDir : Path.dirname backupPath = hooksDir.
Proof. reflexivity. Qed.

Lemma hookPath_neq_hooksDir : hookPath <> hooksDir.
Proof. discriminate. Qed.

Lemma backupPath_neq_hookPath : backupPath <> hookPath.
Proof. discriminate. Qed.

Lemma backupPath_neq_hooksDir : backupPath <> hooksDir.
Proof. discriminate. Qed.

(** Without [--force] an existing hook is only read. *)
Lemma installHook_frame e s n :
  fs s !! hookPath = Some n -> fs (snd (installHook e s)) = fs s.
Proof.
  intros Hhook. unfold installHook.
  unfold bind at 1. rewrite isGitRepository_spec.
  destruct (exec e _) as [out|err]; [|reflexivity]. cbn [negb].
  exec. destruct (fs s !! hooksDir) as [d|] eqn:Hdir; exec_with Hdir;
    [|reflexivity].
  exec_with Hhook. destruct n as [content mode|]; exec; [|reflexivity].
  destruct (decide _); exec; [reflexivity|].
  destruct (JsString.includes _ _); reflexivity.
Qed.

Lemma installHook_existing e s out d content mode :
  exec e Spec.repository_command = inl out ->
  fs s !! hooksDir = Some d ->
  fs s !! hookPath = Some (File content mode) ->
  hookPath ∉ denied e ->
  installHook e s
  = (Ret tt, emits (Spec.already_there content) (spawn Spec.repository_command s)).
Proof.
  intros Hgit Hdir Hhook Hacc. unfold installHook, Spec.already_there.
  unfold bind at 1. rewrite isGitRepository_spec, Hgit. cbn [negb].
  exec_with Hdir. exec_with Hhook. rewrite decide_False by assumption.
  exec. destruct (JsString.includes _ _); reflexivity.
Qed.

(** A first installation. *)
Lemma installHook_fresh e s out :
  exec e Spec.repository_command = inl out ->
  fs s !! hooksDir = Some Dir ->
  fs s !! hookPath = None ->
  hookPath ∉ denied e ->
  installHook e s
  = (Ret tt,
     emits Spec.installed
       (set_fs (<[hookPath := File hookContent 493]> (fs s))
          (spawn Spec.repository_command s))).
Proof.
  intros Hgit Hdir Hhook Hacc. unfold installHook, Spec.installed.
  unfold bind at 1. rewrite isGitRepository_spec, Hgit. cbn [negb].
  exec_with Hdir. exec_with Hhook.
  unfold store. rewrite decide_False by assumption.
  exec_with Hhook. rewrite hook_in_hooksDir.
  unfold is_dir. rewrite Hdir. exec.
  unfold chmodSync. exec. rewrite lookup_insert_eq.
  rewrite decide_False by assumption. exec.
  rewrite insert_insert_eq. reflexivity.
Qed.

End Install.

Section InstallForce.
Import Js Sys DevLog.

Lemma copy_hook_to_backup e s content mode :
  fs s !! hookPath = Some (File content mode) ->
  fs s !! hooksDir = Some Dir ->
  hookPath ∉ denied e ->
  backupPath ∉ denied e ->
  fs s !! backupPath <> Some Dir ->
  copyFileSync hookPath backupPath e s
  = (Ret tt, set_fs (<[backupPath := File content mode]> (fs s)) s).
Proof.
  intros Hhook Hdir Hacc Hacc' Hbak. unfold copyFileSync, store.
  rewrite Hhook. rewrite !decide_False by assumption.
  destruct (fs s !! backupPath) as [[old m0|]|]; [reflexivity|done|].
  rewrite backup_in_hooksDir. unfold is_dir. by rewrite Hdir.
Qed.

(** [--force] over an existing hook. *)
Lemma installHookForce_existing e s out content mode :
  exec e Spec.repository_command = inl out ->
  fs s !! hookPath = Some (File content mode) ->
  fs s !! hooksDir = Some Dir ->
  hookPath ∉ denied e ->
  backupPath ∉ denied e ->
  fs s !! backupPath <> Some Dir ->
  exists s',
    installHookForce e s = (Ret tt, s') /\
    fs s' = <[hookPath := File hookContent 493]>
              (<[backupPath := File content mode]> (fs s)) /\
    console s'
    = (console s ++ Out ("📋 Backed up existing hook to: " +:+ backupPath)
         :: Spec.installed)%list.
Proof.
  intros Hgit Hhook Hdir Hacc Hacc' Hbak. unfold installHookForce.
  unfold bind at 1. rewrite isGitRepository_spec, Hgit. cbn [negb].
  exec_with Hhook.
  rewrite (copy_hook_to_backup e _ content mode) by (by autorewrite with world).
  exec. rewrite (lookup_insert_ne _ _ _ _ backupPath_neq_hookPath), Hhook.
  unfold unlinkSync. exec.
  rewrite (lookup_insert_ne _ _ _ _ backupPath_neq_hookPath), Hhook.
  rewrite decide_False by assumption. exec.
  erewrite installHook_fresh; [|eassumption|..|assumption].
  - eexists. split; [reflexivity|].
    rewrite fs_emits, console_emits. exec.
    rewrite insert_delete_eq. split; [reflexivity|].
    by rewrite <- app_assoc.
  - exec. rewrite lookup_delete_ne by apply hookPath_neq_hooksDir.
    by rewrite lookup_insert_ne by apply backupPath_neq_hooksDir.
  - exec. apply lookup_delete_eq.
Qed.

End InstallForce.

Section InstallRuns.
Import Js Sys DevLog.
Context `{Runtime}.

Lemma main_install args e s :
  hd_error args = Some "install" ->
  main args e s
  = try_catch
      (if existsb (String.eqb "--force") args then installHookForce
       else installHook)
      (fun msg => console_error ("Error: " +:+ msg) ;; process_exit 1) e s.
Proof.
  destruct args as [|command rest]; [done|]. intros [= ->]. reflexivity.
Qed.

(** The handler of the entry point only writes to the console. *)
Lemma handler_frame {A} (m : M A) e s :
  fs (snd (try_catch m
             (fun msg => console_error ("Error: " +:+ msg) ;; process_exit 1)
             e s))
  = fs (snd (m e s)).
Proof. unfold try_catch. by destruct (m e s) as [[| | |] s']. Qed.

End InstallRuns.



(** C8. For every post-commit hook file that is already there, in a git
    repository whose hooks directory can be written, [install --force]
    returns normally and leaves at the sibling path [post-commit.backup] a
    file with the content (and mode) of the original, and at the hook path
    an executable file whose content is the template: the very file a
    first installation in the same repository writes. No other path
    changes. *)
Theorem install_force_backs_up `{Js.Runtime} (args : list string)
    (content out : string) (mode : Z) (e : Sys.Env) (s : Sys.State) :
  hd_error args = Some "install" ->
  existsb (String.eqb "--force") args = true ->
  Sys.fs s !! DevLog.hookPath = Some (Sys.File content mode) ->
  Sys.exec e Spec.repository_command = inl out ->
  Sys.fs s !! DevLog.hooksDir = Some Sys.Dir ->
  DevLog.hookPath ∉ Sys.denied e ->
  DevLog.backupPath ∉ Sys.denied e ->
  Sys.fs s !! DevLog.backupPath <> Some Sys.Dir ->
  let s' := snd (DevLog.main args e s) in
  fst (DevLog.main args e s) = Sys.Ret tt /\
  DevLog.backupPath = DevLog.hookPath +:+ ".backup" /\
  Sys.fs s' !! DevLog.backupPath = Some (Sys.File content mode) /\
  Sys.fs s' !! DevLog.hookPath = Some (Sys.File DevLog.hookContent 493) /\
  Sys.fs s' !! DevLog.hookPath
  = Sys.fs (snd (DevLog.main ["install"] e (Spec.without_hook s))) !! DevLog.hookPath /\
  (forall p, p <> DevLog.hookPath -> p <> DevLog.backupPath ->
             Sys.fs s' !! p = Sys.fs s !! p).
Proof.
  intros Hcmd Hforce Hhook Hgit Hdir Hacc Hacc' Hbak. cbn zeta.
  rewrite (main_install _ _ _ Hcmd), Hforce.
  destruct (installHookForce_existing e s out content mode
              Hgit Hhook Hdir Hacc Hacc' Hbak) as (s' & Hrun & Hfs & _).
  rewrite (try_catch_ret_eq _ _ _ _ _ _ Hrun). cbn [fst snd]. rewrite Hfs.
  split; [reflexivity|]. split; [reflexivity|]. split; [|split; [|split]].
  - rewrite lookup_insert_ne by (by apply not_eq_sym, backupPath_neq_hookPath).
    apply lookup_insert_eq.
  - apply lookup_insert_eq.
  - rewrite (main_install ["install"] _ _ eq_refl). cbn [existsb String.eqb orb].
    erewrite try_catch_ret_eq; [|eapply installHook_fresh; [eassumption|..|assumption]].
    + cbn [snd]. by rewrite fs_emits, fs_set_fs, !lookup_insert_eq.
    + unfold Spec.without_hook. rewrite fs_set_fs.
      by rewrite lookup_delete_ne by apply hookPath_neq_hooksDir.
    + unfold Spec.without_hook. rewrite fs_set_fs. apply lookup_delete_eq.
  - intros p Hp Hp'. by rewrite !lookup_insert_ne.
Qed.

Lemma install_force_backs_up_witness :
  let run :=
    @DevLog.main Sample.runtime ["install"; "--force"] (Sample.env Sample.created)
      (Sample.state None (Some Sample.other_hook) []) in
  fst run = Sys.Ret tt /\
  Sys.fs (snd run) !! ".git/hooks/post-commit.backup"
  = Some (Sys.File Sample.other_hook 493) /\
  Sys.fs (snd run) !! ".git/hooks/post-commit"
  = Some (Sys.File DevLog.hookContent 493).
Proof.
  destruct (@install_force_backs_up Sample.runtime ["install"; "--force"]
              Sample.other_hook ("true" +:+ JsString.nl) 493
              (Sample.env Sample.created)
              (Sample.state None (Some Sample.other_hook) []))
    as (Hret & _ & Hbackup & Hhook & _).
  - reflexivity.
  - reflexivity.
  - reflexivity.
  - reflexivity.
  - reflexivity.
  - apply not_elem_of_empty.
  - apply not_elem_of_empty.
  - discriminate.
  - split; [exact Hret|]. split; [exact Hbackup|exact Hhook].
Defined.

Section Configure.
Import Js Sys DevLog.
Context `{Runtime}.

Lemma prompt_spec q e s answer rest :
  stdin s = answer :: rest ->
  prompt q e s = (Ret (JsString.trim answer), set_stdin rest (emit (Ask q) s)).
Proof. intros Hin. unfold prompt. exec_with Hin. reflexivity. Qed.

Lemma lookup_assign_eq k v props : lookup_prop k (assign_prop k v props) = v.
Proof.
  induction props as [|[k' v'] rest IH]; simpl.
  - by rewrite String.eqb_refl.
  - destruct (String.eqb k' k) eqn:Hk; simpl.
    + by rewrite String.eqb_refl.
    + by rewrite Hk.
Qed.

Lemma lookup_assign_ne k k' v props :
  k <> k' -> lookup_prop k' (assign_prop k v props) = lookup_prop k' props.
Proof.
  intros Hne. induction props as [|[k0 v0] rest IH]; simpl.
  - by apply String.eqb_neq in Hne as ->.
  - destruct (String.eqb k0 k) eqn:Hk; simpl.
    + apply String.eqb_eq in Hk as ->.
      by apply String.eqb_neq in Hne as ->.
    + by rewrite IH.
Qed.

Lemma extras_assign k v props :
  Spec.documented k = true ->
  Spec.extras (assign_prop k v props) = Spec.extras props.
Proof.
  intros Hk. unfold Spec.extras.
  induction props as [|[k0 v0] rest IH]; simpl.
  - by rewrite Hk.
  - destruct (String.eqb k0 k) eqn:Hk0; simpl.
    + apply String.eqb_eq in Hk0 as ->. by rewrite Hk.
    + by rewrite IH.
Qed.

Lemma current_key_step props typed e s :
  Spec.key_available props typed ->
  exists shown,
    (if truthy (lookup_prop "apiKey" props) then
       let* short := apiKey_substring (lookup_prop "apiKey" props) in
       ret ("(current: " +:+ short +:+ "...)")
     else ret "") e s
    = (Ret shown, s).
Proof.
  unfold Spec.key_available.
  destruct (lookup_prop "apiKey" props) as [| |b|x|key|xs|fields];
    try (intros [-> _]; by eexists).
  intros _. destruct (truthy (VStr key)); by eexists.
Qed.

Lemma new_key_step props answer e s :
  Spec.key_available props answer ->
  (if nonempty (JsString.trim answer)
   then set (VObj props) "apiKey" (VStr (JsString.trim answer))
   else
     let* k := get (VObj props) "apiKey" in
     if negb (truthy k) then
       console_error "API key is required." ;; process_exit 1
     else ret (VObj props)) e s
  = (Ret (VObj (if nonempty (JsString.trim answer)
                then assign_prop "apiKey" (VStr (JsString.trim answer)) props
                else props)), s).
Proof.
  unfold Spec.key_available, nonempty.
  destruct (String.eqb (JsString.trim answer) "") eqn:Htyped; [|reflexivity].
  apply String.eqb_eq in Htyped. cbn [negb]. exec.
  destruct (lookup_prop "apiKey" props) as [| |b|x|key|xs|fields];
    try (by intros [_ ?]).
  intros [Hkey|?]; [|done]. cbn [truthy].
  by apply String.eqb_neq in Hkey as ->.
Qed.

Lemma saveConfig_spec this config e s old mode :
  fs s !! configPath this = Some (File old mode) ->
  configPath this ∉ denied e ->
  is_Some (fs s !! Path.dirname (configPath this)) ->
  saveConfig this config e s
  = (Ret tt,
     emit (Out "Configuration saved successfully.")
       (set_fs (<[configPath this := File (JSON_stringify_2 config) mode]> (fs s)) s)).
Proof.
  intros Hfile Hacc [d Hdir]. unfold saveConfig, ensureConfigDir.
  exec_with Hdir. unfold store. rewrite decide_False by assumption.
  exec_with Hfile. reflexivity.
Qed.

(** [configure] over an existing configuration object, in one equation. *)
Lemma configure_spec this props a1 a2 a3 a4 rest e s :
  Spec.configured this e s props ->
  stdin s = a1 :: a2 :: a3 :: a4 :: rest ->
  Spec.key_available props a1 ->
  is_Some (fs s !! Path.dirname (configPath this)) ->
  exists s' mode,
    configure this e s = (Ret tt, s') /\
    fs s' = <[configPath this :=
                File (JSON_stringify_2
                        (VObj (Spec.reconfigured this props a1 a2 a3 a4))) mode]>
              (fs s) /\
    stdin s' = rest.
Proof.
  intros (c & m & Hfile & Hacc & Hparse) Hin Hkey Hdir.
  unfold configure.
  step_by ltac:(reflexivity).
  step_by ltac:(eapply loadConfig_parsed; eauto).
  step_by ltac:(reflexivity).
  destruct (current_key_step props a1 e
              (emit (Out ("Configuring devlog..." +:+ JsString.nl)) s) Hkey)
    as [shown Hshown].
  step_by ltac:(exact Hshown).
  step_by ltac:(apply prompt_spec; exact Hin).
  step_by ltac:(apply new_key_step; exact Hkey).
  step_by ltac:(reflexivity).
  step_by ltac:(apply prompt_spec; reflexivity).
  step_by ltac:(reflexivity).
  step_by ltac:(apply prompt_spec; reflexivity).
  step_by ltac:(reflexivity).
  step_by ltac:(apply prompt_spec; reflexivity).
  step_by ltac:(reflexivity).
  erewrite saveConfig_spec; [|by autorewrite with world; eauto..].
  eexists _, m. split; [reflexivity|]. autorewrite with world.
  split; reflexivity.
Qed.

End Configure.

Section Reconfigured.
Import Js Sys DevLog.

Lemma undocumented_neq k :
  Spec.documented k = false ->
  "apiKey" <> k /\ "apiBaseUrl" <> k /\ "includeCommitHash" <> k
  /\ "includeDate" <> k.
Proof.
  unfold Spec.documented, Spec.documented_keys. cbn [existsb].
  rewrite !orb_false_iff. intros (H1 & H2 & H3 & H4 & _).
  apply String.eqb_neq in H1, H2, H3, H4. repeat split; congruence.
Qed.

Lemma reconfigured_extras this props a1 a2 a3 a4 :
  Spec.extras (Spec.reconfigured this props a1 a2 a3 a4) = Spec.extras props.
Proof.
  unfold Spec.reconfigured. cbn zeta.
  rewrite !extras_assign by reflexivity.
  destruct (nonempty _); [by rewrite extras_assign|reflexivity].
Qed.

Lemma reconfigured_lookup this props a1 a2 a3 a4 k :
  Spec.documented k = false ->
  lookup_prop k (Spec.reconfigured this props a1 a2 a3 a4) = lookup_prop k props.
Proof.
  intros (H1 & H2 & H3 & H4)%undocumented_neq.
  unfold Spec.reconfigured. cbn zeta.
  rewrite !lookup_assign_ne by assumption.
  destruct (nonempty _); [by rewrite lookup_assign_ne|reflexivity].
Qed.

End Reconfigured.



(** The same run, evaluated: the key is replaced by the trimmed
    answer, the base URL is kept, the two preferences follow the answers,
    and [team] and [tags] are written back as they were. *)
Example configure_sample_run :
  Sys.fs (snd (@DevLog.main Sample.runtime ["config"] (Sample.env Sample.created)
                 (Sample.state
                    (Some (Sample.pretty_of
                             (Sample.config_of true true
                                [("team", Js.VStr "core");
                                 ("tags", Js.VArr [Js.VStr "a"; Js.VNull])])))
                    None [" k2 "; ""; "n"; "y"])))
  !! Sample.config_file
  = Some (Sys.File
            (Sample.pretty_of
               (Js.VObj [("apiKey", Js.VStr "k2"); ("apiBaseUrl", Js.VStr "http://x");
                         ("includeCommitHash", Js.VBool false);
                         ("includeDate", Js.VBool true);
                         ("team", Js.VStr "core");
                         ("tags", Js.VArr [Js.VStr "a"; Js.VNull])])) 420).
Proof. vm_compute. reflexivity. Qed.

Section FreshInstall.
Import Js Sys DevLog.

(** With nothing to back up, [--force] is a plain installation. *)
Lemma installHookForce_fresh e s out :
  exec e Spec.repository_command = inl out ->
  fs s !! hooksDir = Some Dir ->
  fs s !! hookPath = None ->
  hookPath ∉ denied e ->
  installHookForce e s
  = (Ret tt,
     emits Spec.installed
       (set_fs (<[hookPath := File hookContent 493]> (fs s))
          (spawn Spec.repository_command (spawn Spec.repository_command s)))).
Proof.
  intros Hgit Hdir Hhook Hacc. unfold installHookForce.
  unfold bind at 1. rewrite isGitRepository_spec, Hgit. cbn [negb].
  exec_with Hhook.
  by rewrite (installHook_fresh e _ out) by (by autorewrite with world).
Qed.

(** The three ways a run of the hook can go. *)
Lemma post_commit_runs mc :
  Hook.run mc Hook.post_commit
  = if negb (Hook.on_path mc "devlog") then
      {| Hook.printed :=
           ["devlog command not found. Please install devlog-cli first."];
         Hook.started := [];
         Hook.exited := Some 0 |}
    else if negb (Hook.home_file mc "/.config/devlog.json") then
      {| Hook.printed := ["devlog not configured. Run 'devlog config' first."];
         Hook.started := [];
         Hook.exited := Some 0 |}
    else
      {| Hook.printed := ["📝 Logging commit to devlog..."];
         Hook.started := [("devlog", [])];
         Hook.exited := Some 0 |}.
Proof.
  unfold Hook.run, Hook.post_commit. cbn [Hook.exec Hook.exited Hook.holds].
  destruct (Hook.on_path mc "devlog"); cbn [negb]; [|reflexivity].
  cbn [Hook.exec Hook.exited Hook.holds].
  destruct (Hook.home_file mc "/.config/devlog.json"); reflexivity.
Qed.

End FreshInstall.

(** C3, as amended. The hook written by a first installation is an
    executable file (mode 0755) holding a bash script; run where the tool
    is not on the path, or where the configuration file is missing, the
    script prints one line of explanation, starts nothing and exits with
    status 0; otherwise it prints one line, starts the tool with no
    arguments and exits with status 0. *)
Theorem fresh_hook_artifact `{Js.Runtime} (args : list string) (out : string)
    (e : Sys.Env) (s : Sys.State) :
  hd_error args = Some "install" ->
  Sys.fs s !! DevLog.hookPath = None ->
  Sys.exec e Spec.repository_command = inl out ->
  Sys.fs s !! DevLog.hooksDir = Some Sys.Dir ->
  DevLog.hookPath ∉ Sys.denied e ->
  fst (DevLog.main args e s) = Sys.Ret tt /\
  Sys.fs (snd (DevLog.main args e s)) !! DevLog.hookPath
  = Some (Sys.File (Hook.render Hook.post_commit) 493) /\
  Spec.executable 493 = true /\
  hd_error Hook.post_commit = Some (Hook.Interpreter "/bin/bash") /\
  forall mc : Hook.Machine,
    Hook.exited (Hook.run mc Hook.post_commit) = Some 0 /\
    (Hook.on_path mc "devlog" = false ->
     Hook.started (Hook.run mc Hook.post_commit) = [] /\
     Hook.printed (Hook.run mc Hook.post_commit)
     = ["devlog command not found. Please install devlog-cli first."]) /\
    (Hook.on_path mc "devlog" = true ->
     Hook.home_file mc "/.config/devlog.json" = false ->
     Hook.started (Hook.run mc Hook.post_commit) = [] /\
     Hook.printed (Hook.run mc Hook.post_commit)
     = ["devlog not configured. Run 'devlog config' first."]) /\
    (Hook.on_path mc "devlog" = true ->
     Hook.home_file mc "/.config/devlog.json" = true ->
     Hook.started (Hook.run mc Hook.post_commit) = [("devlog", [])]).
Proof.
  intros Hcmd Hhook Hgit Hdir Hacc.
  rewrite (main_install _ _ _ Hcmd).
  assert (Hrun : exists s',
             (if existsb (String.eqb "--force") args
              then DevLog.installHookForce else DevLog.installHook) e s
             = (Sys.Ret tt, s')
             /\ Sys.fs s' = <[DevLog.hookPath := Sys.File DevLog.hookContent 493]>
                              (Sys.fs s)).
  { destruct (existsb _ args).
    - rewrite (installHookForce_fresh e s out) by assumption.
      eexists. split; [reflexivity|]. by rewrite fs_emits.
    - rewrite (installHook_fresh e s out) by assumption.
      eexists. split; [reflexivity|]. by rewrite fs_emits. }
  destruct Hrun as (s' & Hrun & Hfs).
  rewrite (try_catch_ret_eq _ _ _ _ _ _ Hrun). cbn [fst snd]. rewrite Hfs.
  split; [reflexivity|]. split; [apply lookup_insert_eq|].
  split; [reflexivity|]. split; [reflexivity|].
  intros mc. rewrite post_commit_runs.
  split; [by destruct (Hook.on_path mc _), (Hook.home_file mc _)|].
  split; [by intros ->|]. split; intros -> ->; done.
Qed.

Lemma fresh_hook_artifact_witness :
  let run :=
    @DevLog.main Sample.runtime ["install"] (Sample.env Sample.created)
      (Sample.state None None []) in
  fst run = Sys.Ret tt /\
  Sys.fs (snd run) !! ".git/hooks/post-commit"
  = Some (Sys.File DevLog.hookContent 493).
Proof.
  destruct (@fresh_hook_artifact Sample.runtime ["install"]
              ("true" +:+ JsString.nl) (Sample.env Sample.created)
              (Sample.state None None []))
    as (Hret & Hfile & _).
  - reflexivity.
  - reflexivity.
  - reflexivity.
  - reflexivity.
  - apply not_elem_of_empty.
  - split; [exact Hret|exact Hfile].
Defined.

(** C3, as stated, fails: the script the installer writes is not silent
    when the tool or the configuration is missing. In each case it prints
    a line before it exits with status 0. Its text names [/bin/bash] as
    its interpreter. *)
Lemma fresh_hook_counterexample :
  let no_tool := {| Hook.on_path := fun _ => false; Hook.home_file := fun _ => true |} in
  let no_config := {| Hook.on_path := fun _ => true; Hook.home_file := fun _ => false |} in
  Hook.render Hook.post_commit = DevLog.hookContent /\
  String.prefix ("#!/bin/bash" +:+ JsString.nl) DevLog.hookContent = true /\
  Hook.run no_tool Hook.post_commit
  = {| Hook.printed := ["devlog command not found. Please install devlog-cli first."];
       Hook.started := [];
       Hook.exited := Some 0 |} /\
  Hook.run no_config Hook.post_commit
  = {| Hook.printed := ["devlog not configured. Run 'devlog config' first."];
       Hook.started := [];
       Hook.exited := Some 0 |} /\
  Hook.printed (Hook.run no_tool Hook.post_commit) <> [] /\
  Hook.printed (Hook.run no_config Hook.post_commit) <> [].
Proof. vm_compute. repeat split; discriminate. Qed.

(** ** Frames: what each command never touches *)

Section FrameRules.
Import Sys Frame.
Context {A B C : Type} (p : State -> C).

Lemma keeps_ret (a : A) : keeps p (ret a).
Proof. by intros e s. Qed.

Lemma keeps_throw msg : keeps p (@throw A msg).
Proof. by intros e s. Qed.

Lemma keeps_exit code : keeps p (@process_exit A code).
Proof. by intros e s. Qed.

Lemma keeps_bind (m : M A) (k : A -> M B) :
  keeps p m -> (forall a, keeps p (k a)) -> keeps p (bind m k).
Proof.
  intros Hm Hk e s. unfold bind. specialize (Hm e s).
  destruct (m e s) as [[a| | |] s1]; simpl in *; try done.
  by rewrite Hk.
Qed.

Lemma keeps_try_catch (m : M A) (h : string -> M A) :
  keeps p m -> (forall msg, keeps p (h msg)) -> keeps p (try_catch m h).
Proof.
  intros Hm Hh e s. unfold try_catch. specialize (Hm e s).
  destruct (m e s) as [[a|msg| |] s1]; simpl in *; try done.
  by rewrite Hh.
Qed.

End FrameRules.

(** A primitive operation: unfold it and look at every case. *)
Ltac frame_prim :=
  let e := fresh "e" in
  let s := fresh "s" in
  intros e s;
  unfold Sys.console_log, Sys.console_error, Sys.existsSync, Sys.readFileSync,
    Sys.writeFileSync, Sys.copyFileSync, Sys.chmodSync, Sys.unlinkSync;
  unfold Sys.store, Sys.mkdirSync_recursive, Sys.execSync, Sys.question,
    Sys.import_node_fetch, Sys.do_fetch, Sys.now, Sys.ret, Sys.throw,
    Sys.process_exit;
  repeat case_match; reflexivity.

(** A composed computation: follow its structure down to the primitives. *)
Ltac frame :=
  repeat first
    [ apply keeps_ret
    | apply keeps_throw
    | apply keeps_exit
    | apply keeps_bind; [|intros ?; cbn beta]
    | apply keeps_try_catch; [|intros ?; cbn beta]
    | match goal with
      | |- Frame.keeps _ (if ?b then _ else _) => destruct b
      | |- Frame.keeps _ (match ?x with _ => _ end) => destruct x
      end
    | solve [frame_prim] ].

Ltac unfold_methods :=
  unfold DevLog.installHookForce;
  unfold DevLog.log, DevLog.configure, DevLog.installHook,
    DevLog.installHookForce, DevLog.showHelp, DevLog.loadConfig,
    DevLog.saveConfig, DevLog.ensureConfigDir, DevLog.prompt,
    DevLog.apiKey_substring, DevLog.getLastCommitMessage,
    DevLog.getLastCommitHash, DevLog.getCurrentDate, DevLog.formatLogEntry,
    DevLog.postToApi, DevLog.isGitRepository, DevLog.get, DevLog.set;
  cbv zeta.

Section MethodFrames.
Import Js Sys DevLog Frame.
Context `{Runtime}.
Variable this : DevLog.

Lemma log_keeps_fs cm cd : keeps fs (log this cm cd).
Proof. unfold_methods. frame. Qed.

Lemma log_keeps_stdin cm cd : keeps stdin (log this cm cd).
Proof. unfold_methods. frame. Qed.

Lemma configure_keeps_sent : keeps sent (configure this).
Proof. unfold_methods. frame. Qed.

Lemma configure_keeps_spawned : keeps spawned (configure this).
Proof. unfold_methods. frame. Qed.

Lemma installHook_keeps_sent : keeps sent installHook.
Proof. unfold_methods. frame. Qed.

Lemma installHook_keeps_stdin : keeps stdin installHook.
Proof. unfold_methods. frame. Qed.

Lemma installHookForce_keeps_sent : keeps sent installHookForce.
Proof. unfold_methods. frame. Qed.

Lemma installHookForce_keeps_stdin : keeps stdin installHookForce.
Proof. unfold_methods. frame. Qed.

End MethodFrames.

Section SendRules.
Import Sys Frame.
Context {A B : Type}.

Lemma keeps_sends (m : M A) : keeps sent m -> sends_at_most_one m.
Proof. intros Hm e s. left. apply Hm. Qed.

Lemma sends_after_keeps (m : M A) (k : A -> M B) :
  keeps sent m -> (forall a, sends_at_most_one (k a)) ->
  sends_at_most_one (bind m k).
Proof.
  intros Hm Hk e s. unfold bind. specialize (Hm e s).
  destruct (m e s) as [[a| | |] s1]; simpl in *; try by left.
  rewrite <- Hm. apply Hk.
Qed.

Lemma keeps_after_sends (m : M A) (k : A -> M B) :
  sends_at_most_one m -> (forall a, keeps sent (k a)) ->
  sends_at_most_one (bind m k).
Proof.
  intros Hm Hk e s. unfold bind. specialize (Hm e s).
  destruct (m e s) as [[a| | |] s1]; simpl in *; try done.
  pose proof (Hk a e s1) as Hsame. by rewrite Hsame.
Qed.

Lemma sends_try_catch (m : M A) (h : string -> M A) :
  sends_at_most_one m -> (forall msg, keeps sent (h msg)) ->
  sends_at_most_one (try_catch m h).
Proof.
  intros Hm Hh e s. unfold try_catch. specialize (Hm e s).
  destruct (m e s) as [[a|msg| |] s1]; simpl in *; try done.
  pose proof (Hh msg e s1) as Hsame. by rewrite Hsame.
Qed.

End SendRules.

Section SpawnRules.
Import Sys Frame.
Context {A B : Type} (allowed : list string).

Lemma keeps_spawns (m : M A) : keeps spawned m -> spawns_within allowed m.
Proof.
  intros Hm e s. exists []. rewrite Hm, app_nil_r. split; [done|].
  intros cmd Hin. by apply elem_of_nil in Hin.
Qed.

Lemma spawns_execSync cmd : cmd ∈ allowed -> spawns_within allowed (execSync cmd).
Proof.
  intros Hcmd e s. exists [cmd]. unfold execSync.
  split; [by destruct (exec e cmd)|].
  by intros c ->%list_elem_of_singleton.
Qed.

Lemma spawns_bind (m : M A) (k : A -> M B) :
  spawns_within allowed m -> (forall a, spawns_within allowed (k a)) ->
  spawns_within allowed (bind m k).
Proof.
  intros Hm Hk e s. unfold bind. destruct (Hm e s) as (l1 & Hl1 & Hin1).
  destruct (m e s) as [[a| | |] s1]; simpl in *; eauto.
  destruct (Hk a e s1) as (l2 & Hl2 & Hin2).
  exists (l1 ++ l2)%list. rewrite Hl2, Hl1, app_assoc. split; [done|].
  intros cmd [?|?]%elem_of_app; eauto.
Qed.

Lemma spawns_try_catch (m : M A) (h : string -> M A) :
  spawns_within allowed m -> (forall msg, spawns_within allowed (h msg)) ->
  spawns_within allowed (try_catch m h).
Proof.
  intros Hm Hh e s. unfold try_catch. destruct (Hm e s) as (l1 & Hl1 & Hin1).
  destruct (m e s) as [[a|msg| |] s1]; simpl in *; eauto.
  destruct (Hh msg e s1) as (l2 & Hl2 & Hin2).
  exists (l1 ++ l2)%list. rewrite Hl2, Hl1, app_assoc. split; [done|].
  intros cmd [?|?]%elem_of_app; eauto.
Qed.

End SpawnRules.

(** Child processes: follow the structure; a step that is not [execSync]
    starts nothing. *)
Ltac spawns :=
  repeat first
    [ apply spawns_execSync; set_solver
    | apply spawns_bind; [|intros ?; cbn beta]
    | apply spawns_try_catch; [|intros ?; cbn beta]
    | match goal with
      | |- Frame.spawns_within _ (if ?b then _ else _) => destruct b
      | |- Frame.spawns_within _ (match ?x with _ => _ end) => destruct x
      end
    | solve [apply keeps_spawns; frame] ].

Section WholeRuns.
Import Js Sys DevLog Frame.
Context `{Runtime}.

Lemma postToApi_sends text date config : sends_at_most_one (postToApi text date config).
Proof.
  unfold postToApi.
  apply sends_after_keeps; [frame|intros _].
  apply sends_try_catch; [|intros msg; frame].
  apply sends_after_keeps; [unfold_methods; frame|intros base].
  apply sends_after_keeps; [unfold_methods; frame|intros key].
  apply keeps_after_sends; [|intros r; frame].
  intros e s. unfold do_fetch. right. eexists.
  split; [by destruct (fetch e _)|]. split; [reflexivity|by eexists].
Qed.

Lemma log_sends this cm cd : sends_at_most_one (log this cm cd).
Proof.
  unfold log. cbv zeta.
  do 8 (apply sends_after_keeps; [unfold_methods; frame|intros ?; cbn beta]).
  apply sends_try_catch; [|intros msg; frame].
  apply keeps_after_sends; [apply postToApi_sends|intros r].
  unfold_methods. frame.
Qed.

Lemma log_spawns this cm cd :
  spawns_within [Spec.message_command; Spec.hash_command] (log this cm cd).
Proof. unfold_methods. unfold Spec.message_command, Spec.hash_command. spawns. Qed.

Lemma installHook_spawns : spawns_within [Spec.repository_command] installHook.
Proof. unfold_methods. unfold Spec.repository_command. spawns. Qed.

Lemma installHookForce_spawns :
  spawns_within [Spec.repository_command] installHookForce.
Proof. unfold_methods. unfold Spec.repository_command. spawns. Qed.

End WholeRuns.

Section Dispatch.
Import Js Sys DevLog Frame.
Context `{Runtime}.

(** The branches of [run], one by one: a property of every branch that
    can be taken is a property of [run]. *)
Lemma run_cases (Q : M unit -> Prop) this args :
  (forall cm cd, Spec.log_args args = Some (cm, cd) -> Q (log this cm cd)) ->
  (hd_error args = Some "config" -> Q (configure this)) ->
  (hd_error args = Some "install" -> Q installHook) ->
  (hd_error args = Some "install" -> Q installHookForce) ->
  (Spec.log_args args = None ->
   hd_error args <> Some "config" -> hd_error args <> Some "install" ->
   Q showHelp /\
   (forall line, Q (console_error line ;; process_exit 1))) ->
  Q (run this args).
Proof.
  intros Hlog Hconfig Hinstall Hforce Hrest. unfold run.
  destruct args as [|c rest]; [by apply Hlog|].
  destruct (String.eqb c "config") eqn:Hc1.
  { apply String.eqb_eq in Hc1 as ->. by apply Hconfig. }
  destruct (String.eqb c "install") eqn:Hc2.
  { apply String.eqb_eq in Hc2 as ->. destruct (existsb _ _); eauto. }
  apply String.eqb_neq in Hc1, Hc2.
  assert (Hc1' : hd_error (c :: rest) <> Some "config") by (intros [=]; done).
  assert (Hc2' : hd_error (c :: rest) <> Some "install") by (intros [=]; done).
  destruct (String.eqb c "log") eqn:Hc3.
  - apply String.eqb_eq in Hc3 as ->.
    destruct rest as [|m [|d [|x rest]]]; try by apply Hlog.
    + by apply Hrest.
    + by apply Hrest.
  - assert (Hnone : Spec.log_args (c :: rest) = None).
    { unfold Spec.log_args. destruct rest as [|m [|d [|]]]; by rewrite ?Hc3. }
    destruct (Hrest Hnone Hc1' Hc2') as [Hhelp Herr].
    destruct (_ || _); [exact Hhelp|apply Herr].
Qed.

Lemma main_keeps {C} (p : State -> C) args :
  (forall msg, keeps p (console_error ("Error: " +:+ msg) ;; process_exit (A := unit) 1)) ->
  (forall this, keeps p (run this args)) -> keeps p (main args).
Proof.
  intros Hh Hrun e s. unfold main.
  by apply (keeps_try_catch p (run (new e) args)).
Qed.

End Dispatch.


(** X2. Whatever the command line, the environment and the state, the only
    child processes a run starts are fixed git commands: [install] only
    asks [git rev-parse --is-inside-work-tree], a logging command only asks
    [git log -1 --pretty=%B] and [git log -1 --pretty=%H], and every other
    command starts none. No text from the arguments, the configuration or
    the server reaches a command line. *)
Theorem only_fixed_git_commands `{Js.Runtime} (args : list string)
    (e : Sys.Env) (s : Sys.State) :
  exists started,
    Sys.spawned (snd (DevLog.main args e s)) = (Sys.spawned s ++ started)%list /\
    forall cmd,
      cmd ∈ started ->
      cmd ∈ (if bool_decide (hd_error args = Some "install")
             then ["git rev-parse --is-inside-work-tree"]
             else match Spec.log_args args with
                  | Some _ => ["git log -1 --pretty=%B"; "git log -1 --pretty=%H"]
                  | None => []
                  end).
Proof.
  assert (Hmain : Frame.spawns_within (Frame.allowed_commands args) (DevLog.main args)).
  { intros e' s'. unfold DevLog.main.
    apply (spawns_try_catch _ (DevLog.run (DevLog.new e') args));
      [|intros msg; apply keeps_spawns; frame].
    unfold Frame.allowed_commands.
    apply (run_cases (Frame.spawns_within _)).
    - intros cm cd Hlog. rewrite Hlog. case_bool_decide as Hcmd.
      + destruct args as [|c [|m [|d [|]]]]; simplify_eq/=.
        all: by rewrite String.eqb_sym in Hlog.
      + apply log_spawns.
    - intros _. apply keeps_spawns, configure_keeps_spawned.
    - intros Hcmd. rewrite bool_decide_eq_true_2 by done. apply installHook_spawns.
    - intros Hcmd. rewrite bool_decide_eq_true_2 by done.
      apply installHookForce_spawns.
    - intros _ _ _. split; [|intros line]; apply keeps_spawns;
        unfold_methods; frame. }
  apply Hmain.
Qed.

(** X3. Only [config] and [install] write to the disk: for every other
    command line (logging, help, anything unknown), in every environment
    and whatever happens on the way, the file system after the run is the
    file system before it. *)
Theorem only_config_and_install_write `{Js.Runtime} (args : list string)
    (e : Sys.Env) (s : Sys.State) :
  hd_error args <> Some "config" ->
  hd_error args <> Some "install" ->
  Sys.fs (snd (DevLog.main args e s)) = Sys.fs s.
Proof.
  intros Hconfig Hinstall. revert e s.
  apply (main_keeps Sys.fs); [intros msg; frame|intros this].
  apply (run_cases (Frame.keeps Sys.fs)); try done.
  intros cm cd _. apply log_keeps_fs.
Qed.

Lemma only_config_and_install_write_witness :
  Sys.fs (snd (@DevLog.main Sample.runtime ["log"; "Manual note"]
                 (Sample.env Sample.not_found)
                 (Sample.state (Some (Sample.text_of (Sample.config_of true true [])))
                    (Some Sample.other_hook) [])))
  = Sample.disk (Some (Sample.text_of (Sample.config_of true true [])))
      (Some Sample.other_hook).
Proof.
  apply (@only_config_and_install_write Sample.runtime ["log"; "Manual note"]);
    discriminate.
Defined.

(** X4. Only [config] reads standard input, and only a logging command
    (no arguments, [log m], [log m d]) contacts the server: every other
    command line leaves the input unread and sends nothing, in every
    environment. *)
Theorem only_config_reads_and_only_log_sends `{Js.Runtime} (args : list string)
    (e : Sys.Env) (s : Sys.State) :
  (hd_error args <> Some "config" ->
   Sys.stdin (snd (DevLog.main args e s)) = Sys.stdin s) /\
  (Spec.log_args args = None ->
   Sys.sent (snd (DevLog.main args e s)) = Sys.sent s).
Proof.
  split.
  - intros Hconfig. revert e s.
    apply (main_keeps Sys.stdin); [intros msg; frame|intros this].
    apply (run_cases (Frame.keeps Sys.stdin)).
    + intros cm cd _. apply log_keeps_stdin.
    + done.
    + intros _. apply installHook_keeps_stdin.
    + intros _. apply installHookForce_keeps_stdin.
    + intros _ _ _. split; [|intros line]; unfold_methods; frame.
  - intros Hnone. revert e s.
    apply (main_keeps Sys.sent); [intros msg; frame|intros this].
    apply (run_cases (Frame.keeps Sys.sent)).
    + intros cm cd Hlog. congruence.
    + intros _. apply configure_keeps_sent.
    + intros _. apply installHook_keeps_sent.
    + intros _. apply installHookForce_keeps_sent.
    + intros _ _ _. split; [|intros line]; unfold_methods; frame.
Qed.

Lemma only_config_reads_and_only_log_sends_witness :
  Sys.stdin (snd (@DevLog.main Sample.runtime ["install"; "--force"]
                    (Sample.env Sample.created)
                    (Sample.state None (Some Sample.other_hook) ["typed ahead"])))
  = ["typed ahead"] /\
  Sys.sent (snd (@DevLog.main Sample.runtime ["config"]
                   (Sample.env Sample.created)
                   (Sample.state None None ["k"; ""; ""; ""])))
  = [].
Proof.
  split.
  - apply (@only_config_reads_and_only_log_sends Sample.runtime
             ["install"; "--force"]). discriminate.
  - apply (@only_config_reads_and_only_log_sends Sample.runtime ["config"]).
    reflexivity.
Defined.

Section LogErrors.
Import Js Sys DevLog.
Context `{Runtime}.

Lemma log_no_key this cm cd e s config s1 :
  loadConfig this e s = (Ret config, s1) ->
  match config with
  | VObj props => truthy (lookup_prop "apiKey" props) = false
  | _ => False
  end ->
  log this cm cd e s = (Exit 1, emit (Err Extra.no_key_line) s1).
Proof.
  intros Hload Hkey. unfold log.
  step_by ltac:(exact Hload).
  destruct config as [| | | | | |props]; try done.
  step_by ltac:(reflexivity).
  rewrite Hkey. reflexivity.
Qed.

End LogErrors.

(** X5. A logging command without a usable API key stops before doing
    anything: when the configuration file is absent, or holds an object
    whose [apiKey] is missing or falsy, the run writes the one line that
    points to [devlog config] on standard error and exits with status 1;
    git is not called, nothing is sent, nothing else changes. When the
    file holds text that is not JSON the same happens after the parser's
    message. *)
Theorem log_without_key `{Js.Runtime} (args : list string)
    (cm cd : option string) (e : Sys.Env) (s : Sys.State) :
  Spec.log_args args = Some (cm, cd) ->
  (Sys.fs s !! DevLog.configPath (DevLog.new e) = None ->
   DevLog.main args e s = (Sys.Exit 1, Sys.emit (Sys.Err Extra.no_key_line) s)) /\
  (forall props,
     Spec.configured (DevLog.new e) e s props ->
     Js.truthy (Js.lookup_prop "apiKey" props) = false ->
     DevLog.main args e s = (Sys.Exit 1, Sys.emit (Sys.Err Extra.no_key_line) s)) /\
  (forall text mode msg,
     Sys.fs s !! DevLog.configPath (DevLog.new e) = Some (Sys.File text mode) ->
     DevLog.configPath (DevLog.new e) ∉ Sys.denied e ->
     Js.JSON_parse text = inl msg ->
     DevLog.main args e s
     = (Sys.Exit 1,
        Sys.emit (Sys.Err Extra.no_key_line)
          (Sys.emit (Sys.Err ("Error reading config: " +:+ msg)) s))).
Proof.
  intros Hargs. rewrite (main_log _ _ _ _ _ Hargs). split; [|split].
  - intros Hnone. erewrite try_catch_exit_eq; [reflexivity|].
    eapply log_no_key; [by apply loadConfig_absent|done].
  - intros props (text & mode & Hfile & Hacc & Hparse) Hkey.
    erewrite try_catch_exit_eq; [reflexivity|].
    eapply log_no_key; [by eapply loadConfig_parsed|done].
  - intros text mode msg Hfile Hacc Hparse.
    erewrite try_catch_exit_eq; [reflexivity|].
    eapply log_no_key; [by eapply loadConfig_corrupt|done].
Qed.

Lemma log_without_key_witness :
  @DevLog.main Sample.runtime [] (Sample.env Sample.created)
    (Sample.state None None [])
  = (Sys.Exit 1,
     Sys.emit (Sys.Err Extra.no_key_line) (Sample.state None None [])).
Proof.
  destruct (@log_without_key Sample.runtime [] None None
              (Sample.env Sample.created) (Sample.state None None []) eq_refl)
    as [Habsent _].
  apply Habsent. reflexivity.
Defined.

(** X6. When a logging command has to take its message from git (no
    message argument, or an empty one) and [git log -1 --pretty=%B] fails,
    the run writes git's error and a hint on standard error and exits
    with status 1: the hash is never asked for and nothing is sent. *)
Theorem log_without_commit `{Js.Runtime} (args : list string)
    (cm cd : option string) (props : list (string * Js.value)) (msg : string)
    (e : Sys.Env) (s : Sys.State) :
  Spec.log_args args = Some (cm, cd) ->
  Spec.configured (DevLog.new e) e s props ->
  Js.truthy (Js.lookup_prop "apiKey" props) = true ->
  Spec.asks_git cm = true ->
  Sys.exec e Spec.message_command = inr msg ->
  DevLog.main args e s
  = (Sys.Exit 1,
     Sys.emit (Sys.Err Extra.no_commit_line)
       (Sys.emit (Sys.Err ("Error getting last commit message: " +:+ msg))
          (Sys.spawn Spec.message_command s))).
Proof.
  intros Hargs (text & mode & Hfile & Hacc & Hparse) Hkey Hasks Hgit.
  rewrite (main_log _ _ _ _ _ Hargs).
  erewrite try_catch_exit_eq; [reflexivity|]. unfold DevLog.log.
  step_by ltac:(eapply loadConfig_parsed; eauto).
  step_by ltac:(reflexivity).
  rewrite Hkey. cbn [negb].
  step_by ltac:(reflexivity).
  apply bind_exit_eq.
  assert (Hm : match cm with
               | Some m =>
                   if DevLog.nonempty m then Sys.ret m
                   else DevLog.getLastCommitMessage
               | None => DevLog.getLastCommitMessage
               end = DevLog.getLastCommitMessage).
  { unfold Spec.asks_git in Hasks. destruct cm as [m|]; [|done].
    by destruct (DevLog.nonempty m). }
  rewrite Hm, getLastCommitMessage_spec, Hgit. reflexivity.
Qed.

Lemma log_without_commit_witness :
  fst (@DevLog.main Sample.runtime []
         {| Sys.homedir := "/home/dev"; Sys.umask := 18; Sys.denied := ∅;
            Sys.exec := fun cmd => inr ("Command failed: " +:+ cmd);
            Sys.clock := 0; Sys.zone := 0; Sys.import_error := None;
            Sys.fetch := fun _ => Sys.Answer Sample.created |}
         (Sample.state (Some (Sample.text_of (Sample.config_of true true [])))
            None []))
  = Sys.Exit 1.
Proof.
  erewrite (@log_without_commit Sample.runtime [] None None
              [("apiKey", Js.VStr "k"); ("apiBaseUrl", Js.VStr "http://x");
               ("includeCommitHash", Js.VBool true);
               ("includeDate", Js.VBool true)]).
  - reflexivity.
  - reflexivity.
  - exists (Sample.text_of (Sample.config_of true true [])), 420.
    split; [reflexivity|]. split; [apply not_elem_of_empty|reflexivity].
  - reflexivity.
  - reflexivity.
  - reflexivity.
Defined.

Section LogOutcomes.
Import Js Sys DevLog.
Context `{Runtime}.

Lemma log_import_failure this cm cd props message msg e s :
  Spec.configured this e s props ->
  truthy (lookup_prop "apiKey" props) = true ->
  Spec.message_for e cm = Some message ->
  import_error e = Some msg ->
  log this cm cd e s
  = (Throw msg,
     emit (Err "❌ Failed to log to devlog")
       (Spec.announced e props cm (Spec.entry_text e props message)
          (Spec.date_for e props cd) s)).
Proof.
  intros (c & m & Hfile & Hacc & Hparse) Hkey Hmsg Himport.
  unfold log.
  step_by ltac:(eapply loadConfig_parsed; eauto).
  step_by ltac:(reflexivity).
  rewrite Hkey. cbn [negb].
  step_by ltac:(reflexivity).
  step_by ltac:(apply message_step; eassumption).
  step_by ltac:(apply formatLogEntry_spec).
  step_by ltac:(apply date_step).
  step_by ltac:(reflexivity).
  step_by ltac:(apply date_line_step).
  unfold postToApi. exec_with Himport. reflexivity.
Qed.

(** When the parsed answer is falsy it is not an object, so nothing is
    offered for display either way. *)
Lemma echoed_truthy data :
  truthy (if truthy data
          then match data with
               | VObj fields => lookup_prop "message" fields
               | _ => VUndef
               end
          else data)
  = truthy (Extra.echoed data).
Proof.
  destruct (truthy data) eqn:Hdata; [reflexivity|].
  rewrite Hdata. by destruct data.
Qed.

End LogOutcomes.

(** X7. When the HTTP client module cannot be loaded, a logging command
    that got as far as announcing its entry writes the failure line and
    the error on standard error and exits with status 1, and no request
    is sent. *)
Theorem log_without_http_client `{Js.Runtime} (args : list string)
    (cm cd : option string) (props : list (string * Js.value))
    (message msg : string) (e : Sys.Env) (s : Sys.State) :
  Spec.log_args args = Some (cm, cd) ->
  Spec.configured (DevLog.new e) e s props ->
  Js.truthy (Js.lookup_prop "apiKey" props) = true ->
  Spec.message_for e cm = Some message ->
  Sys.import_error e = Some msg ->
  let text := Spec.entry_text e props message in
  let date := Spec.date_for e props cd in
  DevLog.main args e s
  = (Sys.Exit 1,
     Sys.emit (Sys.Err ("Error: " +:+ msg))
       (Sys.emit (Sys.Err "❌ Failed to log to devlog")
          (Spec.announced e props cm text date s))) /\
  Sys.sent (snd (DevLog.main args e s)) = Sys.sent s.
Proof.
  intros Hargs Hconf Hkey Hmsg Himport. cbn zeta.
  rewrite (main_log _ _ _ _ _ Hargs).
  erewrite try_catch_throw_eq; [|by eapply log_import_failure].
  split; [reflexivity|].
  exact (proj1 (proj2 (announced_frame e props cm
                         (Spec.entry_text e props message)
                         (Spec.date_for e props cd) s))).
Qed.

Lemma log_without_http_client_witness :
  @DevLog.main Sample.runtime ["log"; "Manual note"]
    {| Sys.homedir := "/home/dev"; Sys.umask := 18; Sys.denied := ∅;
       Sys.exec := Sample.git; Sys.clock := 0; Sys.zone := 0;
       Sys.import_error := Some "Cannot find package 'node-fetch'";
       Sys.fetch := fun _ => Sys.Answer Sample.created |}
    (Sample.state (Some (Sample.text_of (Sample.config_of false false [])))
       None [])
  = (Sys.Exit 1,
     Sys.emits [Sys.Out "Logging: Manual note";
                Sys.Err "❌ Failed to log to devlog";
                Sys.Err "Error: Cannot find package 'node-fetch'"]
       (Sample.state (Some (Sample.text_of (Sample.config_of false false [])))
          None [])).
Proof.
  edestruct (@log_without_http_client Sample.runtime ["log"; "Manual note"]
               (Some "Manual note") None
               [("apiKey", Js.VStr "k"); ("apiBaseUrl", Js.VStr "http://x");
                ("includeCommitHash", Js.VBool false);
                ("includeDate", Js.VBool false)]
               "Manual note") as [Hrun _]; [..|rewrite Hrun; reflexivity].
  - reflexivity.
  - exists (Sample.text_of (Sample.config_of false false [])), 420.
    split; [reflexivity|]. split; [apply not_elem_of_empty|reflexivity].
  - reflexivity.
  - reflexivity.
  - reflexivity.
Defined.





(** X10. A command line the dispatcher cannot use ends at once: a first
    word other than [config], [install], [log], [help], [--help] and [-h]
    gives the unknown-command line on standard error and exit status 1;
    [log] with no message or with more than a message and a date gives the
    usage line and exit status 1. In both cases nothing is read, started,
    sent or written: the configuration is not even loaded. *)
Theorem unusable_command_line `{Js.Runtime} (command : string)
    (rest : list string) (e : Sys.Env) (s : Sys.State) :
  (Cli.known command = false ->
   DevLog.main (command :: rest) e s
   = (Sys.Exit 1, Sys.emit (Sys.Err Cli.unknown_line) s)) /\
  (command = "log" -> length rest <> 1%nat -> length rest <> 2%nat ->
   DevLog.main (command :: rest) e s
   = (Sys.Exit 1, Sys.emit (Sys.Err Cli.usage_line) s)).
Proof.
  split.
  - unfold Cli.known. cbn [existsb]. rewrite !orb_false_iff.
    intros (H1 & H2 & H3 & H4 & H5 & H6 & _).
    unfold DevLog.main, DevLog.run, Sys.try_catch.
    by rewrite H1, H2, H3, H4, H5, H6.
  - intros -> Hone Htwo.
    destruct rest as [|m [|d [|x rest]]]; simpl in *; done.
Qed.

Lemma unusable_command_line_witness :
  @DevLog.main Sample.runtime ["--force"; "install"] (Sample.env Sample.created)
    (Sample.state None None [])
  = (Sys.Exit 1, Sys.emit (Sys.Err Cli.unknown_line) (Sample.state None None []))
  /\
  @DevLog.main Sample.runtime ["log"] (Sample.env Sample.created)
    (Sample.state None None [])
  = (Sys.Exit 1, Sys.emit (Sys.Err Cli.usage_line) (Sample.state None None [])).
Proof.
  split.
  - apply (@unusable_command_line Sample.runtime "--force" ["install"]).
    reflexivity.
  - apply (@unusable_command_line Sample.runtime "log" []);
      [reflexivity|discriminate|discriminate].
Defined.

(** X11. Words after the command are ignored by [help], [config] and
    [install], except that [install] looks for [--force] anywhere among
    them: [help], [--help] and [-h] print the usage text and return
    whatever follows; [config x ...] runs as [config]; [install ...] runs
    as [install --force] when [--force] occurs and as [install] when it
    does not. *)
Theorem trailing_words_ignored `{Js.Runtime} (command : string)
    (rest : list string) (e : Sys.Env) (s : Sys.State) :
  (Cli.asks_help command = true ->
   DevLog.main (command :: rest) e s
   = (Sys.Ret tt, Sys.emit (Sys.Out DevLog.helpText) s)) /\
  (command = "config" ->
   DevLog.main (command :: rest) e s = DevLog.main ["config"] e s) /\
  (command = "install" ->
   DevLog.main (command :: rest) e s
   = DevLog.main (if existsb (String.eqb "--force") rest
                  then ["install"; "--force"] else ["install"]) e s).
Proof.
  split; [|split].
  - unfold Cli.asks_help. cbn [existsb]. rewrite orb_false_r, orb_assoc.
    intros Hhelp. unfold DevLog.main, DevLog.run, Sys.try_catch.
    assert (Hk : String.eqb command "config" = false
                 /\ String.eqb command "install" = false
                 /\ String.eqb command "log" = false).
    { repeat split; apply String.eqb_neq; intros ->; by vm_compute in Hhelp. }
    destruct Hk as (-> & -> & ->). by rewrite Hhelp.
  - by intros ->.
  - intros ->. destruct (existsb (String.eqb "--force") rest) eqn:Hforce;
      unfold DevLog.main, DevLog.run; cbn [existsb];
      change (String.eqb "--force" "install") with false;
      change (String.eqb "install" "config") with false;
      change (String.eqb "install" "install") with true;
      cbn [orb]; rewrite Hforce; reflexivity.
Qed.

Lemma trailing_words_ignored_witness :
  @DevLog.main Sample.runtime ["-h"; "install"; "--force"]
    (Sample.env Sample.created) (Sample.state None None [])
  = (Sys.Ret tt, Sys.emit (Sys.Out DevLog.helpText) (Sample.state None None []))
  /\
  @DevLog.main Sample.runtime ["install"; "now"; "--force"]
    (Sample.env Sample.created) (Sample.state None (Some Sample.other_hook) [])
  = @DevLog.main Sample.runtime ["install"; "--force"]
      (Sample.env Sample.created) (Sample.state None (Some Sample.other_hook) []).
Proof.
  split.
  - apply (@trailing_words_ignored Sample.runtime "-h" ["install"; "--force"]).
    reflexivity.
  - apply (@trailing_words_ignored Sample.runtime "install" ["now"; "--force"]).
    reflexivity.
Defined.

(** X12. An empty message argument counts as no message, and an empty date
    argument as no date: [log ""] runs exactly as the command without
    arguments (the last commit message is logged, and a repository without
    commits is fatal), and [log m ""] runs exactly as [log m]. *)
Theorem empty_arguments_are_absent `{Js.Runtime} (message : string)
    (e : Sys.Env) (s : Sys.State) :
  DevLog.main ["log"; ""] e s = DevLog.main [] e s /\
  DevLog.main ["log"; message; ""] e s = DevLog.main ["log"; message] e s /\
  DevLog.main ["log"; ""; ""] e s = DevLog.main [] e s.
Proof. repeat split. Qed.

Section InstallEdges.
Import Js Sys DevLog.
Context `{Runtime}.

Lemma template_has_marker : JsString.includes "devlog" hookContent = true.
Proof. vm_compute. reflexivity. Qed.

Lemma main_install_plain e s o s' :
  installHook e s = (o, s') -> (forall msg, o <> Throw msg) ->
  main ["install"] e s = (o, s').
Proof.
  intros Hrun Hno. rewrite (main_install ["install"] e s eq_refl).
  cbn [existsb]. change (String.eqb "--force" "install") with false.
  cbn [orb]. unfold try_catch. rewrite Hrun.
  destruct o as [[]|msg| |]; try reflexivity. by destruct (Hno msg).
Qed.

Lemma main_install_force e s o s' :
  installHookForce e s = (o, s') -> (forall msg, o <> Throw msg) ->
  main ["install"; "--force"] e s = (o, s').
Proof.
  intros Hrun Hno. rewrite (main_install ["install"; "--force"] e s eq_refl).
  cbn [existsb]. change (String.eqb "--force" "--force") with true.
  rewrite orb_true_r. unfold try_catch. rewrite Hrun.
  destruct o as [[]|msg| |]; try reflexivity. by destruct (Hno msg).
Qed.

Lemma installHook_not_repository e s msg :
  exec e Spec.repository_command = inr msg ->
  installHook e s
  = (Exit 1,
     emits [Err "❌ Current directory is not a git repository.";
            Err "Please run this command from within a git repository."]
       (spawn Spec.repository_command s)).
Proof.
  intros Hgit. unfold installHook.
  unfold bind at 1. by rewrite isGitRepository_spec, Hgit.
Qed.

Lemma installHookForce_not_repository e s msg :
  exec e Spec.repository_command = inr msg ->
  installHookForce e s
  = (Exit 1,
     emit (Err "❌ Current directory is not a git repository.")
       (spawn Spec.repository_command s)).
Proof.
  intros Hgit. unfold installHookForce.
  unfold bind at 1. by rewrite isGitRepository_spec, Hgit.
Qed.

Lemma installHook_no_hooks_dir e s out :
  exec e Spec.repository_command = inl out ->
  fs s !! hooksDir = None ->
  installHook e s
  = (Exit 1,
     emits [Err "❌ .git/hooks directory not found.";
            Err "This might not be a valid git repository."]
       (spawn Spec.repository_command s)).
Proof.
  intros Hgit Hdir. unfold installHook.
  unfold bind at 1. rewrite isGitRepository_spec, Hgit. cbn [negb].
  exec_with Hdir. reflexivity.
Qed.

Lemma installHookForce_backup_fails e s out content mode :
  exec e Spec.repository_command = inl out ->
  fs s !! hookPath = Some (File content mode) ->
  hookPath ∈ denied e \/ backupPath ∈ denied e \/ fs s !! backupPath = Some Dir ->
  exists msg,
    installHookForce e s
    = (Exit 1,
       emit (Err ("Error backing up existing hook: " +:+ msg))
         (spawn Spec.repository_command s)).
Proof.
  intros Hgit Hhook Hbad. unfold installHookForce.
  unfold bind at 1. rewrite isGitRepository_spec, Hgit. cbn [negb].
  exec_with Hhook. unfold copyFileSync, store. exec_with Hhook.
  destruct (decide (hookPath ∈ denied e)); exec; [by eexists|].
  destruct (decide (backupPath ∈ denied e)); exec; [by eexists|].
  destruct Hbad as [?|[?|Hdir]]; try done.
  rewrite Hdir. exec. by eexists.
Qed.

End InstallEdges.

(** X13. Installing twice is installing once: after a first installation
    into a repository without a hook, a second [install] returns normally,
    says that devlog is already integrated, and leaves the file system as
    the first one left it. *)
Theorem install_twice `{Js.Runtime} (out : string) (e : Sys.Env) (s : Sys.State) :
  Sys.fs s !! DevLog.hookPath = None ->
  Sys.exec e Spec.repository_command = inl out ->
  Sys.fs s !! DevLog.hooksDir = Some Sys.Dir ->
  DevLog.hookPath ∉ Sys.denied e ->
  let once := snd (DevLog.main ["install"] e s) in
  let twice := DevLog.main ["install"] e once in
  fst twice = Sys.Ret tt /\
  Sys.fs (snd twice) = Sys.fs once /\
  Sys.console (snd twice)
  = (Sys.console once
     ++ [Sys.Out "⚠️  post-commit hook already exists.";
         Sys.Out "✅ devlog is already integrated in the existing hook."])%list.
Proof.
  intros Hhook Hgit Hdir Hacc.
  rewrite (main_install_plain _ _ _ _ (installHook_fresh e s out Hgit Hdir Hhook Hacc))
    by done.
  cbn [snd]. cbn zeta.
  erewrite main_install_plain;
    [|eapply (installHook_existing _ _ out Sys.Dir DevLog.hookContent 493);
      autorewrite with world; rewrite ?fs_emits; autorewrite with world;
      [done| |apply lookup_insert_eq|done]|done].
  - cbn [fst snd].
    repeat (progress (rewrite ?fs_emits, ?console_emits; autorewrite with world)).
    unfold Spec.already_there. rewrite template_has_marker.
    split; [reflexivity|]. split; reflexivity.
  - by rewrite lookup_insert_ne by apply hookPath_neq_hooksDir.
Qed.

Lemma install_twice_witness :
  let once :=
    snd (@DevLog.main Sample.runtime ["install"] (Sample.env Sample.created)
           (Sample.state None None [])) in
  Sys.fs (snd (@DevLog.main Sample.runtime ["install"] (Sample.env Sample.created) once))
  = Sys.fs once.
Proof.
  apply (@install_twice Sample.runtime ("true" +:+ JsString.nl)).
  - reflexivity.
  - reflexivity.
  - reflexivity.
  - apply not_elem_of_empty.
Defined.

(** X14. A second [install --force] overwrites the backup: after two
    forced installations over an existing hook, the backup file holds the
    devlog template written by the first one, not the original hook. *)
Theorem install_force_twice `{Js.Runtime} (content out : string) (mode : Z)
    (e : Sys.Env) (s : Sys.State) :
  Sys.fs s !! DevLog.hookPath = Some (Sys.File content mode) ->
  Sys.exec e Spec.repository_command = inl out ->
  Sys.fs s !! DevLog.hooksDir = Some Sys.Dir ->
  DevLog.hookPath ∉ Sys.denied e ->
  DevLog.backupPath ∉ Sys.denied e ->
  Sys.fs s !! DevLog.backupPath <> Some Sys.Dir ->
  let once := snd (DevLog.main ["install"; "--force"] e s) in
  let twice := DevLog.main ["install"; "--force"] e once in
  Sys.fs once !! DevLog.backupPath = Some (Sys.File content mode) /\
  fst twice = Sys.Ret tt /\
  Sys.fs (snd twice) !! DevLog.backupPath = Some (Sys.File DevLog.hookContent 493) /\
  Sys.fs (snd twice) !! DevLog.hookPath = Some (Sys.File DevLog.hookContent 493).
Proof.
  intros Hhook Hgit Hdir Hacc Hacc' Hbak.
  destruct (installHookForce_existing e s out content mode
              Hgit Hhook Hdir Hacc Hacc' Hbak) as (s1 & Hrun1 & Hfs1 & _).
  rewrite (main_install_force _ _ _ _ Hrun1) by done. cbn [snd]. cbn zeta.
  assert (Hhook1 : Sys.fs s1 !! DevLog.hookPath
                   = Some (Sys.File DevLog.hookContent 493))
    by (rewrite Hfs1; apply lookup_insert_eq).
  assert (Hbak1 : Sys.fs s1 !! DevLog.backupPath = Some (Sys.File content mode)).
  { rewrite Hfs1, lookup_insert_ne by (by apply not_eq_sym, backupPath_neq_hookPath).
    apply lookup_insert_eq. }
  assert (Hdir1 : Sys.fs s1 !! DevLog.hooksDir = Some Sys.Dir).
  { rewrite Hfs1, lookup_insert_ne by apply hookPath_neq_hooksDir.
    by rewrite lookup_insert_ne by apply backupPath_neq_hooksDir. }
  destruct (installHookForce_existing e s1 out DevLog.hookContent 493
              Hgit Hhook1 Hdir1 Hacc Hacc') as (s2 & Hrun2 & Hfs2 & _).
  { by rewrite Hbak1. }
  rewrite (main_install_force _ _ _ _ Hrun2) by done. cbn [fst snd].
  split; [exact Hbak1|]. split; [reflexivity|]. rewrite Hfs2. split.
  - rewrite lookup_insert_ne by (by apply not_eq_sym, backupPath_neq_hookPath).
    apply lookup_insert_eq.
  - apply lookup_insert_eq.
Qed.

Lemma install_force_twice_witness :
  let once :=
    snd (@DevLog.main Sample.runtime ["install"; "--force"]
           (Sample.env Sample.created)
           (Sample.state None (Some Sample.other_hook) [])) in
  Sys.fs (snd (@DevLog.main Sample.runtime ["install"; "--force"]
                 (Sample.env Sample.created) once))
  !! DevLog.backupPath
  = Some (Sys.File DevLog.hookContent 493).
Proof.
  apply (@install_force_twice Sample.runtime Sample.other_hook
           ("true" +:+ JsString.nl) 493).
  - reflexivity.
  - reflexivity.
  - reflexivity.
  - apply not_elem_of_empty.
  - apply not_elem_of_empty.
  - discriminate.
Defined.

(** X15. [install --force] with no hook to replace makes no backup: it
    returns normally, writes the template at the hook path with mode 0755
    and changes no other path, the backup path included; what it says is
    what a plain installation says. *)
Theorem install_force_nothing_to_back_up `{Js.Runtime} (out : string)
    (e : Sys.Env) (s : Sys.State) :
  Sys.fs s !! DevLog.hookPath = None ->
  Sys.exec e Spec.repository_command = inl out ->
  Sys.fs s !! DevLog.hooksDir = Some Sys.Dir ->
  DevLog.hookPath ∉ Sys.denied e ->
  let run := DevLog.main ["install"; "--force"] e s in
  fst run = Sys.Ret tt /\
  Sys.fs (snd run) = <[DevLog.hookPath := Sys.File DevLog.hookContent 493]> (Sys.fs s) /\
  Sys.fs (snd run) !! DevLog.backupPath = Sys.fs s !! DevLog.backupPath /\
  Sys.console (snd run) = (Sys.console s ++ Spec.installed)%list.
Proof.
  intros Hhook Hgit Hdir Hacc.
  rewrite (main_install_force _ _ _ _
             (installHookForce_fresh e s out Hgit Hdir Hhook Hacc)) by done.
  cbn [fst snd]. cbn zeta. rewrite fs_emits, console_emits.
  autorewrite with world.
  split; [reflexivity|]. split; [reflexivity|]. split; [|reflexivity].
  by rewrite lookup_insert_ne by (by apply not_eq_sym, backupPath_neq_hookPath).
Qed.

Lemma install_force_nothing_to_back_up_witness :
  Sys.fs (snd (@DevLog.main Sample.runtime ["install"; "--force"]
                 (Sample.env Sample.created) (Sample.state None None [])))
  !! DevLog.backupPath
  = None.
Proof.
  edestruct (@install_force_nothing_to_back_up Sample.runtime
               ("true" +:+ JsString.nl) (Sample.env Sample.created)
               (Sample.state None None [])) as (_ & _ & Hbackup & _);
    [..|rewrite Hbackup; reflexivity].
  - reflexivity.
  - reflexivity.
  - reflexivity.
  - apply not_elem_of_empty.
Defined.

(** X16. [install --force] removes the existing hook only after it has
    been copied: when the copy fails (the hook cannot be read, the backup
    path cannot be written or is a directory) the run writes the error on
    standard error, exits with status 1 and leaves the file system, the
    original hook included, as it was. *)
Theorem install_force_keeps_hook_without_backup `{Js.Runtime}
    (content out : string) (mode : Z) (e : Sys.Env) (s : Sys.State) :
  Sys.fs s !! DevLog.hookPath = Some (Sys.File content mode) ->
  Sys.exec e Spec.repository_command = inl out ->
  DevLog.hookPath ∈ Sys.denied e \/ DevLog.backupPath ∈ Sys.denied e
  \/ Sys.fs s !! DevLog.backupPath = Some Sys.Dir ->
  let run := DevLog.main ["install"; "--force"] e s in
  fst run = Sys.Exit 1 /\
  Sys.fs (snd run) = Sys.fs s /\
  exists msg,
    Sys.console (snd run)
    = (Sys.console s ++ [Sys.Err ("Error backing up existing hook: " +:+ msg)])%list.
Proof.
  intros Hhook Hgit Hbad.
  destruct (installHookForce_backup_fails e s out content mode Hgit Hhook Hbad)
    as [msg Hrun].
  rewrite (main_install_force _ _ _ _ Hrun) by done. cbn [fst snd]. cbn zeta.
  split; [reflexivity|]. split; [reflexivity|]. by exists msg.
Qed.

Lemma install_force_keeps_hook_without_backup_witness :
  Sys.fs (snd (@DevLog.main Sample.runtime ["install"; "--force"]
                 {| Sys.homedir := "/home/dev"; Sys.umask := 18;
                    Sys.denied := {[ ".git/hooks/post-commit.backup" ]};
                    Sys.exec := Sample.git; Sys.clock := 0; Sys.zone := 0;
                    Sys.import_error := None;
                    Sys.fetch := fun _ => Sys.Answer Sample.created |}
                 (Sample.state None (Some Sample.other_hook) [])))
  = Sample.disk None (Some Sample.other_hook).
Proof.
  apply (@install_force_keeps_hook_without_backup Sample.runtime
           Sample.other_hook ("true" +:+ JsString.nl) 493).
  - reflexivity.
  - reflexivity.
  - right. left. cbn [Sys.denied]. apply elem_of_singleton. reflexivity.
Defined.

(** X17. Outside a git repository nothing is installed: when
    [git rev-parse --is-inside-work-tree] fails, [install] and
    [install --force] say so on standard error and exit with status 1
    without looking at the hooks directory; and inside a repository whose
    hooks directory is missing, [install] exits with status 1 as well. The
    file system is left as it was. *)
Theorem install_needs_repository `{Js.Runtime} (e : Sys.Env) (s : Sys.State) :
  (forall msg,
     Sys.exec e Spec.repository_command = inr msg ->
     DevLog.main ["install"] e s
     = (Sys.Exit 1,
        Sys.emits [Sys.Err "❌ Current directory is not a git repository.";
                   Sys.Err "Please run this command from within a git repository."]
          (Sys.spawn Spec.repository_command s))
     /\
     DevLog.main ["install"; "--force"] e s
     = (Sys.Exit 1,
        Sys.emit (Sys.Err "❌ Current directory is not a git repository.")
          (Sys.spawn Spec.repository_command s))) /\
  (forall out,
     Sys.exec e Spec.repository_command = inl out ->
     Sys.fs s !! DevLog.hooksDir = None ->
     DevLog.main ["install"] e s
     = (Sys.Exit 1,
        Sys.emits [Sys.Err "❌ .git/hooks directory not found.";
                   Sys.Err "This might not be a valid git repository."]
          (Sys.spawn Spec.repository_command s))).
Proof.
  split.
  - intros msg Hgit. split.
    + by apply main_install_plain; [eapply installHook_not_repository|].
    + by apply main_install_force; [eapply installHookForce_not_repository|].
  - intros out Hgit Hdir.
    by apply main_install_plain; [eapply installHook_no_hooks_dir|].
Qed.

Lemma install_needs_repository_witness :
  fst (@DevLog.main Sample.runtime ["install"]
         {| Sys.homedir := "/home/dev"; Sys.umask := 18; Sys.denied := ∅;
            Sys.exec := fun cmd => inr ("Command failed: " +:+ cmd);
            Sys.clock := 0; Sys.zone := 0; Sys.import_error := None;
            Sys.fetch := fun _ => Sys.Answer Sample.created |}
         (Sample.state None None []))
  = Sys.Exit 1.
Proof.
  edestruct (@install_needs_repository Sample.runtime) as [Hnot _].
  edestruct Hnot as [Hplain _]; [|rewrite Hplain; reflexivity].
  reflexivity.
Defined.

Section ConfigureEdges.
Import Js Sys DevLog.
Context `{Runtime}.

Lemma main_config e s :
  main ["config"] e s
  = try_catch (configure (new e))
      (fun msg => console_error ("Error: " +:+ msg) ;; process_exit 1) e s.
Proof. reflexivity. Qed.

Lemma saveConfig_new this config e s :
  fs s !! configPath this = None ->
  configPath this ∉ denied e ->
  fs s !! Path.dirname (configPath this) = Some Dir ->
  saveConfig this config e s
  = (Ret tt,
     emit (Out "Configuration saved successfully.")
       (set_fs (<[configPath this :=
                    File (JSON_stringify_2 config) (creation_mode e)]> (fs s)) s)).
Proof.
  intros Hfile Hacc Hdir. unfold saveConfig, ensureConfigDir.
  exec_with Hdir. unfold store. rewrite decide_False by assumption.
  exec_with Hfile. unfold is_dir. rewrite Hdir. reflexivity.
Qed.

Lemma store_returned p content e s o s' :
  store p content None e s = (o, s') ->
  match o with
  | Ret _ =>
      (p ∉ denied e) /\
      exists mode, fs s' !! p = Some (File content mode)
  | _ => s' = s
  end.
Proof.
  unfold store. destruct (decide _) as [|Hacc]; [by intros [= <- <-]|].
  destruct (fs s !! p) as [[old mode|]|].
  - intros [= <- <-]. split; [done|]. eexists. apply lookup_insert_eq.
  - by intros [= <- <-].
  - destruct (is_dir _ _); [|by intros [= <- <-]].
    intros [= <- <-]. split; [done|]. eexists. apply lookup_insert_eq.
Qed.

(** What a successful [saveConfig] has done. *)
Lemma saveConfig_returned this config e s s' :
  saveConfig this config e s = (Ret tt, s') ->
  (configPath this ∉ denied e) /\
  exists mode,
    fs s' !! configPath this = Some (File (JSON_stringify_2 config) mode).
Proof.
  unfold saveConfig, ensureConfigDir.
  destruct (fs s !! Path.dirname (configPath this)) as [d|] eqn:Hdir;
    exec_with Hdir.
  - destruct (store _ _ None e s) as [[[]|msg|code|] s2] eqn:Hstore; exec;
      try discriminate.
    apply store_returned in Hstore. intros [= <-]. by autorewrite with world.
  - destruct (mkdirSync_recursive _ e s) as [[[]|msg|code|] s1]; exec;
      try discriminate.
    destruct (store _ _ None e s1) as [[[]|msg|code|] s2] eqn:Hstore; exec;
      try discriminate.
    apply store_returned in Hstore. intros [= <-]. by autorewrite with world.
Qed.

Lemma saveConfig_refused this config e s d :
  fs s !! Path.dirname (configPath this) = Some d ->
  configPath this ∈ denied e \/ fs s !! configPath this = Some Dir ->
  exists msg,
    saveConfig this config e s
    = (Exit 1, emit (Err ("Error saving config: " +:+ msg)) s).
Proof.
  intros Hdir Hbad. unfold saveConfig, ensureConfigDir.
  exec_with Hdir. unfold store.
  destruct (decide _) as [|Hacc]; exec; [by eexists|].
  destruct Hbad as [?|Hfile]; [done|]. exec_with Hfile. by eexists.
Qed.

Lemma configure_first_run this a1 a2 a3 a4 rest e s :
  fs s !! configPath this = None ->
  stdin s = a1 :: a2 :: a3 :: a4 :: rest ->
  JsString.trim a1 <> "" ->
  apiBaseUrl this = "http://localhost:3001" ->
  configPath this ∉ denied e ->
  fs s !! Path.dirname (configPath this) = Some Dir ->
  exists s',
    configure this e s = (Ret tt, s') /\
    fs s' = <[configPath this :=
                File (JSON_stringify_2 (FirstRun.first_config this a1 a2 a3 a4))
                  (creation_mode e)]> (fs s) /\
    stdin s' = rest /\
    console s'
    = (console s
       ++ Out ("Configuring devlog..." +:+ JsString.nl)
          :: FirstRun.questions "Enter your API key : "
       ++ [Out "Configuration saved successfully."])%list.
Proof.
  intros Hfile Hin Hkey Hbase Hacc Hdir.
  assert (Havail : Spec.key_available [] a1) by done.
  unfold configure.
  step_by ltac:(reflexivity).
  step_by ltac:(by apply loadConfig_absent).
  step_by ltac:(reflexivity).
  step_by ltac:(reflexivity).
  step_by ltac:(apply prompt_spec; exact Hin).
  step_by ltac:(apply new_key_step; exact Havail).
  step_by ltac:(reflexivity).
  step_by ltac:(apply prompt_spec; reflexivity).
  step_by ltac:(reflexivity).
  step_by ltac:(apply prompt_spec; reflexivity).
  step_by ltac:(reflexivity).
  step_by ltac:(apply prompt_spec; reflexivity).
  step_by ltac:(reflexivity).
  erewrite saveConfig_new; [|by autorewrite with world..].
  eexists. split; [reflexivity|]. autorewrite with world.
  unfold FirstRun.first_config, FirstRun.questions, nonempty.
  apply String.eqb_neq in Hkey. rewrite Hkey, Hbase.
  generalize (JsString.trim a1) (JsString.trim a2) (JsString.trim a3)
    (JsString.trim a4). intros t1 t2 t3 t4.
  split; [|split; [reflexivity|]].
  - do 3 f_equal. simpl. unfold or_else. simpl.
    by destruct (String.eqb t2 "").
  - simpl. unfold or_else. simpl. by rewrite <- !app_assoc.
Qed.

Lemma configure_no_key this a1 rest e s config :
  loadConfig this e (emit (Out ("Configuring devlog..." +:+ JsString.nl)) s)
  = (Ret config, emit (Out ("Configuring devlog..." +:+ JsString.nl)) s) ->
  match config with
  | VObj props => truthy (lookup_prop "apiKey" props) = false
  | VArr _ | VBool _ | VNum _ | VStr _ => True
  | _ => False
  end ->
  stdin s = a1 :: rest ->
  JsString.trim a1 = "" ->
  configure this e s
  = (Exit 1,
     emit (Err "API key is required.")
       (set_stdin rest
          (emit (Ask "Enter your API key : ")
             (emit (Out ("Configuring devlog..." +:+ JsString.nl)) s)))).
Proof.
  intros Hload Hkey Hin Hempty.
  unfold configure.
  step_by ltac:(reflexivity).
  step_by ltac:(exact Hload).
  assert (Hget : exists k, get config "apiKey" = ret k /\ truthy k = false).
  { destruct config; try done; eexists; (split; [reflexivity|done]). }
  destruct Hget as (k & Hget & Hk).
  step_by ltac:(rewrite Hget; reflexivity).
  rewrite Hk.
  step_by ltac:(reflexivity).
  step_by ltac:(apply prompt_spec; exact Hin).
  rewrite Hempty. cbn [nonempty String.eqb negb].
  apply bind_exit_eq.
  step_by ltac:(rewrite Hget; reflexivity).
  rewrite Hk. reflexivity.
Qed.

Lemma configure_unusable_key this props e s :
  Spec.configured this e s props ->
  FirstRun.unusable_key (lookup_prop "apiKey" props) ->
  configure this e s
  = (Throw "config.apiKey.substring is not a function",
     emit (Out ("Configuring devlog..." +:+ JsString.nl)) s).
Proof.
  intros (c & m & Hfile & Hacc & Hparse) [Htruthy Hkind].
  unfold configure.
  step_by ltac:(reflexivity).
  step_by ltac:(eapply loadConfig_parsed; eauto).
  step_by ltac:(reflexivity).
  rewrite Htruthy.
  apply bind_throw_eq, bind_throw_eq.
  destruct (lookup_prop "apiKey" props) as [| | | |text| |]; try reflexivity.
  by destruct (Hkind text).
Qed.

End ConfigureEdges.

Section UnusualConfigurations.
Import Js Sys DevLog.
Context `{Runtime}.

Lemma main_config_words args e s :
  hd_error args = Some "config" ->
  main args e s
  = try_catch (configure (new e))
      (fun msg => console_error ("Error: " +:+ msg) ;; process_exit 1) e s.
Proof. destruct args as [|c rest]; [done|]. by intros [= ->]. Qed.

Lemma loadConfig_unreadable this e s why :
  Unusual.unreadable this e s why ->
  loadConfig this e s
  = (Ret (VObj []), emit (Err ("Error reading config: " +:+ why)) s).
Proof.
  intros [[Hdir ->]|(text & mode & Hfile & Hacc & ->)]; unfold loadConfig.
  - exec_with Hdir. reflexivity.
  - exec_with Hfile. rewrite decide_True by assumption. exec. reflexivity.
Qed.

Lemma log_no_key_plain this cm cd e s config s1 :
  loadConfig this e s = (Ret config, s1) ->
  Unusual.plain config ->
  log this cm cd e s = (Exit 1, emit (Err Extra.no_key_line) s1).
Proof.
  intros Hload Hplain. unfold log.
  step_by ltac:(exact Hload).
  destruct config; try done; (step_by ltac:(reflexivity)); reflexivity.
Qed.

Lemma log_null this cm cd e s s1 :
  loadConfig this e s = (Ret VNull, s1) ->
  log this cm cd e s
  = (Throw "Cannot read properties of null (reading 'apiKey')", s1).
Proof.
  intros Hload. unfold log.
  step_by ltac:(exact Hload).
  apply bind_throw_eq. reflexivity.
Qed.

Lemma configure_null this e s :
  Unusual.holds this e s VNull ->
  configure this e s
  = (Throw "Cannot read properties of null (reading 'apiKey')",
     emit Unusual.opening s).
Proof.
  intros (c & m & Hfile & Hacc & Hparse). unfold configure.
  step_by ltac:(reflexivity).
  step_by ltac:(eapply loadConfig_parsed; eauto).
  apply bind_throw_eq. reflexivity.
Qed.

Lemma saved_then_loaded this config e s s' :
  saveConfig this config e s = (Ret tt, s') ->
  JSON_parse (JSON_stringify_2 config) = inr config ->
  loadConfig this e s' = (Ret config, s').
Proof.
  intros Hsave Hparse.
  destruct (saveConfig_returned _ _ _ _ _ Hsave) as (Hacc & mode & Hfile).
  by eapply loadConfig_parsed.
Qed.

End UnusualConfigurations.



(** X19. [devlog config] insists on a key: when there is no key to keep
    (the file is absent, or holds an object whose [apiKey] is missing or
    falsy) and the first answer is blank, the run writes "API key is
    required." on standard error and exits with status 1 after that one
    question; the other three questions are not asked and nothing is
    written to the disk. *)
Theorem configuration_requires_key `{Js.Runtime} (args : list string)
    (a1 : string) (rest : list string) (e : Sys.Env) (s : Sys.State) :
  hd_error args = Some "config" ->
  (Sys.fs s !! DevLog.configPath (DevLog.new e) = None \/
   exists props,
     Spec.configured (DevLog.new e) e s props /\
     Js.truthy (Js.lookup_prop "apiKey" props) = false) ->
  Sys.stdin s = a1 :: rest ->
  JsString.trim a1 = "" ->
  DevLog.main args e s
  = (Sys.Exit 1,
     Sys.emit (Sys.Err Unusual.key_required)
       (Sys.set_stdin rest
          (Sys.emit (Sys.Ask "Enter your API key : ")
             (Sys.emit Unusual.opening s)))).
Proof.
  intros Hargs Hconfig Hin Hblank.
  rewrite (main_config_words _ _ _ Hargs).
  apply try_catch_exit_eq.
  destruct Hconfig as [Hnone|(props & (c & m & Hfile & Hacc & Hparse) & Hkey)].
  - eapply configure_no_key; [by apply loadConfig_absent|done..].
  - eapply configure_no_key; [by eapply loadConfig_parsed|done..].
Qed.

Lemma configuration_requires_key_witness :
  let run :=
    @DevLog.main Sample.runtime ["config"] (Sample.env Sample.created)
      (Sample.state None None ["   "; "http://x"]) in
  fst run = Sys.Exit 1 /\
  Sys.fs (snd run) = Sys.fs (Sample.state None None ["   "; "http://x"]) /\
  Sys.stdin (snd run) = ["http://x"].
Proof.
  cbn zeta.
  rewrite (@configuration_requires_key Sample.runtime ["config"] "   "
             ["http://x"] (Sample.env Sample.created)
             (Sample.state None None ["   "; "http://x"]) eq_refl
             (or_introl eq_refl) eq_refl eq_refl).
  repeat split.
Defined.

(** X20. A stored [apiKey] that is truthy without being a text (a number,
    [true], an array, an object) makes [devlog config] fail before its
    first question: taking the first eight characters of the key raises a
    type error, which the entry point reports as "Error:
    config.apiKey.substring is not a function" with exit status 1. Nothing
    is asked and nothing is written, so the command cannot repair such a
    file. *)
Theorem stored_key_not_text `{Js.Runtime} (args : list string)
    (props : list (string * Js.value)) (e : Sys.Env) (s : Sys.State) :
  hd_error args = Some "config" ->
  Spec.configured (DevLog.new e) e s props ->
  FirstRun.unusable_key (Js.lookup_prop "apiKey" props) ->
  DevLog.main args e s
  = (Sys.Exit 1,
     Sys.emit (Sys.Err Unusual.substring_line) (Sys.emit Unusual.opening s)).
Proof.
  intros Hargs Hconf Hkey.
  rewrite (main_config_words _ _ _ Hargs).
  erewrite try_catch_throw_eq; [|by eapply configure_unusable_key].
  reflexivity.
Qed.

Lemma stored_key_not_text_witness :
  let s :=
    Sample.state
      (Some (Sample.text_of (Js.VObj [("apiKey", Js.VBool true)]))) None
      ["new-key"] in
  @DevLog.main Unusual.runtime ["config"] (Sample.env Sample.created) s
  = (Sys.Exit 1,
     Sys.emit (Sys.Err Unusual.substring_line) (Sys.emit Unusual.opening s)).
Proof.
  cbn zeta.
  apply (@stored_key_not_text Unusual.runtime ["config"]
           [("apiKey", Js.VBool true)]).
  - reflexivity.
  - exists (Sample.text_of (Js.VObj [("apiKey", Js.VBool true)])), 420.
    split; [reflexivity|]. split; [apply not_elem_of_empty|reflexivity].
  - split; [reflexivity|discriminate].
Defined.

(** X21. What [saveConfig] saves, [loadConfig] loads: whenever
    [saveConfig] returns, and the text it wrote parses back to the value
    it was given, [loadConfig] in the resulting state returns that value
    and changes nothing, not even the console. *)
Theorem saved_configuration_is_loaded `{Js.Runtime} (this : DevLog.DevLog)
    (config : Js.value) (e : Sys.Env) (s s' : Sys.State) :
  DevLog.saveConfig this config e s = (Sys.Ret tt, s') ->
  Js.JSON_parse (Js.JSON_stringify_2 config) = inr config ->
  DevLog.loadConfig this e s' = (Sys.Ret config, s').
Proof. apply saved_then_loaded. Qed.

Lemma saved_configuration_is_loaded_witness :
  let this := DevLog.new (Sample.env Sample.created) in
  let config := Sample.config_of true true [] in
  let s' :=
    snd (@DevLog.saveConfig Sample.runtime this config
           (Sample.env Sample.created) (Sample.state None None [])) in
  @DevLog.loadConfig Sample.runtime this (Sample.env Sample.created) s'
  = (Sys.Ret config, s').
Proof.
  cbn zeta.
  apply (@saved_configuration_is_loaded Sample.runtime
           (DevLog.new (Sample.env Sample.created))
           (Sample.config_of true true [])
           (Sample.env Sample.created) (Sample.state None None [])).
  - reflexivity.
  - reflexivity.
Defined.

Section Directories.
Import Js Sys DevLog.

Lemma append_cons c a b : String c a +:+ b = String c (a +:+ b).
Proof. reflexivity. Qed.

Lemma append_empty_r a : a +:+ "" = a.
Proof. induction a as [|c a IH]; [reflexivity|]. by rewrite append_cons, IH. Qed.

Lemma append_assoc a b c : (a +:+ b) +:+ c = a +:+ (b +:+ c).
Proof. induction a as [|x a IH]; [reflexivity|]. by rewrite !append_cons, IH. Qed.

Lemma append_length a b :
  String.length (a +:+ b) = (String.length a + String.length b)%nat.
Proof.
  induction a as [|x a IH]; [reflexivity|].
  rewrite append_cons. cbn [String.length]. by rewrite IH.
Qed.

(** The last directory [mkdir -p] makes is the one it was asked for. *)
Lemma chain_self rest acc : acc +:+ rest <> "" -> acc +:+ rest ∈ chain acc rest.
Proof.
  revert acc. induction rest as [|c r IH]; intros acc Hne.
  - rewrite append_empty_r in *. cbn [chain].
    apply String.eqb_neq in Hne. rewrite Hne. apply list_elem_of_here.
  - assert (Hstep : forall x, (acc +:+ String x "") +:+ r = acc +:+ String x r)
      by (intros x; by rewrite append_assoc).
    cbn [chain]. destruct (Ascii.eqb c "/") eqn:Hc.
    + apply Ascii.eqb_eq in Hc as ->. apply elem_of_app. right.
      rewrite <- Hstep. apply IH. by rewrite Hstep.
    + rewrite <- Hstep. apply IH. by rewrite Hstep.
Qed.

(** It makes nothing with a longer name. *)
Lemma chain_length rest acc x :
  x ∈ chain acc rest ->
  (String.length x <= String.length acc + String.length rest)%nat.
Proof.
  revert acc. induction rest as [|c r IH]; intros acc; cbn [chain].
  - destruct (String.eqb acc ""); [by intros ?%elem_of_nil|].
    intros ->%list_elem_of_singleton. lia.
  - assert (Hnext : forall y,
              x ∈ chain (acc +:+ String y "") r ->
              (String.length x
               <= String.length acc + String.length (String c r))%nat).
    { intros y Hx%IH. rewrite append_length in Hx.
      cbn [String.length] in *. lia. }
    destruct (Ascii.eqb c "/"); [|apply Hnext].
    intros [Hx|Hx]%elem_of_app; [|by eapply Hnext].
    destruct (String.eqb acc ""); [by apply elem_of_nil in Hx|].
    apply list_elem_of_singleton in Hx as ->. lia.
Qed.

Lemma lookup_made (dirs : list string) (f : gmap string node) p :
  foldr (fun d g => <[d := Dir]> g) f dirs !! p
  = if decide (p ∈ dirs) then Some Dir else f !! p.
Proof.
  induction dirs as [|d dirs IH]; cbn [foldr].
  - by rewrite decide_False by apply not_elem_of_nil.
  - destruct (decide (d = p)) as [->|Hne].
    + rewrite lookup_insert_eq. by rewrite decide_True by apply list_elem_of_here.
    + rewrite lookup_insert_ne by done. rewrite IH.
      destruct (decide (p ∈ dirs)) as [Hin|Hout].
      * by rewrite decide_True by (by apply list_elem_of_further).
      * rewrite decide_False; [done|].
        intros [?|?]%elem_of_cons; [by subst|done].
Qed.

(** [path.dirname] never returns the empty text. *)
Lemma dirname_nonempty p : Path.dirname p <> "".
Proof.
  unfold Path.dirname. destruct (String.eqb p "") eqn:Hp; [done|].
  match goal with
  | |- context [match ?scan (list_ascii_of_string p) 0%nat with _ => _ end] =>
      assert (Hscan : forall l i cut, scan l i = Some cut -> (0 < cut)%nat);
      [|destruct (scan (list_ascii_of_string p) 0%nat) as [cut|] eqn:Hcut]
  end.
  - induction l as [|c r IH]; intros i cut; [done|]. cbn.
    match goal with
    | |- context [match ?inner with Some _ => _ | None => _ end] =>
        destruct inner as [found|] eqn:Hin
    end.
    + intros [= <-]. by eapply IH.
    + clear Hin. destruct (Ascii.eqb c "/"), i, (existsb _ r); cbn; try done.
      intros [= <-]. lia.
  - apply Hscan in Hcut.
    destruct (String.prefix "/" p && (cut =? 1)%nat); [done|].
    destruct p as [|c r]; [done|]. destruct cut as [|cut]; [lia|done].
  - by destruct (String.prefix "/" p).
Qed.

Context `{Runtime}.

Lemma store_outcomes p content e s :
  (exists mode,
     store p content None e s
     = (Ret tt, set_fs (<[p := File content mode]> (fs s)) s)) \/
  (exists msg, store p content None e s = (Throw msg, s)).
Proof.
  unfold store. destruct (decide _); [right; by eexists|].
  destruct (fs s !! p) as [[old mode|]|].
  - left. by eexists.
  - right. by eexists.
  - destruct (is_dir _ _); [left|right]; by eexists.
Qed.

Lemma mkdir_outcomes p e s :
  (exists f, mkdirSync_recursive p e s = (Ret tt, set_fs f s)) \/
  (exists msg, mkdirSync_recursive p e s = (Throw msg, s)).
Proof.
  unfold mkdirSync_recursive. destruct (decide _); [right; by eexists|].
  destruct (forallb _ _); [left|right]; by eexists.
Qed.

Lemma ensureConfigDir_outcomes this e s :
  (exists f, ensureConfigDir this e s = (Ret tt, set_fs f s)) \/
  (exists msg, ensureConfigDir this e s = (Throw msg, s)).
Proof.
  unfold ensureConfigDir.
  destruct (fs s !! Path.dirname (configPath this)) as [d|] eqn:Hdir;
    exec_with Hdir.
  - left. exists (fs s). by destruct s.
  - apply mkdir_outcomes.
Qed.

Lemma saveConfig_outcomes this config e s :
  (exists s',
     saveConfig this config e s = (Ret tt, s') /\
     (exists mode,
        fs s' !! configPath this = Some (File (JSON_stringify_2 config) mode)) /\
     console s' = (console s ++ [Out "Configuration saved successfully."])%list)
  \/
  (exists msg s1,
     saveConfig this config e s
     = (Exit 1, emit (Err ("Error saving config: " +:+ msg)) s1) /\
     console s1 = console s /\ stdin s1 = stdin s).
Proof.
  unfold saveConfig.
  destruct (ensureConfigDir_outcomes this e s) as [[f Hdir]|[msg Hdir]].
  - destruct (store_outcomes (configPath this) (JSON_stringify_2 config) e
                (set_fs f s)) as [[mode Hstore]|[msg Hstore]].
    + left. eexists. split; [|split].
      * apply try_catch_ret_eq.
        unfold bind at 1. rewrite Hdir.
        unfold bind at 1. unfold writeFileSync. rewrite Hstore. reflexivity.
      * exists mode. autorewrite with world. apply lookup_insert_eq.
      * by autorewrite with world.
    + right. exists msg, (set_fs f s). split; [|done].
      erewrite try_catch_throw_eq; [reflexivity|].
      unfold bind at 1. rewrite Hdir.
      unfold bind at 1. unfold writeFileSync. by rewrite Hstore.
  - right. exists msg, s. split; [|done].
    erewrite try_catch_throw_eq; [reflexivity|].
    unfold bind at 1. by rewrite Hdir.
Qed.

Lemma saveConfig_makes_directory this config e s :
  let d := Path.dirname (configPath this) in
  fs s !! d = None ->
  fs s !! configPath this = None ->
  (String.length d < String.length (configPath this))%nat ->
  d ∉ denied e ->
  configPath this ∉ denied e ->
  (forall a text mode, a ∈ chain "" d -> fs s !! a <> Some (File text mode)) ->
  exists s',
    saveConfig this config e s = (Ret tt, s') /\
    fs s' !! d = Some Dir /\
    fs s' !! configPath this
    = Some (File (JSON_stringify_2 config) (creation_mode e)) /\
    (forall p n, p <> configPath this -> fs s !! p = Some n -> fs s' !! p = Some n) /\
    (forall p, fs s !! p = None -> fs s' !! p <> None ->
               p = configPath this \/ p ∈ chain "" d).
Proof.
  intros d Hnone Hfile Hshort Hdir Hacc Hclear.
  assert (Hself : d ∈ chain "" d).
  { apply (chain_self d ""), dirname_nonempty. }
  assert (Hout : configPath this ∉ chain "" d).
  { intros Hin%chain_length. cbn [String.length] in Hin. lia. }
  assert (Hmk : mkdirSync_recursive d e s
                = (Ret tt,
                   set_fs (foldr (fun x g => <[x := Dir]> g) (fs s)
                             (chain "" d)) s)).
  { unfold mkdirSync_recursive. rewrite decide_False by assumption.
    replace (forallb _ _) with true; [reflexivity|].
    symmetry. apply forallb_forall. intros a Ha%list_elem_of_In.
    specialize (Hclear a). destruct (fs s !! a) as [[text mode|]|]; try done.
    by destruct (Hclear text mode Ha). }
  set (made := foldr (fun x g => <[x := Dir]> g) (fs s) (chain "" d)) in *.
  assert (Hmade : forall p, made !! p
                            = if decide (p ∈ chain "" d) then Some Dir
                              else fs s !! p)
    by (intros p; apply lookup_made).
  exists (emit (Out "Configuration saved successfully.")
            (set_fs (<[configPath this :=
                         File (JSON_stringify_2 config) (creation_mode e)]> made)
               s)).
  split; [|split; [|split; [|split]]].
  - unfold saveConfig. apply try_catch_ret_eq.
    unfold bind at 1. unfold ensureConfigDir, bind at 1, existsSync.
    fold d. rewrite Hnone. cbn [negb]. rewrite Hmk.
    unfold bind at 1. unfold writeFileSync, store.
    rewrite decide_False by assumption. autorewrite with world.
    rewrite Hmade, decide_False, Hfile by assumption.
    unfold is_dir. fold d. rewrite Hmade, decide_True by assumption.
    reflexivity.
  - autorewrite with world. rewrite lookup_insert_ne.
    + by rewrite Hmade, decide_True.
    + intros Heq. rewrite Heq in Hshort. fold d in Hshort. lia.
  - autorewrite with world. apply lookup_insert_eq.
  - intros p n Hp Hold. autorewrite with world.
    rewrite lookup_insert_ne by done. rewrite Hmade.
    destruct (decide _) as [Hin|]; [|done].
    destruct n as [text mode|]; [|done]. by destruct (Hclear p text mode Hin).
  - intros p Hold. autorewrite with world.
    destruct (decide (configPath this = p)) as [|Hne]; [by left|].
    rewrite lookup_insert_ne by done. rewrite Hmade.
    destruct (decide _) as [Hin|]; [by right|done].
Qed.

End Directories.

Section CalendarDate.
Import JsDate.

Lemma date_string_fields t :
  date_string t
  = year_string (YearFromTime t) +:+ "-"
    +:+ JsString.padded 2 (MonthFromTime t + 1) +:+ "-"
    +:+ JsString.padded 2 (DateFromTime t).
Proof. unfold date_string. by rewrite civil_spec. Qed.

End CalendarDate.

(** X22. [saveConfig] either saves or ends the process; it never lets an
    error out. In every state of the disk and for every value: either it
    returns, the configuration file then holds the value printed with an
    indentation of two and the console has gained the line "Configuration
    saved successfully."; or the process exits with status 1 and the last
    thing written is one line "Error saving config: ..." on standard
    error. *)
Theorem saveConfig_saves_or_exits `{Js.Runtime} (this : DevLog.DevLog)
    (config : Js.value) (e : Sys.Env) (s : Sys.State) :
  (exists s',
     DevLog.saveConfig this config e s = (Sys.Ret tt, s') /\
     (exists mode,
        Sys.fs s' !! DevLog.configPath this
        = Some (Sys.File (Js.JSON_stringify_2 config) mode)) /\
     Sys.console s'
     = (Sys.console s ++ [Sys.Out "Configuration saved successfully."])%list)
  \/
  (exists msg s1,
     DevLog.saveConfig this config e s
     = (Sys.Exit 1, Sys.emit (Sys.Err ("Error saving config: " +:+ msg)) s1) /\
     Sys.console s1 = Sys.console s /\ Sys.stdin s1 = Sys.stdin s).
Proof. apply saveConfig_outcomes. Qed.

(** X23. [saveConfig] makes the directory it needs. When the directory of
    the configuration file is missing, no regular file stands where it or
    one of its ancestors has to be, and neither the directory nor the file
    is refused, [saveConfig] returns after creating the directory and, in
    it, the file with the mode the umask gives. Every entry the disk had is
    still there, and the only new ones are the file, the directory and
    ancestors of the directory. *)
Theorem saveConfig_creates_directory `{Js.Runtime} (this : DevLog.DevLog)
    (config : Js.value) (e : Sys.Env) (s : Sys.State) :
  let d := Path.dirname (DevLog.configPath this) in
  Sys.fs s !! d = None ->
  Sys.fs s !! DevLog.configPath this = None ->
  (String.length d < String.length (DevLog.configPath this))%nat ->
  d ∉ Sys.denied e ->
  DevLog.configPath this ∉ Sys.denied e ->
  (forall a text mode,
     a ∈ Sys.chain "" d -> Sys.fs s !! a <> Some (Sys.File text mode)) ->
  exists s',
    DevLog.saveConfig this config e s = (Sys.Ret tt, s') /\
    Sys.fs s' !! d = Some Sys.Dir /\
    Sys.fs s' !! DevLog.configPath this
    = Some (Sys.File (Js.JSON_stringify_2 config) (Sys.creation_mode e)) /\
    (forall p n,
       p <> DevLog.configPath this ->
       Sys.fs s !! p = Some n -> Sys.fs s' !! p = Some n) /\
    (forall p,
       Sys.fs s !! p = None -> Sys.fs s' !! p <> None ->
       p = DevLog.configPath this \/ p ∈ Sys.chain "" d).
Proof. apply saveConfig_makes_directory. Qed.

Lemma saveConfig_creates_directory_witness :
  let e := Sample.env Sample.created in
  let s :=
    {| Sys.fs := <["/home" := Sys.Dir]> ∅; Sys.console := []; Sys.spawned := [];
       Sys.stdin := []; Sys.sent := [] |} in
  exists s',
    @DevLog.saveConfig Sample.runtime (DevLog.new e) (Js.VObj []) e s
    = (Sys.Ret tt, s') /\
    Sys.fs s' !! "/home/dev/.config" = Some Sys.Dir /\
    Sys.fs s' !! Sample.config_file
    = Some (Sys.File (Sample.pretty_of (Js.VObj [])) 420).
Proof.
  cbn zeta.
  destruct (@saveConfig_creates_directory Sample.runtime
              (DevLog.new (Sample.env Sample.created)) (Js.VObj [])
              (Sample.env Sample.created)
              {| Sys.fs := <["/home" := Sys.Dir]> ∅; Sys.console := [];
                 Sys.spawned := []; Sys.stdin := []; Sys.sent := [] |})
    as (s' & Hrun & Hdir & Hfile & _).
  - reflexivity.
  - reflexivity.
  - vm_compute. lia.
  - apply not_elem_of_empty.
  - apply not_elem_of_empty.
  - intros a text mode Ha. vm_compute in Ha.
    repeat (apply elem_of_cons in Ha as [->|Ha]; [discriminate|]).
    by apply elem_of_nil in Ha.
  - exists s'. split; [exact Hrun|]. split; [exact Hdir|exact Hfile].
Defined.

(** X24. The date [getCurrentDate] returns is built from the calendar
    fields the ECMAScript specification defines for the clock's time value
    in UTC: the year, then the month number plus one and the day of the
    month, each on two digits, joined by dashes. The time zone of the
    machine plays no part, and the state is left as it was. *)
Theorem getCurrentDate_calendar (e : Sys.Env) (s : Sys.State) :
  DevLog.getCurrentDate e s
  = (Sys.Ret (JsDate.year_string (JsDate.YearFromTime (Sys.clock e)) +:+ "-"
              +:+ JsString.padded 2 (JsDate.MonthFromTime (Sys.clock e) + 1)
              +:+ "-"
              +:+ JsString.padded 2 (JsDate.DateFromTime (Sys.clock e))), s).
Proof.
  rewrite getCurrentDate_spec, today_utc. unfold Spec.utc_date.
  by rewrite date_string_fields.
Qed.

(** X25. A configuration file that holds the JSON text [null] breaks both
    commands that read it: [loadConfig] returns [null], reading [apiKey]
    from it raises a type error, and the entry point reports "Error: Cannot
    read properties of null (reading 'apiKey')" and exits with status 1. A
    logging command has then called neither git nor the server, and
    [config] has asked nothing and written nothing. *)
Theorem configuration_null `{Js.Runtime} (args : list string)
    (e : Sys.Env) (s : Sys.State) :
  Unusual.holds (DevLog.new e) e s Js.VNull ->
  (forall cm cd,
     Spec.log_args args = Some (cm, cd) ->
     DevLog.main args e s
     = (Sys.Exit 1, Sys.emit (Sys.Err Unusual.null_line) s)) /\
  (hd_error args = Some "config" ->
   DevLog.main args e s
   = (Sys.Exit 1,
      Sys.emit (Sys.Err Unusual.null_line) (Sys.emit Unusual.opening s))).
Proof.
  intros Hnull. split.
  - intros cm cd Hargs. rewrite (main_log _ _ _ _ _ Hargs).
    destruct Hnull as (c & m & Hfile & Hacc & Hparse).
    erewrite try_catch_throw_eq;
      [|eapply log_null; by eapply loadConfig_parsed].
    reflexivity.
  - intros Hargs. rewrite (main_config_words _ _ _ Hargs).
    erewrite try_catch_throw_eq; [|by apply configure_null].
    reflexivity.
Qed.

Lemma configuration_null_witness :
  let s := Sample.state (Some (Sample.text_of Js.VNull)) None ["key"] in
  @DevLog.main Unusual.runtime ["log"; "note"] (Sample.env Sample.created) s
  = (Sys.Exit 1, Sys.emit (Sys.Err Unusual.null_line) s) /\
  @DevLog.main Unusual.runtime ["config"] (Sample.env Sample.created) s
  = (Sys.Exit 1,
     Sys.emit (Sys.Err Unusual.null_line) (Sys.emit Unusual.opening s)).
Proof.
  cbn zeta.
  assert (Hnull : @Unusual.holds Unusual.runtime
                    (DevLog.new (Sample.env Sample.created))
                    (Sample.env Sample.created)
                    (Sample.state (Some (Sample.text_of Js.VNull)) None ["key"])
                    Js.VNull).
  { exists (Sample.text_of Js.VNull), 420.
    split; [reflexivity|]. split; [apply not_elem_of_empty|reflexivity]. }
  split.
  - apply (proj1 (@configuration_null Unusual.runtime ["log"; "note"] _ _ Hnull)
             (Some "note") None).
    reflexivity.
  - apply (proj2 (@configuration_null Unusual.runtime ["config"] _ _ Hnull)).
    reflexivity.
Defined.

(** X26. A configuration file that holds a JSON boolean, number, text or
    array counts as a configuration without a key: a logging command
    writes the line that points to [devlog config] and exits with status 1
    before calling git or the server, and [devlog config] asks for the key
    without a hint of a current one and, on a blank answer, says that the
    key is required and exits with status 1. *)
Theorem configuration_not_an_object `{Js.Runtime} (args : list string)
    (v : Js.value) (e : Sys.Env) (s : Sys.State) :
  Unusual.holds (DevLog.new e) e s v ->
  Unusual.plain v ->
  (forall cm cd,
     Spec.log_args args = Some (cm, cd) ->
     DevLog.main args e s
     = (Sys.Exit 1, Sys.emit (Sys.Err Extra.no_key_line) s)) /\
  (forall a1 rest,
     hd_error args = Some "config" ->
     Sys.stdin s = a1 :: rest ->
     JsString.trim a1 = "" ->
     DevLog.main args e s
     = (Sys.Exit 1,
        Sys.emit (Sys.Err Unusual.key_required)
          (Sys.set_stdin rest
             (Sys.emit (Sys.Ask "Enter your API key : ")
                (Sys.emit Unusual.opening s))))).
Proof.
  intros (c & m & Hfile & Hacc & Hparse) Hplain. split.
  - intros cm cd Hargs. rewrite (main_log _ _ _ _ _ Hargs).
    apply try_catch_exit_eq.
    eapply log_no_key_plain; [by eapply loadConfig_parsed|done].
  - intros a1 rest Hargs Hin Hblank. rewrite (main_config_words _ _ _ Hargs).
    apply try_catch_exit_eq.
    eapply configure_no_key; [by eapply loadConfig_parsed| |done..].
    by destruct v.
Qed.

Lemma configuration_not_an_object_witness :
  let s :=
    Sample.state (Some (Sample.text_of (Js.VStr "secret"))) None [" "] in
  @DevLog.main Unusual.runtime [] (Sample.env Sample.created) s
  = (Sys.Exit 1, Sys.emit (Sys.Err Extra.no_key_line) s) /\
  fst (@DevLog.main Unusual.runtime ["config"] (Sample.env Sample.created) s)
  = Sys.Exit 1.
Proof.
  cbn zeta.
  assert (Hplain : @Unusual.holds Unusual.runtime
                     (DevLog.new (Sample.env Sample.created))
                     (Sample.env Sample.created)
                     (Sample.state (Some (Sample.text_of (Js.VStr "secret")))
                        None [" "])
                     (Js.VStr "secret")).
  { exists (Sample.text_of (Js.VStr "secret")), 420.
    split; [reflexivity|]. split; [apply not_elem_of_empty|reflexivity]. }
  split.
  - apply (proj1 (@configuration_not_an_object Unusual.runtime [] _ _ _
                    Hplain I) None None).
    reflexivity.
  - rewrite (proj2 (@configuration_not_an_object Unusual.runtime ["config"]
                      _ _ _ Hplain I) " " [] eq_refl eq_refl eq_refl).
    reflexivity.
Defined.

(** X27. A configuration file that is there and cannot be read (a
    directory stands in its place, or reading it is refused) is not fatal
    to [loadConfig]: the error is written after "Error reading config:" on
    standard error and the empty object is returned. A logging command
    therefore goes on to report the missing key and exits with status 1,
    with nothing started and nothing sent. *)
Theorem configuration_unreadable `{Js.Runtime} (args : list string)
    (cm cd : option string) (why : string) (e : Sys.Env) (s : Sys.State) :
  Unusual.unreadable (DevLog.new e) e s why ->
  DevLog.loadConfig (DevLog.new e) e s
  = (Sys.Ret (Js.VObj []),
     Sys.emit (Sys.Err ("Error reading config: " +:+ why)) s) /\
  (Spec.log_args args = Some (cm, cd) ->
   DevLog.main args e s
   = (Sys.Exit 1,
      Sys.emit (Sys.Err Extra.no_key_line)
        (Sys.emit (Sys.Err ("Error reading config: " +:+ why)) s))).
Proof.
  intros Hbad. split; [by apply loadConfig_unreadable|].
  intros Hargs. rewrite (main_log _ _ _ _ _ Hargs).
  apply try_catch_exit_eq.
  eapply log_no_key; [by apply loadConfig_unreadable|done].
Qed.

Lemma configuration_unreadable_witness :
  let e :=
    {| Sys.homedir := "/home/dev"; Sys.umask := 18;
       Sys.denied := {[Sample.config_file]}; Sys.exec := Sample.git;
       Sys.clock := 0; Sys.zone := 0; Sys.import_error := None;
       Sys.fetch := fun _ => Sys.Answer Sample.created |} in
  let s :=
    Sample.state (Some (Sample.text_of (Sample.config_of true true []))) None [] in
  fst (@DevLog.main Sample.runtime ["log"; "note"] e s) = Sys.Exit 1 /\
  Sys.spawned (snd (@DevLog.main Sample.runtime ["log"; "note"] e s)) = [] /\
  Sys.sent (snd (@DevLog.main Sample.runtime ["log"; "note"] e s)) = [].
Proof.
  intros e s.
  destruct (@configuration_unreadable Sample.runtime ["log"; "note"]
              (Some "note") None
              ("EACCES: permission denied, open "
               +:+ Sys.quoted Sample.config_file) e s) as [_ Hrun].
  - right. exists (Sample.text_of (Sample.config_of true true [])), 420.
    split; [reflexivity|]. split; [|reflexivity].
    change (Sample.config_file ∈ ({[Sample.config_file]} : gset string)).
    by apply elem_of_singleton_2.
  - rewrite (Hrun eq_refl). repeat split.
Defined.

Section InstallFailures.
Import Js Sys DevLog.
Context `{Runtime}.

Lemma installHook_unreadable e s out why :
  exec e Spec.repository_command = inl out ->
  is_Some (fs s !! hooksDir) ->
  (fs s !! hookPath = Some Dir
   /\ why = "EISDIR: illegal operation on a directory, read")
  \/ (exists text mode,
        fs s !! hookPath = Some (File text mode)
        /\ hookPath ∈ denied e
        /\ why = "EACCES: permission denied, open " +:+ quoted hookPath) ->
  installHook e s
  = (Exit 1,
     emit (Err ("Error reading existing hook: " +:+ why))
       (emit (Out "⚠️  post-commit hook already exists.")
          (spawn Spec.repository_command s))).
Proof.
  intros Hgit [d Hd] Hbad. unfold installHook.
  unfold bind at 1. rewrite isGitRepository_spec, Hgit. cbn [negb].
  exec_with Hd.
  destruct Hbad as [[Hdir ->]|(text & mode & Hfile & Hacc & ->)].
  - exec_with Hdir. reflexivity.
  - exec_with Hfile. rewrite decide_True by assumption. reflexivity.
Qed.

Lemma installHook_refused e s out :
  exec e Spec.repository_command = inl out ->
  is_Some (fs s !! hooksDir) ->
  fs s !! hookPath = None ->
  hookPath ∈ denied e \/ fs s !! hooksDir <> Some Dir ->
  exists msg,
    installHook e s
    = (Exit 1,
       emit (Err ("❌ Error installing hook: " +:+ msg))
         (spawn Spec.repository_command s)).
Proof.
  intros Hgit [d Hd] Hnone Hbad. unfold installHook.
  unfold bind at 1. rewrite isGitRepository_spec, Hgit. cbn [negb].
  exec_with Hd. exec_with Hnone. unfold store. autorewrite with world.
  destruct (decide _) as [|Hacc]; [by eexists|].
  destruct Hbad as [?|Hdir]; [done|].
  rewrite Hnone. unfold is_dir. autorewrite with world.
  rewrite hook_in_hooksDir, Hd.
  destruct d as [text mode|]; [by eexists|done].
Qed.

End InstallFailures.

Section InputOrder.
Import Js Sys DevLog Frame Order.
Context `{Runtime}.

Lemma takes_quiet {A : Type} (m : M A) :
  keeps fs m -> keeps stdin m -> takes 0 m.
Proof.
  intros Hfs Hin e s. split; [apply Hfs|]. intros a _. rewrite Hin. lia.
Qed.

Lemma takes_prompt q : takes 1 (prompt q).
Proof.
  intros e s. unfold prompt, question, bind, ret.
  destruct (stdin s) as [|answer rest] eqn:Hin; cbn; [done|].
  split; [done|]. intros a _. lia.
Qed.

Lemma writes_after_bind {A B : Type} c n (m : M A) (k : A -> M B) :
  takes c m -> (forall a, writes_after n (k a)) ->
  writes_after (c + n) (bind m k).
Proof.
  intros Hm Hk e s Hshort. unfold bind. destruct (Hm e s) as [Hfs Hin].
  destruct (m e s) as [[a| | |] s1]; cbn [fst snd] in *; try done.
  rewrite Hk; [done|]. specialize (Hin a eq_refl). lia.
Qed.

Lemma writes_after_zero {A : Type} (m : M A) : writes_after 0 m.
Proof. intros e s Hshort. lia. Qed.

Lemma configure_writes_last this : writes_after 4 (configure this).
Proof.
  unfold configure.
  repeat first
    [ eapply (writes_after_bind 1); [solve [apply takes_prompt]|intros ?; cbv zeta]
    | eapply (writes_after_bind 0);
      [solve [apply takes_quiet; unfold_methods; frame]|intros ?; cbv zeta] ].
  apply writes_after_zero.
Qed.

End InputOrder.

Section ConfigureAgain.
Import Js Sys DevLog.
Context `{Runtime}.

Lemma reconfigured_key this props key a1 a2 a3 a4 :
  lookup_prop "apiKey" props = VStr key ->
  lookup_prop "apiKey" (Spec.reconfigured this props a1 a2 a3 a4)
  = VStr (if nonempty (JsString.trim a1) then JsString.trim a1 else key).
Proof.
  intros Hk. unfold Spec.reconfigured. cbn zeta.
  rewrite !lookup_assign_ne by discriminate.
  destruct (nonempty _); [apply lookup_assign_eq|exact Hk].
Qed.

Lemma reconfigured_url this props a1 a2 a3 a4 :
  lookup_prop "apiBaseUrl" (Spec.reconfigured this props a1 a2 a3 a4)
  = or_else (VStr (JsString.trim a2)) (Reconfigure.offered this props).
Proof.
  unfold Spec.reconfigured, Reconfigure.offered. cbn zeta.
  rewrite !lookup_assign_ne by discriminate. rewrite lookup_assign_eq.
  destruct (nonempty _); [by rewrite lookup_assign_ne|reflexivity].
Qed.

Lemma configure_again this props key a1 a2 a3 a4 rest e s :
  Spec.configured this e s props ->
  lookup_prop "apiKey" props = VStr key ->
  key <> "" ->
  stdin s = a1 :: a2 :: a3 :: a4 :: rest ->
  is_Some (fs s !! Path.dirname (configPath this)) ->
  exists s' mode,
    configure this e s = (Ret tt, s') /\
    fs s' = <[configPath this :=
                File (JSON_stringify_2
                        (VObj (Spec.reconfigured this props a1 a2 a3 a4))) mode]>
              (fs s) /\
    console s'
    = (console s
       ++ Unusual.opening :: Reconfigure.asked this props key
       ++ [Out "Configuration saved successfully."])%list.
Proof.
  intros (c & m & Hfile & Hacc & Hparse) Hk Hne Hin Hdir.
  assert (Hkey : Spec.key_available props a1).
  { unfold Spec.key_available. rewrite Hk. by left. }
  unfold configure.
  step_by ltac:(reflexivity).
  step_by ltac:(eapply loadConfig_parsed; eauto).
  step_by ltac:(reflexivity).
  rewrite Hk. cbn [truthy]. apply String.eqb_neq in Hne. rewrite Hne.
  cbn [negb].
  step_by ltac:(reflexivity).
  step_by ltac:(apply prompt_spec; exact Hin).
  step_by ltac:(apply new_key_step; exact Hkey).
  step_by ltac:(reflexivity).
  step_by ltac:(apply prompt_spec; reflexivity).
  step_by ltac:(reflexivity).
  step_by ltac:(apply prompt_spec; reflexivity).
  step_by ltac:(reflexivity).
  step_by ltac:(apply prompt_spec; reflexivity).
  step_by ltac:(reflexivity).
  erewrite saveConfig_spec; [|by autorewrite with world; eauto..].
  eexists _, m. split; [reflexivity|]. autorewrite with world.
  split; [reflexivity|].
  unfold Reconfigure.asked, Reconfigure.offered, Reconfigure.hint.
  replace (lookup_prop "apiBaseUrl"
             (if nonempty (JsString.trim a1)
              then assign_prop "apiKey" (VStr (JsString.trim a1)) props
              else props))
    with (lookup_prop "apiBaseUrl" props)
    by (destruct (nonempty _); [by rewrite lookup_assign_ne|reflexivity]).
  rewrite <- !app_assoc. reflexivity.
Qed.

End ConfigureAgain.

(** X28. The two ways a plain [install] fails inside a repository with a
    hooks directory. When a hook is there and cannot be read (a directory
    stands at its path, or reading is refused), the run says that the hook
    already exists, reports "Error reading existing hook: ..." on standard
    error and exits with status 1. When no hook is there and the template
    cannot be written (writing is refused, or the hooks path is not a
    directory), it reports "❌ Error installing hook: ..." and exits with
    status 1. In both cases the file system is left as it was. *)
Theorem install_failures `{Js.Runtime} (out : string) (e : Sys.Env)
    (s : Sys.State) :
  Sys.exec e Spec.repository_command = inl out ->
  is_Some (Sys.fs s !! DevLog.hooksDir) ->
  (forall why,
     (Sys.fs s !! DevLog.hookPath = Some Sys.Dir
      /\ why = "EISDIR: illegal operation on a directory, read")
     \/ (exists text mode,
           Sys.fs s !! DevLog.hookPath = Some (Sys.File text mode)
           /\ DevLog.hookPath ∈ Sys.denied e
           /\ why = "EACCES: permission denied, open "
                    +:+ Sys.quoted DevLog.hookPath) ->
     DevLog.main ["install"] e s
     = (Sys.Exit 1,
        Sys.emit (Sys.Err ("Error reading existing hook: " +:+ why))
          (Sys.emit (Sys.Out "⚠️  post-commit hook already exists.")
             (Sys.spawn Spec.repository_command s)))) /\
  (Sys.fs s !! DevLog.hookPath = None ->
   DevLog.hookPath ∈ Sys.denied e
   \/ Sys.fs s !! DevLog.hooksDir <> Some Sys.Dir ->
   exists msg,
     DevLog.main ["install"] e s
     = (Sys.Exit 1,
        Sys.emit (Sys.Err ("❌ Error installing hook: " +:+ msg))
          (Sys.spawn Spec.repository_command s))).
Proof.
  intros Hgit Hhooks. split.
  - intros why Hbad. apply main_install_plain; [|done].
    by eapply installHook_unreadable.
  - intros Hnone Hbad.
    destruct (installHook_refused e s out Hgit Hhooks Hnone Hbad) as [msg Hrun].
    exists msg. by apply main_install_plain.
Qed.

Lemma install_failures_witness :
  let e :=
    {| Sys.homedir := "/home/dev"; Sys.umask := 18;
       Sys.denied := {[DevLog.hookPath]}; Sys.exec := Sample.git;
       Sys.clock := 0; Sys.zone := 0; Sys.import_error := None;
       Sys.fetch := fun _ => Sys.Answer Sample.created |} in
  (exists msg,
     @DevLog.main Sample.runtime ["install"] e (Sample.state None None [])
     = (Sys.Exit 1,
        Sys.emit (Sys.Err ("❌ Error installing hook: " +:+ msg))
          (Sys.spawn Spec.repository_command (Sample.state None None [])))) /\
  fst (@DevLog.main Sample.runtime ["install"] e
         (Sample.state None (Some Sample.other_hook) []))
  = Sys.Exit 1.
Proof.
  intros e.
  assert (Hdenied : DevLog.hookPath ∈ Sys.denied e).
  { change (DevLog.hookPath ∈ ({[DevLog.hookPath]} : gset string)).
    by apply elem_of_singleton_2. }
  split.
  - apply (proj2 (@install_failures Sample.runtime _ e
                    (Sample.state None None []) eq_refl
                    (ex_intro _ Sys.Dir eq_refl)));
      [reflexivity|by left].
  - erewrite (proj1 (@install_failures Sample.runtime _ e
                       (Sample.state None (Some Sample.other_hook) []) eq_refl
                       (ex_intro _ Sys.Dir eq_refl))); [reflexivity|].
    right. exists Sample.other_hook, 493.
    split; [reflexivity|]. split; [exact Hdenied|reflexivity].
Defined.



(** X30. [devlog config] writes last: the configuration file is written
    only after all four questions have been answered. Whatever the
    configuration file holds and whatever is typed, a run that finds fewer
    than four lines on standard input leaves the file system as it was. *)
Theorem config_writes_last `{Js.Runtime} (args : list string) (e : Sys.Env)
    (s : Sys.State) :
  hd_error args = Some "config" ->
  (length (Sys.stdin s) < 4)%nat ->
  Sys.fs (snd (DevLog.main args e s)) = Sys.fs s.
Proof.
  intros Hargs Hshort.
  rewrite (main_config_words _ _ _ Hargs), handler_frame.
  by apply configure_writes_last.
Qed.

Lemma config_writes_last_witness :
  Sys.fs (snd (@DevLog.main Sample.runtime ["config"] (Sample.env Sample.created)
                 (Sample.state None None ["key"; "http://x"; "n"])))
  = Sample.disk None None.
Proof.
  apply (@config_writes_last Sample.runtime ["config"]
           (Sample.env Sample.created)
           (Sample.state None None ["key"; "http://x"; "n"])).
  - reflexivity.
  - cbn. lia.
Defined.
